(** * WOW-Live-Stress-Test: capacity estimate, session probe, fleet manager

  A shallow embedding of the JavaScript sources

    - speedtest.js        ([calculateMaxBrowsers], [promptManualSpeed]),
    - stream-monitor.js   ([getHealth], [waitForPlayback]),
    - browser-manager.js  (class [BrowserManager]),

  followed by the properties of the specification that are settled on it.

  JavaScript numbers are IEEE 754 binary64 values; they are modelled by
  [spec_float] at precision 53 and maximal exponent 1024, with the
  correctly rounded operations of the standard library's [SpecFloat].
  Asynchronous code is modelled by explicit state passing: the answer of
  the outside world at every [await] is an input of the model, and what the
  code does to the outside world is recorded in a trace of events. *)

From Stdlib Require Import ZArith List Ascii String Bool Lia PeanoNat.
From Stdlib Require Import Floats.SpecFloat.
Import ListNotations.

Set Implicit Arguments.

(* ================================================================== *)
(** * JavaScript numbers *)
(* ================================================================== *)

Module JS.

Definition prec : Z := 53.
Definition emax : Z := 1024.

(** The type [Number]. *)
Definition number : Type := spec_float.

(** The number denoted by an integer literal. *)
Definition of_Z (z : Z) : number := binary_normalize prec emax z 0 false.

Definition NaN : number := S754_nan.
Definition Infinity : number := S754_infinity false.

(** [x * y], [x / y]. *)
Definition mul (x y : number) : number := SFmul prec emax x y.
Definition div (x y : number) : number := SFdiv prec emax x y.

(** [x < y], [x <= y], [x > y], [x === y] on numbers. *)
Definition lt (x y : number) : bool := SFltb x y.
Definition le (x y : number) : bool := SFleb x y.
Definition gt (x y : number) : bool := SFltb y x.
Definition eq (x y : number) : bool := SFeqb x y.

(** The global [isNaN] on a number. *)
Definition isNaN (x : number) : bool :=
  match x with S754_nan => true | _ => false end.

Definition isFinite (x : number) : bool :=
  match x with S754_zero _ | S754_finite _ _ _ => true | _ => false end.

(** Whether a value of the type above is a binary64 value: the mantissa
    and the exponent of a finite one are in the form IEEE 754 gives them.
    Every number of a JavaScript program is one; the comparisons below
    order such values only. *)
Definition isBinary64 (x : number) : bool := valid_binary prec emax x.

(** The decimal literal [0.8]: the binary64 value nearest to 8/10,
    7205759403792794 * 2^-53. *)
Definition lit_0_8 : number := S754_finite false 7205759403792794 (-53).

(** [Math.floor]: the greatest integral number not above [x]; zeros,
    infinities and NaN are returned as they are. A finite [x] with a
    non-negative exponent is integral already. *)
Definition Math_floor (x : number) : number :=
  match x with
  | S754_finite s m e =>
      if (0 <=? e)%Z then x
      else
        let q := Z.shiftr (Zpos m) (- e) in
        if s then
          let q' := if (Z.shiftl q (- e) =? Zpos m)%Z then q else (q + 1)%Z in
          SFopp (of_Z q')
        else of_Z q
  | _ => x
  end.

(** [Math.round]: the integral number nearest to [x], ties towards
    +Infinity; the result is -0 when [x] is negative and rounds to zero. *)
Definition Math_round (x : number) : number :=
  match x with
  | S754_finite s m e =>
      if (0 <=? e)%Z then x
      else
        let k := (- e)%Z in
        let sm := if s then Zneg m else Zpos m in
        let q := ((2 * sm + 2 ^ k) / 2 ^ (k + 1))%Z in
        if (q =? 0)%Z then S754_zero s
        else if (q <? 0)%Z then SFopp (of_Z (- q)) else of_Z q
  | _ => x
  end.

(** [Math.max] of two numbers: NaN if either is NaN, +0 above -0. *)
Definition Math_max (x y : number) : number :=
  match SFcompare x y with
  | None => NaN
  | Some Lt => y
  | Some Gt => x
  | Some Eq => match x with S754_zero true => y | _ => x end
  end.

End JS.

(* ================================================================== *)
(** * speedtest.js *)
(* ================================================================== *)

Module Speedtest.

Import JS.

(** The object [{downloadKbps, uploadKbps, ping}]. *)
Record Speed : Type := mkSpeed {
  downloadKbps : number;
  uploadKbps : number;
  ping : number
}.

(** [calculateMaxBrowsers(downloadKbps, streamBitrateKbps, safetyMargin)]. *)
Definition calculateMaxBrowsers
    (downloadKbps streamBitrateKbps safetyMargin : number) : number :=
  let usableBandwidth := mul downloadKbps safetyMargin in
  let maxBrowsers := Math_floor (div usableBandwidth streamBitrateKbps) in
  Math_max (of_Z 1) maxBrowsers.

(** [calculateMaxBrowsers] called with two arguments: the default
    parameter [safetyMargin = 0.8]. *)
Definition calculateMaxBrowsers_default
    (downloadKbps streamBitrateKbps : number) : number :=
  calculateMaxBrowsers downloadKbps streamBitrateKbps lit_0_8.

Section PromptManualSpeed.

(** The built-in [parseFloat]; only its result on the answer matters. *)
Variable parseFloat : string -> number.

(** [promptManualSpeed()]: the value the promise resolves to when the user
    types [answer] at the prompt. *)
Definition promptManualSpeed (answer : string) : Speed :=
  let mbps := parseFloat answer in
  if isNaN mbps || le mbps (of_Z 0) then
    mkSpeed (of_Z 50000) (of_Z 25000) (of_Z 20)
  else
    let downloadKbps := Math_round (mul mbps (of_Z 1000)) in
    mkSpeed downloadKbps (div downloadKbps (of_Z 2)) (of_Z 20).

End PromptManualSpeed.

End Speedtest.

(* ================================================================== *)
(** * Awaited calls into the browser *)
(* ================================================================== *)

Module Async.

(** How an awaited call completes: it returns a value, or it throws an
    error whose [message] is the string given. *)
Inductive Completion (A : Type) : Type :=
| Normal (value : A)
| Throw (message : string).

Arguments Normal {A} value.
Arguments Throw {A} message.

Definition bind {A B : Type} (c : Completion A) (k : A -> Completion B)
  : Completion B :=
  match c with
  | Normal a => k a
  | Throw message => Throw message
  end.

(** [try { body } catch (error) { handler(error.message) }]. *)
Definition try_catch {A : Type} (body : Completion A)
    (handler : string -> Completion A) : Completion A :=
  match body with
  | Normal a => Normal a
  | Throw message => handler message
  end.

Definition throws {A : Type} (c : Completion A) : bool :=
  match c with Normal _ => false | Throw _ => true end.

End Async.

Declare Scope completion_scope.
Delimit Scope completion_scope with completion.
Notation "x <- c ;; k" := (Async.bind c (fun x => k))
  (at level 61, c at next level, right associativity) : completion_scope.

(* ================================================================== *)
(** * stream-monitor.js *)
(* ================================================================== *)

Module StreamMonitor.

Import JS Async.

(** A Playwright page handle. *)
Definition Page : Type := nat.

(** The object [window._streamHealth] that [injectMonitor] installs. *)
Record StreamHealth : Type := mkStreamHealth {
  isPlaying : bool;
  currentTime : number;
  lastTime : number;
  stalledCount : nat;
  bufferingCount : nat;
  errors : list string;
  readyState : nat;
  startTime : Z
}.

(** What [page.evaluate(() => window._streamHealth)] gives: it throws, or
    it returns [undefined] ([None]: no monitor on the page) or the object. *)
Definition Evaluate : Type := Page -> Completion (option StreamHealth).

(** The object [getHealth] resolves to. The three properties that only the
    spread [...health] copies are absent from the two fallback objects. *)
Record HealthReport : Type := mkHealthReport {
  rep_isPlaying : bool;
  rep_currentTime : number;
  rep_lastTime : option number;
  rep_stalledCount : nat;
  rep_bufferingCount : nat;
  rep_errors : list string;
  rep_readyState : option nat;
  rep_startTime : option Z;
  healthy : bool
}.

(** The object literal of the two fallback returns. *)
Definition fallbackReport (errs : list string) : HealthReport :=
  mkHealthReport false (of_Z 0) None 0 0 errs None None false.

(** [getHealth(page)]. *)
Definition getHealth (evaluate : Evaluate) (page : Page)
  : Completion HealthReport :=
  try_catch
    (health <- evaluate page ;;
     match health with
     | None => Normal (fallbackReport ["Monitor not initialized"%string])
     | Some health =>
         let timeAdvancing := gt (currentTime health) (lastTime health) in
         let healthy :=
           isPlaying health && timeAdvancing
           && (List.length (errors health) =? 0)%nat in
         Normal (mkHealthReport
                   (isPlaying health) (currentTime health)
                   (Some (lastTime health))
                   (stalledCount health) (bufferingCount health)
                   (errors health)
                   (Some (readyState health)) (Some (startTime health))
                   healthy)
     end)%completion
    (fun message => Normal (fallbackReport [message])).

(** [waitForPlayback(page, timeoutMs)]; [waitForFunction] is how
    [page.waitForFunction] completes (it throws when the timeout expires). *)
Definition waitForPlayback (waitForFunction : Completion unit)
  : Completion bool :=
  try_catch
    (_ <- waitForFunction ;; Normal true)%completion
    (fun _ => Normal false).

End StreamMonitor.

(* ================================================================== *)
(** * browser-manager.js *)
(* ================================================================== *)

Module BrowserManager.

Import Async.

Definition Page : Type := StreamMonitor.Page.

(** A Playwright browser handle, a browser context handle and the handle
    that [setInterval] returns. *)
Definition Browser : Type := nat.
Definition Context : Type := nat.
Definition Timer : Type := nat.

(** [this.stats]. *)
Record Stats : Type := mkStats {
  launched : nat;
  healthy : nat;
  buffering : nat;
  errors : nat
}.

(** The fields of a [BrowserManager]. [healthCheckInterval] is [None] for
    [null]. *)
Record Manager : Type := mkManager {
  browsers : list Browser;
  pages : list Page;
  stats : Stats;
  isShuttingDown : bool;
  healthCheckInterval : option Timer
}.

(** [new BrowserManager()]. *)
Definition constructor : Manager :=
  mkManager [] [] (mkStats 0 0 0 0) false None.

Definition set_stats (st : Stats) (this : Manager) : Manager :=
  mkManager (browsers this) (pages this) st
            (isShuttingDown this) (healthCheckInterval this).

(** The value [launchBrowser] resolves to; [error] is [None] when the
    property is absent. *)
Record LaunchResult : Type := mkLaunchResult {
  success : bool;
  error : option string
}.

(** The argument of the [onProgress] callback. *)
Record Progress : Type := mkProgress {
  current : nat;
  total : nat;
  progress_success : bool;
  progress_error : option string;
  progress_stats : Stats
}.

(** What the manager does to the outside world, in the order it does it. *)
Inductive Event : Type :=
| EvLaunchCalled (index : nat)
| EvLaunchSettled (index : nat) (result : LaunchResult)
| EvProgress (p : Progress)
| EvSleep (ms : nat)
| EvUpdate (st : Stats)
| EvClearInterval (t : Timer)
| EvClose (b : Browser) (closed : bool)
| EvLogClosed (closed total : nat).

(** How the awaited calls of one [launchBrowser] complete, each one if it
    is reached. *)
Record LaunchWorld : Type := mkLaunchWorld {
  chromium_launch : Completion Browser;
  browser_newContext : Completion Context;
  context_newPage : Completion Page;
  page_goto : Completion unit;
  injectMonitor : Completion unit;
  attemptPlay : Completion unit;
  page_waitForFunction : Completion unit
}.

(** The awaited part of the [try] block of [launchBrowser], lines 31-58. *)
Definition launchSteps (w : LaunchWorld)
  : Completion (Browser * Page * bool) :=
  (browser <- chromium_launch w ;;
   _ <- browser_newContext w ;;
   page <- context_newPage w ;;
   _ <- page_goto w ;;
   _ <- injectMonitor w ;;
   _ <- attemptPlay w ;;
   playing <- StreamMonitor.waitForPlayback (page_waitForFunction w) ;;
   Normal (browser, page, playing))%completion.

(** [launchBrowser(index, streamUrl)]: the rest of the [try] block runs
    without interruption on the manager as it is when the last awaited call
    returns; the [catch] block runs when one of them throws. *)
Definition launchBrowser (w : LaunchWorld) (index : nat) (streamUrl : string)
    (this : Manager) : Manager * LaunchResult :=
  match launchSteps w with
  | Normal (browser, page, playing) =>
      let st := stats this in
      let this1 :=
        mkManager (browsers this ++ [browser]) (pages this ++ [page])
                  (mkStats (S (launched st)) (healthy st)
                           (buffering st) (errors st))
                  (isShuttingDown this) (healthCheckInterval this) in
      if playing then
        let st1 := stats this1 in
        (set_stats (mkStats (launched st1) (S (healthy st1))
                            (buffering st1) (errors st1)) this1,
         mkLaunchResult true None)
      else
        (this1, mkLaunchResult true (Some "Video not playing yet"%string))
  | Throw message =>
      let st := stats this in
      (set_stats (mkStats (launched st) (healthy st)
                          (buffering st) (S (errors st))) this,
       mkLaunchResult false (Some message))
  end.

(** [stopHealthChecks()]. *)
Definition stopHealthChecks (this : Manager) : Manager * list Event :=
  match healthCheckInterval this with
  | Some t =>
      (mkManager (browsers this) (pages this) (stats this)
                 (isShuttingDown this) None,
       [EvClearInterval t])
  | None => (this, [])
  end.

(** The part of [shutdown()] that runs before its first [await], lines
    157-162: the state the manager is in while a shutdown is in progress. *)
Definition shutdownBegin (this : Manager) : Manager * list Event :=
  stopHealthChecks
    (mkManager (browsers this) (pages this) (stats this)
               true (healthCheckInterval this)).

(** The loop of [shutdown()], lines 164-172; [close b] is how
    [browser.close()] completes on browser [b]. *)
Fixpoint closeBrowsers (close : Browser -> Completion unit)
    (bs : list Browser) (closed : nat) : nat * list Event :=
  match bs with
  | [] => (closed, [])
  | browser :: rest =>
      match close browser with
      | Normal _ =>
          let '(n, tr) := closeBrowsers close rest (S closed) in
          (n, EvClose browser true :: tr)
      | Throw _ =>
          let '(n, tr) := closeBrowsers close rest closed in
          (n, EvClose browser false :: tr)
      end
  end.

(** [shutdown()]. *)
Definition shutdown (close : Browser -> Completion unit) (this : Manager)
  : Manager * list Event :=
  if isShuttingDown this then (this, [])
  else
    let '(this1, tr1) := shutdownBegin this in
    let '(closed, tr2) := closeBrowsers close (browsers this1) 0 in
    (mkManager [] [] (stats this1)
               (isShuttingDown this1) (healthCheckInterval this1),
     tr1 ++ tr2 ++ [EvLogClosed closed (List.length (browsers this1))]).

(** [getStats()]. *)
Definition getStats (this : Manager) : Stats :=
  let st := stats this in
  mkStats (launched st) (healthy st) (buffering st) (errors st).

(** The number of browsers a trace reports closed. *)
Fixpoint closedIn (tr : list Event) : nat :=
  match tr with
  | [] => 0
  | EvClose _ true :: rest => S (closedIn rest)
  | _ :: rest => closedIn rest
  end.

(** A call of [shutdown()] that is suspended at [await browser.close()],
    line 167: the index of the array iterator of line 165 and the local
    counter [closed]. *)
Record Teardown : Type := mkTeardown {
  position : nat;
  closedSoFar : nat
}.

(** The end of [shutdown()], lines 174-177, with the local counter at
    [closed]. *)
Definition shutdownEnd (closed : nat) (this : Manager)
  : Manager * list Event :=
  (mkManager [] [] (stats this)
             (isShuttingDown this) (healthCheckInterval this),
   [EvLogClosed closed (List.length (browsers this))]).

(** A call of [shutdown()] up to its first [await]: lines 157-162, then the
    first turn of the loop of line 165. With no tracked browser no [await]
    is reached and the call runs to its end. [pending] is the call of
    [shutdown()] that is suspended, if there is one. *)
Definition shutdownCalled (this : Manager) (pending : option Teardown)
  : Manager * option Teardown * list Event :=
  if isShuttingDown this then (this, pending, [])
  else
    let '(this1, tr1) := shutdownBegin this in
    match browsers this1 with
    | [] =>
        let '(this2, tr2) := shutdownEnd 0 this1 in
        (this2, None, tr1 ++ tr2)
    | _ :: _ => (this1, Some (mkTeardown 0 0), tr1)
    end.

(** The [browser.close()] that a suspended [shutdown()] awaits settles:
    lines 166-172 for the browser under the iterator, then the next turn of
    the loop, on the array as it is by then, or the end of the call. *)
Definition closeSettled (close : Browser -> Completion unit)
    (this : Manager) (t : Teardown)
  : Manager * option Teardown * list Event :=
  match nth_error (browsers this) (position t) with
  | Some browser =>
      let '(closed, ev) :=
        match close browser with
        | Normal _ => (S (closedSoFar t), EvClose browser true)
        | Throw _ => (closedSoFar t, EvClose browser false)
        end in
      if S (position t) <? List.length (browsers this) then
        (this, Some (mkTeardown (S (position t)) closed), [ev])
      else
        let '(this1, tr1) := shutdownEnd closed this in
        (this1, None, ev :: tr1)
  | None =>
      let '(this1, tr1) := shutdownEnd (closedSoFar t) this in
      (this1, None, tr1)
  end.

(** [n] awaited closes settle one after the other, or as many as the
    suspended [shutdown()] still awaits. *)
Fixpoint closesSettled (close : Browser -> Completion unit) (n : nat)
    (this : Manager) (pending : option Teardown)
  : Manager * option Teardown * list Event :=
  match n, pending with
  | S n', Some t =>
      let '(this1, pending1, tr1) := closeSettled close this t in
      let '(this2, pending2, tr2) := closesSettled close n' this1 pending1 in
      (this2, pending2, tr1 ++ tr2)
  | _, _ => (this, pending, [])
  end.

(** What happens around the launches of one [startStaggeredLaunch]: how the
    awaited calls of launch [index] complete; whether [shutdown()] is called
    while launch [index], or the sleep after it, is awaited; how many of the
    closes of a suspended [shutdown()] settle during that time; and how
    [browser.close()] completes on each browser. *)
Record Schedule : Type := mkSchedule {
  worldAt : nat -> LaunchWorld;
  shutdownDuringLaunch : nat -> bool;
  shutdownDuringSleep : nat -> bool;
  closesDuringLaunch : nat -> nat;
  closesDuringSleep : nat -> nat;
  browser_close : Browser -> Completion unit
}.

(** What the rest of the program does while the launch loop is suspended
    at an [await]: [shutdown()] is called if [requested], and [settled]
    closes of the suspended [shutdown()] settle. *)
Definition meanwhile (close : Browser -> Completion unit) (requested : bool)
    (settled : nat) (this : Manager) (pending : option Teardown)
  : Manager * option Teardown * list Event :=
  let '(this1, pending1, tr1) :=
    if requested then shutdownCalled this pending else (this, pending, []) in
  let '(this2, pending2, tr2) := closesSettled close settled this1 pending1 in
  (this2, pending2, tr1 ++ tr2).

(** The [for] loop of [startStaggeredLaunch], entered with [let i] equal to
    [i] and [remaining = count - i] iterations to go. The manager is read
    and written where the source reads and writes it: the test of line 85
    before the launch is called, the tail of [launchBrowser] when the launch
    settles, the test of line 100 after it. The result holds the call of
    [shutdown()] that is still suspended when the loop is left. *)
Fixpoint launchLoop (sched : Schedule) (count : nat) (streamUrl : string)
    (delayMs : nat) (onProgress : bool) (remaining i : nat) (this : Manager)
    (pending : option Teardown)
  : Manager * option Teardown * list Event :=
  match remaining with
  | 0 => (this, pending, [])
  | S remaining' =>
      if isShuttingDown this then (this, pending, [])
      else
        let index := i + 1 in
        let '(this0, pending0, tr0) :=
          meanwhile (browser_close sched) (shutdownDuringLaunch sched index)
                    (closesDuringLaunch sched index) this pending in
        let '(this1, result) :=
          launchBrowser (worldAt sched index) index streamUrl this0 in
        let report :=
          if onProgress then
            [EvProgress (mkProgress index count (success result)
                                    (error result) (stats this1))]
          else [] in
        let evs :=
          EvLaunchCalled index
          :: tr0 ++ EvLaunchSettled index result :: report in
        if (i <? count - 1) && negb (isShuttingDown this1) then
          let '(this2, pending2, tr2) :=
            meanwhile (browser_close sched) (shutdownDuringSleep sched index)
                      (closesDuringSleep sched index) this1 pending0 in
          let '(this3, pending3, tr) :=
            launchLoop sched count streamUrl delayMs onProgress
                       remaining' (S i) this2 pending2 in
          (this3, pending3, evs ++ EvSleep delayMs :: tr2 ++ tr)
        else
          let '(this3, pending3, tr) :=
            launchLoop sched count streamUrl delayMs onProgress
                       remaining' (S i) this1 pending0 in
          (this3, pending3, evs ++ tr)
  end.

(** [startStaggeredLaunch(count, streamUrl, delayMs, onProgress)], called
    while no [shutdown()] is suspended; [onProgress] tells whether a
    callback is passed. *)
Definition startStaggeredLaunch (sched : Schedule) (count : nat)
    (streamUrl : string) (delayMs : nat) (onProgress : bool) (this : Manager)
  : Manager * option Teardown * list Event :=
  launchLoop sched count streamUrl delayMs onProgress count 0 this None.

(** The closes that a suspended [shutdown()] still awaits settle, all of
    them, while nothing else runs: no more than one per tracked browser
    and one for the end of the call. *)
Definition teardownEnds (close : Browser -> Completion unit)
    (this : Manager) (pending : option Teardown)
  : Manager * option Teardown * list Event :=
  closesSettled close (S (List.length (browsers this))) this pending.

(** The [for ... of this.pages] loop of the health check, lines 118-131,
    entered with the three local counters. *)
Fixpoint pollPages (evaluate : StreamMonitor.Evaluate) (ps : list Page)
    (healthy buffering errors : nat) : nat * nat * nat :=
  match ps with
  | [] => (healthy, buffering, errors)
  | page :: rest =>
      match StreamMonitor.getHealth evaluate page with
      | Normal health =>
          if StreamMonitor.healthy health then
            pollPages evaluate rest (S healthy) buffering errors
          else if (0 <? List.length (StreamMonitor.rep_errors health))%nat then
            pollPages evaluate rest healthy buffering (S errors)
          else
            pollPages evaluate rest healthy (S buffering) errors
      | Throw _ =>
          pollPages evaluate rest healthy buffering (S errors)
      end
  end.

(** One run of the callback that [startHealthChecks(onUpdate)] passes to
    [setInterval]; [onUpdate] tells whether a callback is passed. *)
Definition healthCheckTick (evaluate : StreamMonitor.Evaluate)
    (onUpdate : bool) (this : Manager) : Manager * list Event :=
  if isShuttingDown this then (this, [])
  else
    let '(healthy, buffering, errors) :=
      pollPages evaluate (pages this) 0 0 0 in
    let this1 :=
      set_stats (mkStats (launched (stats this)) healthy buffering errors)
                this in
    (this1, if onUpdate then [EvUpdate (stats this1)] else []).

(** [startHealthChecks(onUpdate)] itself: the handle of the new interval
    is stored. *)
Definition startHealthChecks (t : Timer) (this : Manager) : Manager :=
  mkManager (browsers this) (pages this) (stats this)
            (isShuttingDown this) (Some t).

(** ** Vocabulary of the specification *)

(** The message of the first awaited call of a launch that throws, in the
    order of the [try] block; [page.waitForFunction] is not among them,
    [waitForPlayback] catches what it throws. *)
Definition firstThrow (w : LaunchWorld) : option string :=
  match chromium_launch w with
  | Throw message => Some message
  | Normal _ =>
  match browser_newContext w with
  | Throw message => Some message
  | Normal _ =>
  match context_newPage w with
  | Throw message => Some message
  | Normal _ =>
  match page_goto w with
  | Throw message => Some message
  | Normal _ =>
  match injectMonitor w with
  | Throw message => Some message
  | Normal _ =>
  match attemptPlay w with
  | Throw message => Some message
  | Normal _ => None
  end end end end end end.

(** The steps that come before the probe is installed: launch of the
    browser, creation of the context and of the page, navigation. *)
Definition throwsBeforeProbe (w : LaunchWorld) : bool :=
  throws (chromium_launch w) || throws (browser_newContext w)
  || throws (context_newPage w) || throws (page_goto w).

(** The three categories of the fleet statistics. *)
Inductive Category : Type := Healthy | Buffering | Errored.

Definition Category_eqb (c d : Category) : bool :=
  match c, d with
  | Healthy, Healthy | Buffering, Buffering | Errored, Errored => true
  | _, _ => false
  end.

(** The category of a session by the rule of the specification: healthy
    when its snapshot is readable, playing, advancing and free of errors;
    otherwise errored when the snapshot cannot be read or lists an error,
    and buffering when it lists none. *)
Definition category (evaluate : StreamMonitor.Evaluate) (page : Page)
  : Category :=
  match evaluate page with
  | Throw _ => Errored
  | Normal None => Errored
  | Normal (Some health) =>
      match StreamMonitor.errors health with
      | _ :: _ => Errored
      | [] =>
          if StreamMonitor.isPlaying health
             && JS.gt (StreamMonitor.currentTime health)
                      (StreamMonitor.lastTime health)
          then Healthy else Buffering
      end
  end.

(** How many of the pages fall in category [c]. *)
Definition countIn (evaluate : StreamMonitor.Evaluate) (c : Category)
    (ps : list Page) : nat :=
  List.length
    (filter (fun page => Category_eqb (category evaluate page) c) ps).

(** The launches and sleeps of a trace, without their payload. *)
Inductive Outline : Type :=
| Call (index : nat)
| Settle (index : nat)
| Sleep (ms : nat).

Fixpoint outline (tr : list Event) : list Outline :=
  match tr with
  | [] => []
  | EvLaunchCalled index :: rest => Call index :: outline rest
  | EvLaunchSettled index _ :: rest => Settle index :: outline rest
  | EvSleep ms :: rest => Sleep ms :: outline rest
  | _ :: rest => outline rest
  end.

(** The indices of the launches of a trace, in the order they are issued. *)
Fixpoint launchIndices (tr : list Event) : list nat :=
  match tr with
  | [] => []
  | EvLaunchCalled index :: rest => index :: launchIndices rest
  | _ :: rest => launchIndices rest
  end.

(** The staggered sequence of [n] launches after launch [first]: each
    launch is called and settles before the next is called, with one sleep
    of [delayMs] between two launches and none after the last. *)
Fixpoint staggered (delayMs first n : nat) : list Outline :=
  match n with
  | 0 => []
  | S n' =>
      Call (first + 1) :: Settle (first + 1)
      :: match n' with
         | 0 => []
         | S _ => Sleep delayMs :: staggered delayMs (S first) n'
         end
  end.

(** No shutdown is requested around launch [index]. *)
Definition quietAt (sched : Schedule) (index : nat) : Prop :=
  shutdownDuringLaunch sched index = false
  /\ shutdownDuringSleep sched index = false.

(** The browsers and the pages of those of the launches
    [first + 1 .. first + n] that succeed, in the order of the launches. *)
Fixpoint launchedBrowsers (sched : Schedule) (first n : nat) : list Browser :=
  match n with
  | 0 => []
  | S n' =>
      match launchSteps (worldAt sched (first + 1)) with
      | Normal (browser, _, _) => [browser]
      | Throw _ => []
      end ++ launchedBrowsers sched (S first) n'
  end.

Fixpoint launchedPages (sched : Schedule) (first n : nat) : list Page :=
  match n with
  | 0 => []
  | S n' =>
      match launchSteps (worldAt sched (first + 1)) with
      | Normal (_, page, _) => [page]
      | Throw _ => []
      end ++ launchedPages sched (S first) n'
  end.

(** Whether [browser.close()] returns on browser [b]. *)
Definition closesOn (close : Browser -> Completion unit) (b : Browser)
  : bool :=
  negb (throws (close b)).

(** The events of a shutdown that come before its first [await]: the
    interval is cleared if there is one. *)
Definition intervalStop (this : Manager) : list Event :=
  match healthCheckInterval this with
  | Some t => [EvClearInterval t]
  | None => []
  end.

(** The browsers that a trace tried to close, in order. *)
Fixpoint closeAttempts (tr : list Event) : list Browser :=
  match tr with
  | [] => []
  | EvClose b _ :: rest => b :: closeAttempts rest
  | _ :: rest => closeAttempts rest
  end.

End BrowserManager.

(* ================================================================== *)
(** * Truthiness *)
(* ================================================================== *)

Module JSValue.

Import JS.

(** Whether a number is truthy: every number but +0, -0 and NaN. *)
Definition truthy (x : number) : bool :=
  match x with
  | S754_zero _ | S754_nan => false
  | _ => true
  end.

(** [x || fallback] on numbers. *)
Definition orNumber (x fallback : number) : number :=
  if truthy x then x else fallback.

(** [value || fallback] on a string that may be [undefined]: the empty
    string is falsy as well. *)
Definition orString (value : option string) (fallback : string) : string :=
  match value with
  | Some (String c rest) => String c rest
  | _ => fallback
  end.

End JSValue.

(* ================================================================== *)
(** * speedtest.js: the measurement *)
(* ================================================================== *)

Module Measure.

Import JS Async Speedtest.

(** The decimal literal [0.5]. *)
Definition lit_0_5 : number := S754_finite false 4503599627370496 (-53).

(** The value [downloadTest] resolves to. *)
Record Download : Type := mkDownload {
  bytesPerSecond : number;
  durationMs : number;
  downloadedBytes : number
}.

(** The [end] handler of [downloadTest], lines 26-30, for a response of
    [downloadedBytes] bytes that ended [durationMs] milliseconds after the
    request. *)
Definition finished (downloadedBytes durationMs : number) : Download :=
  mkDownload (mul (div downloadedBytes durationMs) (of_Z 1000))
             durationMs downloadedBytes.

Section RunSpeedTest.

Variable parseFloat : string -> number.

(** [runSpeedTest()]: [pingTest] and [download] are how the two calls of
    [downloadTest] complete, [ping] is the time the first one took and
    [answer] is what the user types if the manual prompt is reached. *)
Definition runSpeedTest (pingTest : Completion Download) (ping : number)
    (download : Completion Download) (answer : string) : Speed :=
  match
    (_ <- pingTest ;;
     result <- download ;;
     let downloadKbps :=
       Math_round (div (mul (bytesPerSecond result) (of_Z 8)) (of_Z 1000)) in
     let uploadKbps := Math_round (mul downloadKbps lit_0_5) in
     Normal (mkSpeed downloadKbps uploadKbps ping))%completion
  with
  | Normal speed => speed
  | Throw _ => promptManualSpeed parseFloat answer
  end.

End RunSpeedTest.

End Measure.

(* ================================================================== *)
(** * stream-monitor.js: the script that [injectMonitor] runs in the page *)
(* ================================================================== *)

Module Probe.

Import JS StreamMonitor.

(** The properties of the [video] element that the script reads. *)
Record Video : Type := mkVideo {
  paused : bool;
  ended : bool;
  video_readyState : nat;
  video_currentTime : number
}.

(** What happens in the page once the script has run: one of the five
    events it listens to, with the [message] of the event for an error, or
    a run of its interval callback, which reads the video as it is then. *)
Inductive Signal : Type :=
| OnPlaying
| OnPause
| OnWaiting
| OnStalled
| OnError (message : option string)
| OnInterval (video : Video).

(** The object assigned to [window._streamHealth], lines 12-21; [now] is
    [Date.now()]. *)
Definition initial (now : Z) : StreamHealth :=
  mkStreamHealth false (of_Z 0) (of_Z 0) 0 0 [] 0 now.

(** The script of [injectMonitor], lines 12-56: the object it leaves in
    [window._streamHealth], and whether it went on to register the
    listeners and the interval; [hasVideo] tells whether
    [document.querySelector('video')] finds an element. *)
Definition install (now : Z) (hasVideo : bool) : StreamHealth * bool :=
  if hasVideo then (initial now, true)
  else
    (mkStreamHealth false (of_Z 0) (of_Z 0) 0 0
                    ["No video element found"%string] 0 now,
     false).

(** What a listener, or the interval callback, does to the object, lines
    30-56. *)
Definition handle (signal : Signal) (h : StreamHealth) : StreamHealth :=
  match signal with
  | OnPlaying =>
      mkStreamHealth true (currentTime h) (lastTime h) (stalledCount h)
                     (bufferingCount h) (errors h) (readyState h)
                     (startTime h)
  | OnPause =>
      mkStreamHealth false (currentTime h) (lastTime h) (stalledCount h)
                     (bufferingCount h) (errors h) (readyState h)
                     (startTime h)
  | OnWaiting =>
      mkStreamHealth (isPlaying h) (currentTime h) (lastTime h)
                     (stalledCount h) (S (bufferingCount h)) (errors h)
                     (readyState h) (startTime h)
  | OnStalled =>
      mkStreamHealth (isPlaying h) (currentTime h) (lastTime h)
                     (S (stalledCount h)) (bufferingCount h) (errors h)
                     (readyState h) (startTime h)
  | OnError message =>
      mkStreamHealth (isPlaying h) (currentTime h) (lastTime h)
                     (stalledCount h) (bufferingCount h)
                     (errors h
                      ++ [JSValue.orString message "Unknown error"%string])
                     (readyState h) (startTime h)
  | OnInterval video =>
      mkStreamHealth
        (negb (paused video) && negb (ended video)
         && (2 <? video_readyState video)%nat)
        (video_currentTime video) (currentTime h) (stalledCount h)
        (bufferingCount h) (errors h) (video_readyState video)
        (startTime h)
  end.

(** The object after the signals of a list, oldest first. *)
Definition run (signals : list Signal) (h : StreamHealth) : StreamHealth :=
  fold_left (fun h signal => handle signal h) signals h.

(** [window._streamHealth] of a page on which [injectMonitor] ran at time
    [now] and the signals happened since: without a video element nothing
    listens to them. *)
Definition snapshot (now : Z) (hasVideo : bool) (signals : list Signal)
  : StreamHealth :=
  let '(h, listening) := install now hasVideo in
  if listening then run signals h else h.

(** The world in which reading [window._streamHealth] gives [h] on every
    page. *)
Definition reads (h : StreamHealth) : Evaluate :=
  fun _ => Async.Normal (Some h).

(** The condition that [waitForPlayback] waits for, lines 109-112;
    [None] when the page has no video element. *)
Definition playbackStarted (video : option Video) : bool :=
  match video with
  | None => false
  | Some v => negb (paused v) && (3 <=? video_readyState v)%nat
  end.

(** How many signals of a list are [waiting] events, and how many are
    [stalled] events. *)
Definition waitings (signals : list Signal) : nat :=
  List.length
    (filter (fun s => match s with OnWaiting => true | _ => false end)
            signals).

Definition stalls (signals : list Signal) : nat :=
  List.length
    (filter (fun s => match s with OnStalled => true | _ => false end)
            signals).

(** The messages that the error events of a list record, in order. *)
Fixpoint recorded (signals : list Signal) : list string :=
  match signals with
  | [] => []
  | OnError message :: rest =>
      JSValue.orString message "Unknown error"%string :: recorded rest
  | _ :: rest => recorded rest
  end.

(** Whether a list holds no run of the interval callback. *)
Definition unsampled (signals : list Signal) : bool :=
  forallb (fun s => match s with OnInterval _ => false | _ => true end)
          signals.

End Probe.

(* ================================================================== *)
(** * config.js *)
(* ================================================================== *)

Module Config.

Import JS JSValue.

(** The exported object. [maxBrowsers] is [None] for [null]. *)
Record Settings : Type := mkSettings {
  streamUrl : string;
  streamBitrateKbps : number;
  bandwidthSafetyMargin : number;
  launchDelayMs : number;
  maxBrowsers : option number;
  bufferingThresholdMs : number;
  healthCheckIntervalMs : number;
  headless : bool;
  viewport_width : number;
  viewport_height : number;
  pageLoadTimeoutMs : number;
  videoPlayTimeoutMs : number
}.

Section Load.

(** [process.env]: [None] for a variable that is not set. *)
Variable env : string -> option string.

(** The built-ins [parseInt(text, 10)] and [parseFloat(text)]. *)
Variables parseInt parseFloat : string -> number.

(** [parse(process.env.KEY)]: a variable that is not set is [undefined],
    which the built-in converts to the string "undefined". *)
Definition parsed (parse : string -> number) (key : string) : number :=
  parse (match env key with
         | Some text => text
         | None => "undefined"%string
         end).

(** The object literal of config.js, lines 7-33. *)
Definition load : Settings :=
  mkSettings
    (orString (env "STREAM_URL") "")
    (orNumber (parsed parseInt "STREAM_BITRATE_KBPS") (of_Z 2800))
    (orNumber (parsed parseFloat "BANDWIDTH_SAFETY_MARGIN") lit_0_8)
    (orNumber (parsed parseInt "LAUNCH_DELAY_MS") (of_Z 1000))
    (match env "MAX_BROWSERS" with
     | Some (String c rest) => Some (parseInt (String c rest))
     | _ => None
     end)
    (orNumber (parsed parseInt "BUFFERING_THRESHOLD_MS") (of_Z 3000))
    (orNumber (parsed parseInt "HEALTH_CHECK_INTERVAL_MS") (of_Z 5000))
    (match env "HEADLESS" with
     | Some text => String.eqb text "true"
     | None => false
     end)
    (orNumber (parsed parseInt "VIEWPORT_WIDTH") (of_Z 640))
    (orNumber (parsed parseInt "VIEWPORT_HEIGHT") (of_Z 360))
    (orNumber (parsed parseInt "PAGE_LOAD_TIMEOUT_MS") (of_Z 30000))
    (orNumber (parsed parseInt "VIDEO_PLAY_TIMEOUT_MS") (of_Z 15000)).

End Load.

End Config.

(* ================================================================== *)
(** * index.js *)
(* ================================================================== *)

Module Index.

Import JS JSValue.

(** [text.split(sep)] for a separator of one character. *)
Fixpoint split (sep : Ascii.ascii) (text : string) : list string :=
  match text with
  | EmptyString => [EmptyString]
  | String c rest =>
      if Ascii.eqb c sep then EmptyString :: split sep rest
      else
        match split sep rest with
        | first :: others => String c first :: others
        | [] => [String c EmptyString]
        end
  end.

(** Whether a text is free of the character [sep]. *)
Fixpoint free (sep : Ascii.ascii) (text : string) : bool :=
  match text with
  | EmptyString => true
  | String c rest => negb (Ascii.eqb c sep) && free sep rest
  end.

(** [args.find((a) => a.startsWith(name))?.split('=')[1]], lines 13-14:
    [None] for [undefined]. *)
Definition flagValue (name : string) (args : list string) : option string :=
  match find (fun a => String.prefix name a) args with
  | None => None
  | Some a => nth_error (split "="%char a) 1
  end.

(** [args.includes(name)]. *)
Definition includes (name : string) (args : list string) : bool :=
  existsb (String.eqb name) args.

(** The object [flags], lines 11-17. *)
Record Flags : Type := mkFlags {
  yes : bool;
  url : option string;
  max : option string;
  flag_headless : bool;
  help : bool
}.

Definition parseFlags (args : list string) : Flags :=
  mkFlags (includes "--yes" args || includes "-y" args)
          (flagValue "--url=" args)
          (flagValue "--max=" args)
          (includes "--headless" args)
          (includes "--help" args || includes "-h" args).

(** [flags.url || config.streamUrl], line 62. *)
Definition streamUrl (flags : Flags) (config : Config.Settings) : string :=
  orString (url flags) (Config.streamUrl config).

(** The choice of [maxBrowsers], lines 84-97; [parseInt] is the built-in
    [parseInt(text, 10)]. *)
Definition chooseMaxBrowsers (parseInt : string -> number) (flags : Flags)
    (config : Config.Settings) (speed : Speedtest.Speed) : number :=
  match max flags with
  | Some (String c rest) => parseInt (String c rest)
  | _ =>
      match Config.maxBrowsers config with
      | Some limit =>
          if truthy limit then limit
          else
            Speedtest.calculateMaxBrowsers
              (Speedtest.downloadKbps speed)
              (Config.streamBitrateKbps config)
              (Config.bandwidthSafetyMargin config)
      | None =>
          Speedtest.calculateMaxBrowsers
            (Speedtest.downloadKbps speed)
            (Config.streamBitrateKbps config)
            (Config.bandwidthSafetyMargin config)
      end
  end.

(** What [confirmWithCustom] resolves to: [true], [false] or a number. *)
Inductive Confirmation : Type :=
| Proceed
| Cancelled
| Custom (count : number).

Section Confirm.

(** The built-ins [String.prototype.trim], [String.prototype.toLowerCase]
    and [parseInt(text, 10)]. *)
Variables trim toLowerCase : string -> string.
Variable parseInt : string -> number.

(** [confirmWithCustom(suggestedCount)], lines 199-226, for the answer
    the user types. *)
Definition confirmWithCustom (answer : string) : Confirmation :=
  let trimmed := toLowerCase (trim answer) in
  if String.eqb trimmed "y" || String.eqb trimmed "yes" then Proceed
  else if String.eqb trimmed "n" || String.eqb trimmed "no"
          || String.eqb trimmed "" then Cancelled
  else
    let customNumber := parseInt trimmed in
    if negb (isNaN customNumber) && gt customNumber (of_Z 0) then
      Custom customNumber
    else Cancelled.

(** The count [main] starts the launch with, lines 112-122: [None] when
    the run is cancelled. *)
Definition confirmedMaxBrowsers (flags : Flags) (maxBrowsers : number)
    (answer : string) : option number :=
  if yes flags then Some maxBrowsers
  else
    match confirmWithCustom answer with
    | Cancelled => None
    | Proceed => Some maxBrowsers
    | Custom count => Some count
    end.

End Confirm.

(** The text [status] of the progress callback, lines 132-134, without
    its colour. *)
Definition status (progress : BrowserManager.Progress) : string :=
  if BrowserManager.progress_success progress then "✓ Playing"%string
  else
    ("✗ " ++ orString (BrowserManager.progress_error progress) "Failed")%string.

(** The character classes [\d] and [\w]. *)
Definition isDigit (c : Ascii.ascii) : bool :=
  let n := Ascii.nat_of_ascii c in (48 <=? n)%nat && (n <=? 57)%nat.

Definition isWord (c : Ascii.ascii) : bool :=
  let n := Ascii.nat_of_ascii c in
  isDigit c
  || ((65 <=? n)%nat && (n <=? 90)%nat)
  || ((97 <=? n)%nat && (n <=? 122)%nat)
  || (n =? 95)%nat.

(** The number of digits that a text starts with. *)
Fixpoint digitRun (text : string) : nat :=
  match text with
  | String c rest => if isDigit c then S (digitRun rest) else 0
  | EmptyString => 0
  end.

(** Whether [/\B(?=(\d{3})+(?!\d))/] matches at the position between the
    character [prev] ([None] at the start) and the text [rest]. The
    lookahead asks for a positive multiple of three digits followed by no
    further digit; the next character is then a word character, so [\B]
    holds exactly when the previous character is one too. *)
Definition separatorAt (prev : option Ascii.ascii) (rest : string) : bool :=
  match prev with
  | Some c =>
      isWord c && (0 <? digitRun rest)%nat && (digitRun rest mod 3 =? 0)%nat
  | None => false
  end.

(** [text.replace(/\B(?=(\d{3})+(?!\d))/g, ',')], from the position after
    [prev] on. *)
Fixpoint insertSeparators (prev : option Ascii.ascii) (text : string)
  : string :=
  match text with
  | EmptyString => EmptyString
  | String c rest =>
      if separatorAt prev text then
        String ","%char (String c (insertSeparators (Some c) rest))
      else String c (insertSeparators (Some c) rest)
  end.

(** [formatNumber(num)], lines 233-235; [toString] is
    [Number.prototype.toString]. *)
Definition formatNumber (toString : number -> string) (num : number)
  : string :=
  insertSeparators None (toString num).

(** A text without its commas. *)
Fixpoint withoutCommas (text : string) : string :=
  match text with
  | EmptyString => EmptyString
  | String c rest =>
      if Ascii.eqb c ","%char then withoutCommas rest
      else String c (withoutCommas rest)
  end.

(** Whether a text consists of digits only. *)
Fixpoint allDigits (text : string) : bool :=
  match text with
  | EmptyString => true
  | String c rest => isDigit c && allDigits rest
  end.

End Index.

(* ================================================================== *)
(** * Runs of a manager *)
(* ================================================================== *)

Module Run.

Import Async BrowserManager.

(** A call of a method of the manager, or one run of its health-check
    callback, with what the outside world answers to it. A staggered launch
    comes with the [shutdown()] that is called while it runs, and lasts
    until both have returned. *)
Inductive Call : Type :=
| CallLaunchBrowser (w : LaunchWorld) (index : nat) (streamUrl : string)
| CallStartStaggeredLaunch (sched : Schedule) (count : nat)
    (streamUrl : string) (delayMs : nat) (onProgress : bool)
| CallStartHealthChecks (t : Timer)
| CallTick (evaluate : StreamMonitor.Evaluate) (onUpdate : bool)
| CallStopHealthChecks
| CallShutdown (close : Browser -> Completion unit).

Definition perform (call : Call) (this : Manager) : Manager * list Event :=
  match call with
  | CallLaunchBrowser w index streamUrl =>
      (fst (launchBrowser w index streamUrl this), [])
  | CallStartStaggeredLaunch sched count streamUrl delayMs onProgress =>
      let '(this1, pending, tr1) :=
        startStaggeredLaunch sched count streamUrl delayMs onProgress this in
      let '(this2, _, tr2) :=
        teardownEnds (browser_close sched) this1 pending in
      (this2, tr1 ++ tr2)
  | CallStartHealthChecks t => (startHealthChecks t this, [])
  | CallTick evaluate onUpdate => healthCheckTick evaluate onUpdate this
  | CallStopHealthChecks => stopHealthChecks this
  | CallShutdown close => shutdown close this
  end.

(** The calls of a list, one after the other. *)
Fixpoint performAll (calls : list Call) (this : Manager)
  : Manager * list Event :=
  match calls with
  | [] => (this, [])
  | call :: rest =>
      let '(this1, tr1) := perform call this in
      let '(this2, tr2) := performAll rest this1 in
      (this2, tr1 ++ tr2)
  end.

(** Whether a list holds no call of [shutdown] and no staggered launch
    during which a shutdown is requested. *)
Definition undisturbed (call : Call) : Prop :=
  match call with
  | CallShutdown _ => False
  | CallStartStaggeredLaunch sched _ _ _ _ =>
      forall index, quietAt sched index
  | _ => True
  end.

(** What every run keeps true of a manager: as many browsers as pages are
    tracked, never more than were launched, and exactly as many while no
    shutdown has begun; the healthy and buffering sessions never outnumber
    the launched ones. *)
Definition consistent (this : Manager) : Prop :=
  List.length (browsers this) = List.length (pages this)
  /\ List.length (pages this) <= launched (stats this)
  /\ (isShuttingDown this = false ->
      launched (stats this) = List.length (pages this))
  /\ healthy (stats this) + buffering (stats this) <= launched (stats this).

(** The arguments of the progress callback in a trace, in order. *)
Fixpoint progressReports (tr : list Event) : list Progress :=
  match tr with
  | [] => []
  | EvProgress p :: rest => p :: progressReports rest
  | _ :: rest => progressReports rest
  end.

(** The interval handles that a trace clears, in order. *)
Fixpoint clearedIntervals (tr : list Event) : list Timer :=
  match tr with
  | [] => []
  | EvClearInterval t :: rest => t :: clearedIntervals rest
  | _ :: rest => clearedIntervals rest
  end.

(** The total of the final report of a shutdown in a trace, if there is
    one. *)
Fixpoint reportedTotal (tr : list Event) : option nat :=
  match tr with
  | [] => None
  | EvLogClosed _ total :: _ => Some total
  | _ :: rest => reportedTotal rest
  end.

End Run.

(* ================================================================== *)
(** * Rounding never invents a NaN *)
(* ================================================================== *)

Section RoundingFacts.

Variables prec emax : Z.

Lemma shr_1_nonneg (mrs : shr_record) :
  (0 <= shr_m mrs)%Z -> (0 <= shr_m (shr_1 mrs))%Z.
Proof.
  destruct mrs as [m r s]; simpl.
  destruct m as [|p|p]; simpl; try lia.
  destruct p; simpl; lia.
Qed.

Lemma iter_pos_shr_1_nonneg (p : positive) :
  forall mrs, (0 <= shr_m mrs)%Z -> (0 <= shr_m (iter_pos shr_1 p mrs))%Z.
Proof.
  induction p as [p IH|p IH|]; intros mrs H; simpl.
  - apply IH, IH, shr_1_nonneg, H.
  - apply IH, IH, H.
  - apply shr_1_nonneg, H.
Qed.

Lemma shr_nonneg (mrs : shr_record) (e n : Z) :
  (0 <= shr_m mrs)%Z -> (0 <= shr_m (fst (shr mrs e n)))%Z.
Proof.
  intros H. unfold shr. destruct n; simpl; trivial.
  apply iter_pos_shr_1_nonneg, H.
Qed.

Lemma shr_fexp_nonneg (m e : Z) (l : location) :
  (0 <= m)%Z -> (0 <= shr_m (fst (shr_fexp prec emax m e l)))%Z.
Proof.
  intros H. unfold shr_fexp. apply shr_nonneg.
  destruct l as [|[]]; simpl; exact H.
Qed.

Lemma round_nearest_even_nonneg (m : Z) (l : location) :
  (0 <= m)%Z -> (0 <= round_nearest_even m l)%Z.
Proof.
  intros H. unfold round_nearest_even.
  destruct l as [|[]]; try destruct (Z.even m); lia.
Qed.

Lemma binary_round_aux_not_nan (s : bool) (m e : Z) (l : location) :
  (0 <= m)%Z -> binary_round_aux prec emax s m e l <> S754_nan.
Proof.
  intros H. unfold binary_round_aux.
  pose proof (shr_fexp_nonneg e l H) as H1.
  destruct (shr_fexp prec emax m e l) as [mrs' e'] eqn:E1. simpl in H1.
  pose proof (@shr_fexp_nonneg
                (round_nearest_even (shr_m mrs') (loc_of_shr_record mrs'))
                e' loc_Exact
                (round_nearest_even_nonneg (loc_of_shr_record mrs') H1)) as H2.
  destruct (shr_fexp prec emax _ e' loc_Exact) as [mrs'' e''] eqn:E2.
  simpl in H2.
  destruct (shr_m mrs'') as [|p|p]; try discriminate.
  - destruct (e'' <=? emax - prec)%Z; discriminate.
  - lia.
Qed.

Lemma binary_normalize_not_nan (m e : Z) (szero : bool) :
  binary_normalize prec emax m e szero <> S754_nan.
Proof.
  unfold binary_normalize, binary_round.
  destruct m as [|p|p]; try discriminate.
  - destruct (shl_align p e _) as [mz ez].
    apply binary_round_aux_not_nan. lia.
  - destruct (shl_align p e _) as [mz ez].
    apply binary_round_aux_not_nan. lia.
Qed.

Lemma SFmul_finite_not_nan (x y : spec_float) :
  JS.isFinite x = true -> JS.isFinite y = true ->
  SFmul prec emax x y <> S754_nan.
Proof.
  destruct x, y; simpl; intros Hx Hy; try discriminate.
  apply binary_round_aux_not_nan. lia.
Qed.

Lemma SFdiv_core_binary_nonneg (m1 m2 : positive) (e1 e2 : Z) :
  (0 <= fst (fst (SFdiv_core_binary prec emax (Zpos m1) e1 (Zpos m2) e2)))%Z.
Proof.
  unfold SFdiv_core_binary.
  set (s := (e1 - e2 - _)%Z).
  set (m' := match s with
             | Zpos _ => Z.shiftl (Zpos m1) s
             | Z0 => Zpos m1
             | Zneg _ => 0%Z
             end).
  assert (Hm' : (0 <= m')%Z).
  { unfold m'. destruct s; try lia. apply Z.shiftl_nonneg. lia. }
  pose proof (Z.div_eucl_eq m' (Zpos m2) ltac:(lia)) as Heq.
  pose proof (Z.mod_pos_bound m' (Zpos m2) ltac:(lia)) as Hmod.
  pose proof (Z.div_pos m' (Zpos m2) Hm' ltac:(lia)) as Hdiv.
  unfold Z.div in Hdiv.
  destruct (Z.div_eucl m' (Zpos m2)) as [q r]. simpl in *. exact Hdiv.
Qed.

Lemma SFdiv_not_nan (x y : spec_float) :
  x <> S754_nan -> y <> S754_nan ->
  (JS.isFinite x = true \/ JS.isFinite y = true) ->
  (forall s, y <> S754_zero s) ->
  SFdiv prec emax x y <> S754_nan.
Proof.
  intros Hx Hy Hfin Hz.
  destruct x as [sx|sx| |sx mx ex], y as [sy|sy| |sy my ey]; simpl;
    try discriminate; try congruence;
    try (exfalso; exact (Hz _ eq_refl));
    try (destruct Hfin; discriminate).
  pose proof (SFdiv_core_binary_nonneg mx my ex ey) as H.
  destruct (SFdiv_core_binary prec emax (Zpos mx) ex (Zpos my) ey)
    as [[mz ez] lz].
  simpl in H. apply binary_round_aux_not_nan, H.
Qed.

End RoundingFacts.

(* ================================================================== *)
(** * Numbers: comparisons, [Math.floor], [Math.max] *)
(* ================================================================== *)

Section NumberFacts.

Import JS.

(** A number above zero is +Infinity or a positive finite number. *)
Lemma lt_zero_inv (x : number) :
  lt (of_Z 0) x = true ->
  x = Infinity \/ exists m e, x = S754_finite false m e.
Proof.
  destruct x as [s|s| |s m e]; try discriminate.
  - destruct s; try discriminate. now left.
  - destruct s; try discriminate. right. now exists m, e.
Qed.

Lemma lt_zero_not_le_zero (x : number) :
  lt (of_Z 0) x = true -> isNaN x = false /\ le x (of_Z 0) = false.
Proof.
  intros H. destruct (lt_zero_inv x H) as [->|(m & e & ->)]; now split.
Qed.

Lemma le_one_finite (x : number) :
  lt (of_Z 0) x = true -> le x (of_Z 1) = true -> isFinite x = true.
Proof.
  intros H0 H1. destruct (lt_zero_inv x H0) as [->|(m & e & ->)].
  - discriminate.
  - reflexivity.
Qed.

Lemma SFopp_not_nan (x : number) : x <> NaN -> SFopp x <> NaN.
Proof. unfold NaN. destruct x; simpl; congruence. Qed.

Lemma of_Z_not_nan (z : Z) : of_Z z <> NaN.
Proof. apply binary_normalize_not_nan. Qed.

Lemma Math_floor_not_nan (x : number) : x <> NaN -> Math_floor x <> NaN.
Proof.
  intros H. destruct x as [s|s| |s m e]; simpl; trivial.
  destruct (0 <=? e)%Z; trivial.
  destruct s.
  - apply SFopp_not_nan, of_Z_not_nan.
  - apply of_Z_not_nan.
Qed.

Lemma of_Z_1 : of_Z 1 = S754_finite false 4503599627370496 (-52).
Proof. vm_compute. reflexivity. Qed.

(** [Math.max(1, y)] is at least 1 unless [y] is NaN. *)
Lemma Math_max_one_ge (y : number) :
  y <> NaN -> le (of_Z 1) (Math_max (of_Z 1) y) = true.
Proof.
  intros H. unfold Math_max, le, SFleb.
  destruct (SFcompare (of_Z 1) y) as [[| |]|] eqn:E.
  - reflexivity.
  - now rewrite E.
  - reflexivity.
  - rewrite of_Z_1 in E.
    destruct y; simpl in E; try discriminate. now elim H.
Qed.

(** No number is below itself, and equal numbers are not below each other. *)
Lemma SFcompare_Eq_sym (x y : number) :
  SFcompare x y = Some Eq -> SFcompare y x = Some Eq.
Proof.
  destruct x as [sx|sx| |sx mx ex], y as [sy|sy| |sy my ey]; simpl;
    try discriminate; trivial;
    try (destruct sx; discriminate); try (destruct sy; discriminate).
  - destruct sx, sy; trivial; discriminate.
  - destruct sx, sy; try discriminate.
    + destruct (Z.compare_spec ex ey) as [->| |]; try discriminate.
      rewrite Z.compare_refl.
      destruct (Pos.compare_cont Eq mx my) eqn:E; try discriminate.
      apply Pos.compare_eq in E. subst. now rewrite Pos.compare_cont_refl.
    + destruct (Z.compare_spec ex ey) as [->| |]; try discriminate.
      rewrite Z.compare_refl.
      destruct (Pos.compare_cont Eq mx my) eqn:E; try discriminate.
      apply Pos.compare_eq in E. subst. now rewrite Pos.compare_cont_refl.
Qed.

Lemma eq_not_gt (x y : number) : eq x y = true -> gt x y = false.
Proof.
  unfold eq, gt, SFeqb, SFltb. intros H.
  destruct (SFcompare x y) as [[| |]|] eqn:E; try discriminate.
  now rewrite (SFcompare_Eq_sym _ _ E).
Qed.

End NumberFacts.

(* ================================================================== *)
(** * Numbers: a product by a factor in (0,1] does not overflow *)
(* ================================================================== *)

Section OverflowFacts.

Import JS.

Local Open Scope Z_scope.

(** [digits2_pos p] is the number of binary digits of [p]. *)
Lemma digits2_pos_bounds (p : positive) :
  2 ^ (Zpos (digits2_pos p) - 1) <= Zpos p < 2 ^ Zpos (digits2_pos p).
Proof.
  induction p as [p IH|p IH|]; cbn [digits2_pos].
  - rewrite Pos2Z.inj_succ.
    replace (Z.succ (Zpos (digits2_pos p)) - 1)
      with (Z.succ (Zpos (digits2_pos p) - 1)) by lia.
    rewrite !Z.pow_succ_r by lia. lia.
  - rewrite Pos2Z.inj_succ.
    replace (Z.succ (Zpos (digits2_pos p)) - 1)
      with (Z.succ (Zpos (digits2_pos p) - 1)) by lia.
    rewrite !Z.pow_succ_r by lia. lia.
  - simpl. lia.
Qed.

Lemma Zdigits2_le (x k : Z) :
  0 <= x < 2 ^ k -> 0 <= k -> Zdigits2 x <= k.
Proof.
  intros [H0 Hk] Hk0. destruct x as [|p|p]; simpl; try lia.
  destruct (digits2_pos_bounds p) as [Hlow _].
  destruct (Z.le_gt_cases (Zpos (digits2_pos p)) k) as [H|H]; trivial.
  assert (2 ^ k <= 2 ^ (Zpos (digits2_pos p) - 1))
    by (apply Z.pow_le_mono_r; lia).
  lia.
Qed.

Lemma digits2_pos_mul (p q : positive) :
  Zpos (digits2_pos (p * q))
  <= Zpos (digits2_pos p) + Zpos (digits2_pos q).
Proof.
  destruct (digits2_pos_bounds p) as [_ Hp].
  destruct (digits2_pos_bounds q) as [_ Hq].
  change (Zdigits2 (Zpos (p * q))
          <= Zpos (digits2_pos p) + Zpos (digits2_pos q)).
  apply Zdigits2_le; [|lia].
  rewrite Pos2Z.inj_mul, Z.pow_add_r by lia. nia.
Qed.

(** A shift to the right divides the mantissa. *)
Lemma shr_1_div (mrs : shr_record) :
  0 <= shr_m mrs -> shr_m (shr_1 mrs) = shr_m mrs / 2.
Proof.
  destruct mrs as [m r s]. cbn [shr_m]. intros H.
  destruct m as [|[p|p|]|p]; cbn [shr_1 shr_m].
  - reflexivity.
  - apply Z.div_unique with (r := 1); lia.
  - apply Z.div_unique with (r := 0); lia.
  - reflexivity.
  - lia.
Qed.

Lemma iter_pos_shr_1_div (p : positive) :
  forall mrs,
    0 <= shr_m mrs ->
    shr_m (iter_pos shr_1 p mrs) = shr_m mrs / 2 ^ Zpos p.
Proof.
  induction p as [p IH|p IH|]; intros mrs H; cbn [iter_pos].
  - rewrite IH by (apply iter_pos_shr_1_nonneg, shr_1_nonneg, H).
    rewrite IH by (apply shr_1_nonneg, H).
    rewrite shr_1_div by exact H.
    rewrite !Z.div_div by (try apply Z.pow_pos_nonneg; lia).
    f_equal. replace (Zpos p~1) with (1 + Zpos p + Zpos p) by lia.
    rewrite !Z.pow_add_r by lia. lia.
  - rewrite IH by (apply iter_pos_shr_1_nonneg, H).
    rewrite IH by exact H.
    rewrite !Z.div_div by (try apply Z.pow_pos_nonneg; lia).
    f_equal. replace (Zpos p~0) with (Zpos p + Zpos p) by lia.
    rewrite !Z.pow_add_r by lia. lia.
  - rewrite shr_1_div by exact H. reflexivity.
Qed.

(** A shift to the right that drops only zero bits is exact. *)
Lemma shr_1_exact (x : Z) :
  0 <= x ->
  shr_1 (Build_shr_record (2 * x) false false)
  = Build_shr_record x false false.
Proof. intros H. destruct x as [|p|p]; try lia; reflexivity. Qed.

Lemma iter_pos_shr_1_exact (p : positive) :
  forall x,
    0 <= x ->
    iter_pos shr_1 p (Build_shr_record (x * 2 ^ Zpos p) false false)
    = Build_shr_record x false false.
Proof.
  induction p as [p IH|p IH|]; intros x H; cbn [iter_pos].
  - replace (x * 2 ^ Zpos p~1) with (2 * ((x * 2 ^ Zpos p) * 2 ^ Zpos p)).
    + rewrite shr_1_exact by (apply Z.mul_nonneg_nonneg; [nia|lia]).
      rewrite IH by nia. apply IH, H.
    + replace (Zpos p~1) with (1 + Zpos p + Zpos p) by lia.
      rewrite !Z.pow_add_r by lia. lia.
  - replace (x * 2 ^ Zpos p~0) with ((x * 2 ^ Zpos p) * 2 ^ Zpos p).
    + rewrite IH by nia. apply IH, H.
    + replace (Zpos p~0) with (Zpos p + Zpos p) by lia.
      rewrite !Z.pow_add_r by lia. lia.
  - rewrite Z.mul_comm. apply shr_1_exact, H.
Qed.

Lemma round_nearest_even_le (m : Z) (l : location) :
  round_nearest_even m l <= m + 1.
Proof.
  unfold round_nearest_even.
  destruct l as [|[]]; try destruct (Z.even m); lia.
Qed.

(** What it takes for a number to be a binary64 value. *)
Lemma bounded_inv (m : positive) (e : Z) :
  bounded prec emax m e = true ->
  Zpos (digits2_pos m) <= 53
  /\ e <= 971
  /\ -1074 <= e
  /\ Z.max (Zpos (digits2_pos m) + e - 53) (-1074) = e.
Proof.
  unfold bounded, canonical_mantissa, fexp, emin, prec, emax.
  intros H. apply andb_true_iff in H as [Hc He].
  apply Z.eqb_eq in Hc. apply Z.leb_le in He. lia.
Qed.

(** The rounding of a positive mantissa and exponent that are not too
    large gives no infinity. *)
Lemma binary_round_aux_no_overflow (s : bool) (m : positive) (e : Z) :
  e <= 971 ->
  Zpos (digits2_pos m) + e <= 1024 ->
  (Zpos (digits2_pos m) + e = 1024 ->
   Zpos m / 2 ^ (Zpos (digits2_pos m) - 53) + 1 < 2 ^ 53) ->
  isFinite (binary_round_aux prec emax s (Zpos m) e loc_Exact) = true.
Proof.
  intros He Hde Htop.
  unfold binary_round_aux, shr_fexp, shr, fexp, emin, prec, emax.
  cbn [Zdigits2 shr_record_of_loc].
  set (d := Zpos (digits2_pos m)) in *.
  assert (Hd : 0 < d) by (unfold d; lia).
  destruct (digits2_pos_bounds m) as [_ Hm]. fold d in Hm.
  destruct (Z.max (d + e - 53) (3 - 1024 - 53) - e) as [|n|n] eqn:Hn.
  - (* no shift *)
    cbn [shr_m loc_of_shr_record round_nearest_even Zdigits2].
    fold d. rewrite Hn. cbn [shr_m].
    replace (e <=? 1024 - 53) with true by (symmetry; apply Z.leb_le; lia).
    reflexivity.
  - (* a shift by [n] *)
    set (mrs := iter_pos shr_1 n (Build_shr_record (Zpos m) false false)).
    assert (Hm1 : shr_m mrs = Zpos m / 2 ^ Zpos n)
      by (unfold mrs; rewrite iter_pos_shr_1_div; simpl; trivial; lia).
    assert (Hm1pos : 0 <= shr_m mrs)
      by (rewrite Hm1; apply Z.div_pos; [lia|apply Z.pow_pos_nonneg; lia]).
    set (e' := e + Zpos n) in *.
    set (m2 := round_nearest_even (shr_m mrs) (loc_of_shr_record mrs)).
    assert (Hm2 : 0 <= m2 <= shr_m mrs + 1).
    { unfold m2. split.
      - apply round_nearest_even_nonneg, Hm1pos.
      - apply round_nearest_even_le. }
    assert (He' : e' <= 971) by (unfold e'; lia).
    assert (Hsmall : shr_m mrs < 2 ^ 53).
    { rewrite Hm1. apply Z.div_lt_upper_bound;
        [apply Z.pow_pos_nonneg; lia|].
      rewrite <- Z.pow_add_r by lia.
      apply Z.lt_le_trans with (1 := Hm).
      apply Z.pow_le_mono_r; lia. }
    assert (Hd2 : Zdigits2 m2 + e' <= 1024).
    { destruct (Z.eq_dec e' 971) as [Htop'|Hlow].
      - assert (Zdigits2 m2 <= 53); [|lia].
        apply Zdigits2_le; [|lia]. split; [lia|].
        assert (Hn' : Zpos n = d - 53) by (unfold e' in Htop'; lia).
        rewrite Hm1, Hn' in Hm2. specialize (Htop ltac:(unfold e' in *; lia)).
        lia.
      - assert (Zdigits2 m2 <= 54); [|lia].
        apply Zdigits2_le; [|lia]. split; [lia|].
        change (2 ^ 54) with (2 * 2 ^ 53). lia. }
    destruct (Z.max (Zdigits2 m2 + e' - 53) (3 - 1024 - 53) - e')
      as [|n2|n2] eqn:Hn2.
    + destruct m2 as [|p2|p2]; cbn [shr_m]; try lia; trivial.
      replace (e' <=? 1024 - 53) with true
        by (symmetry; apply Z.leb_le; lia).
      reflexivity.
    + pose proof (@iter_pos_shr_1_nonneg n2
                    (Build_shr_record m2 false false)
                    ltac:(simpl; lia)) as Hpos.
      destruct (shr_m (iter_pos shr_1 n2 (Build_shr_record m2 false false)))
        as [|p2|p2]; try lia; trivial.
      replace (e' + Zpos n2 <=? 1024 - 53) with true
        by (symmetry; apply Z.leb_le; lia).
      reflexivity.
    + destruct m2 as [|p2|p2]; cbn [shr_m]; try lia; trivial.
      replace (e' <=? 1024 - 53) with true
        by (symmetry; apply Z.leb_le; lia).
      reflexivity.
  - (* no shift *)
    cbn [shr_m loc_of_shr_record round_nearest_even Zdigits2].
    fold d. rewrite Hn. cbn [shr_m].
    replace (e <=? 1024 - 53) with true by (symmetry; apply Z.leb_le; lia).
    reflexivity.
Qed.

Lemma digits2_pos_unique (p : positive) (k : Z) :
  2 ^ (k - 1) <= Zpos p < 2 ^ k -> Zpos (digits2_pos p) = k.
Proof.
  intros [Hlow Hhigh].
  destruct (digits2_pos_bounds p) as [Dlow Dhigh].
  assert (Hk : 0 < k).
  { destruct (Z.lt_ge_cases 0 k) as [H|H]; trivial.
    destruct (Z.eq_dec k 0) as [->|Hneq].
    - simpl in Hhigh. lia.
    - rewrite (Z.pow_neg_r 2 k) in Hhigh by lia. lia. }
  destruct (Z.lt_trichotomy (Zpos (digits2_pos p)) k) as [H|[H|H]];
    trivial.
  - assert (2 ^ Zpos (digits2_pos p) <= 2 ^ (k - 1))
      by (apply Z.pow_le_mono_r; lia).
    lia.
  - assert (2 ^ k <= 2 ^ (Zpos (digits2_pos p) - 1))
      by (apply Z.pow_le_mono_r; lia).
    lia.
Qed.

(** A binary64 value times 1 is that value. *)
Lemma mul_one (s : bool) (m : positive) (e : Z) :
  bounded prec emax m e = true ->
  mul (S754_finite s m e) (of_Z 1) = S754_finite s m e.
Proof.
  intros Hb. destruct (bounded_inv _ _ Hb) as (Hd & He & Hlow & Hc).
  rewrite of_Z_1. unfold mul. cbn [SFmul].
  unfold binary_round_aux, shr_fexp, shr, fexp, emin, prec, emax.
  cbn [Zdigits2 shr_record_of_loc].
  destruct (digits2_pos_bounds m) as [Dlow Dhigh].
  assert (Hpow : Zpos 4503599627370496 = 2 ^ 52) by reflexivity.
  assert (Hdig : Zpos (digits2_pos (m * 4503599627370496))
                 = Zpos (digits2_pos m) + 52).
  { apply digits2_pos_unique. rewrite Pos2Z.inj_mul, Hpow.
    replace (Zpos (digits2_pos m) + 52 - 1)
      with (Zpos (digits2_pos m) - 1 + 52) by lia.
    rewrite !Z.pow_add_r by lia. nia. }
  rewrite Hdig.
  replace (Z.max (Zpos (digits2_pos m) + 52 + (e + -52) - 53) (3 - 1024 - 53)
           - (e + -52)) with (Zpos 52) by lia.
  rewrite Pos2Z.inj_mul, Hpow.
  rewrite iter_pos_shr_1_exact by lia.
  cbn [shr_m loc_of_shr_record round_nearest_even Zdigits2].
  replace (Z.max (Zpos (digits2_pos m) + (e + -52 + 52) - 53) (3 - 1024 - 53)
           - (e + -52 + 52)) with 0 by lia.
  cbn [shr_m].
  replace (e + -52 + 52) with e by lia.
  replace (e <=? 1024 - 53) with true by (symmetry; apply Z.leb_le; lia).
  now rewrite xorb_false_r.
Qed.

(** A finite binary64 value times a binary64 factor in (0,1] is finite. *)
Lemma mul_fraction_finite (x y : number) :
  valid_binary prec emax x = true ->
  valid_binary prec emax y = true ->
  isFinite x = true ->
  lt (of_Z 0) y = true ->
  le y (of_Z 1) = true ->
  isFinite (mul x y) = true.
Proof.
  intros Vx Vy Fx Hy0 Hy1.
  destruct (lt_zero_inv _ Hy0) as [->|(my & ey & ->)]; [discriminate|].
  destruct x as [sx|sx| |sx mx ex]; try discriminate; [reflexivity|].
  cbn [valid_binary] in Vx, Vy.
  destruct (bounded_inv _ _ Vx) as (Dx & Ex & Lx & Cx).
  destruct (bounded_inv _ _ Vy) as (Dy & Ey & Ly & Cy).
  destruct (digits2_pos_bounds my) as [Ylow Yhigh].
  destruct (digits2_pos_bounds mx) as [Xlow Xhigh].
  rewrite of_Z_1 in Hy1. unfold le, SFleb in Hy1. cbn [SFcompare] in Hy1.
  destruct (Z.compare_spec ey (-52)) as [Heq|Hlt|Hgt];
    [| |discriminate].
  - (* the factor is 1 *)
    assert (Hone : my = 4503599627370496%positive).
    { assert (Hle : (my <= 4503599627370496)%positive).
      { unfold Pos.le, Pos.compare.
        destruct (Pos.compare_cont Eq my 4503599627370496);
          discriminate. }
      assert (Hd53 : Zpos (digits2_pos my) = 53) by (clear - Cy Heq; lia).
      rewrite Hd53 in Ylow.
      change (2 ^ (53 - 1)) with 4503599627370496 in Ylow.
      apply Pos2Z.inj, Z.le_antisymm; [apply Pos2Z.pos_le_pos, Hle|].
      exact Ylow. }
    subst my ey. rewrite <- of_Z_1, mul_one by exact Vx. reflexivity.
  - (* the factor is below 1 *)
    unfold mul. cbn [SFmul].
    pose proof (digits2_pos_mul mx my) as Dxy.
    apply binary_round_aux_no_overflow;
      try (clear - Dx Ex Cx Dy Cy Hlt Dxy; lia).
    intros Htop.
    assert (Hd : Zpos (digits2_pos (mx * my)) = 106)
      by (clear - Dx Ex Cx Dy Cy Hlt Dxy Htop; lia).
    rewrite Hd. change (2 ^ (106 - 53)) with 9007199254740992.
    change (2 ^ 53) with 9007199254740992.
    assert (Hx53 : Zpos (digits2_pos mx) = 53)
      by (clear - Dx Ex Cx Dy Cy Hlt Dxy Htop; lia).
    assert (Hy53 : Zpos (digits2_pos my) = 53)
      by (clear - Dx Ex Cx Dy Cy Hlt Dxy Htop; lia).
    rewrite Hx53 in Xhigh. rewrite Hy53 in Yhigh.
    change (2 ^ 53) with 9007199254740992 in Xhigh, Yhigh.
    assert (Hprod : Zpos (mx * my) <= 9007199254740991 * 9007199254740991)
      by (rewrite Pos2Z.inj_mul; clear - Xhigh Yhigh; nia).
    apply (Z.div_le_mono _ _ 9007199254740992 ltac:(lia)) in Hprod.
    change (9007199254740991 * 9007199254740991 / 9007199254740992)
      with 9007199254740990 in Hprod.
    clear - Hprod. lia.
Qed.

End OverflowFacts.


(* ================================================================== *)
(** * speedtest.js: properties *)
(* ================================================================== *)

Import JS Speedtest.

Example Math_floor_28 :
  Math_floor (div (of_Z 80000) (of_Z 2800)) = of_Z 28
  /\ Math_floor (div (of_Z (-1)) (of_Z 2)) = SFopp (of_Z 1)
  /\ Math_floor (div (of_Z 1) (of_Z 2)) = of_Z 0
  /\ Math_floor (of_Z 7) = of_Z 7.
Proof. vm_compute. repeat split. Qed.

Example Math_round_half_up :
  Math_round (div (of_Z 5) (of_Z 2)) = of_Z 3
  /\ Math_round (div (of_Z (-5)) (of_Z 2)) = SFopp (of_Z 2)
  /\ Math_round (div (of_Z (-1)) (of_Z 2)) = S754_zero true
  /\ Math_round (div (of_Z 149) (of_Z 100)) = of_Z 1
  /\ Math_round (mul (div (of_Z 123) (of_Z 10)) (of_Z 1000)) = of_Z 12300.
Proof. vm_compute. repeat split. Qed.

Example lit_0_8_nearest : lit_0_8 = div (of_Z 8) (of_Z 10).
Proof. vm_compute. reflexivity. Qed.

(** C1, as amended. For every download rate above 0, every stream bitrate
    above 0 and every safety margin in (0,1], [calculateMaxBrowsers] returns
    [Math.max(1, Math.floor(downloadKbps * safetyMargin / streamBitrateKbps))].
    This is at least 1 when the bitrate is finite, and also when the
    download rate is finite (the rate and the margin being binary64 values,
    as every JavaScript number is); it is NaN when the download rate and
    the bitrate are both Infinity. It is 28 on (100000, 2800, 0.8) and 1 on
    (1, 2800, 0.8). *)
Theorem calculateMaxBrowsers_budget
    (downloadKbps streamBitrateKbps safetyMargin : number) :
  lt (of_Z 0) downloadKbps = true ->
  lt (of_Z 0) streamBitrateKbps = true ->
  lt (of_Z 0) safetyMargin = true ->
  le safetyMargin (of_Z 1) = true ->
  calculateMaxBrowsers downloadKbps streamBitrateKbps safetyMargin
  = Math_max (of_Z 1)
      (Math_floor (div (mul downloadKbps safetyMargin) streamBitrateKbps))
  /\ (isFinite streamBitrateKbps = true ->
      le (of_Z 1)
         (calculateMaxBrowsers downloadKbps streamBitrateKbps safetyMargin)
      = true)
  /\ (isFinite downloadKbps = true ->
      isBinary64 downloadKbps = true ->
      isBinary64 safetyMargin = true ->
      le (of_Z 1)
         (calculateMaxBrowsers downloadKbps streamBitrateKbps safetyMargin)
      = true)
  /\ (isFinite downloadKbps = false ->
      isFinite streamBitrateKbps = false ->
      calculateMaxBrowsers downloadKbps streamBitrateKbps safetyMargin = NaN)
  /\ calculateMaxBrowsers (of_Z 100000) (of_Z 2800) lit_0_8 = of_Z 28
  /\ calculateMaxBrowsers (of_Z 1) (of_Z 2800) lit_0_8 = of_Z 1.
Proof.
  intros Hd Hb Hm Hm1.
  split; [reflexivity|].
  pose proof (le_one_finite _ Hm Hm1) as Hmfin.
  assert (Hmul : mul downloadKbps safetyMargin <> NaN).
  { destruct (lt_zero_inv _ Hm) as [->|(mm & em & ->)]; [discriminate|].
    destruct (lt_zero_inv _ Hd) as [->|(md & ed & ->)].
    - discriminate.
    - now apply SFmul_finite_not_nan. }
  split; [|split; [|split; [|split; vm_compute; reflexivity]]].
  - intros Hbfin. unfold calculateMaxBrowsers.
    apply Math_max_one_ge, Math_floor_not_nan.
    apply SFdiv_not_nan; trivial.
    + destruct streamBitrateKbps; discriminate.
    + now right.
    + intros s ->. discriminate.
  - intros Hdfin Vd Vm. unfold calculateMaxBrowsers.
    apply Math_max_one_ge, Math_floor_not_nan.
    apply SFdiv_not_nan; trivial.
    + destruct streamBitrateKbps; discriminate.
    + left. now apply mul_fraction_finite.
    + intros s ->. discriminate.
  - intros Hdinf Hbinf.
    destruct (lt_zero_inv _ Hd) as [->|(md & ed & ->)]; [|discriminate].
    destruct (lt_zero_inv _ Hb) as [->|(mb & eb & ->)]; [|discriminate].
    destruct (lt_zero_inv _ Hm) as [->|(mm & em & ->)]; [discriminate|].
    unfold calculateMaxBrowsers. rewrite of_Z_1. reflexivity.
Qed.

Lemma calculateMaxBrowsers_budget_witness :
  le (of_Z 1) (calculateMaxBrowsers (of_Z 100000) (of_Z 2800) lit_0_8) = true
  /\ le (of_Z 1) (calculateMaxBrowsers (of_Z 5) Infinity lit_0_8) = true
  /\ calculateMaxBrowsers Infinity Infinity lit_0_8 = NaN.
Proof.
  split; [|split].
  - apply (calculateMaxBrowsers_budget (of_Z 100000) (of_Z 2800) lit_0_8);
      vm_compute; reflexivity.
  - apply (calculateMaxBrowsers_budget (of_Z 5) Infinity lit_0_8);
      vm_compute; reflexivity.
  - apply (calculateMaxBrowsers_budget Infinity Infinity lit_0_8);
      vm_compute; reflexivity.
Defined.

(** Why the second bound of C1 asks for binary64 values: the type of
    numbers also holds pairs of a mantissa and an exponent that no binary64
    value has, and such a pair can compare as a finite number above 0 while
    any product with it overflows. *)
Example calculateMaxBrowsers_outside_binary64 :
  isBinary64 (S754_finite false 1 2000) = false
  /\ lt (of_Z 0) (S754_finite false 1 2000) = true
  /\ calculateMaxBrowsers (S754_finite false 1 2000) Infinity lit_0_8 = NaN.
Proof. vm_compute. repeat split. Qed.

(** C1, as stated, fails when the download rate and the bitrate are both
    Infinity: both are above 0 and the margin 0.8 is in (0,1], but
    Infinity * 0.8 / Infinity is NaN, [Math.floor] and [Math.max] keep it,
    and NaN is not at least 1. The manual prompt gives such a rate when
    [parseFloat] reads the entry as Infinity. *)
Lemma calculateMaxBrowsers_NaN_on_infinite_rate_and_bitrate :
  lt (of_Z 0) Infinity = true
  /\ lt (of_Z 0) lit_0_8 = true
  /\ le lit_0_8 (of_Z 1) = true
  /\ calculateMaxBrowsers Infinity Infinity lit_0_8 = NaN
  /\ le (of_Z 1) (calculateMaxBrowsers Infinity Infinity lit_0_8) = false
  /\ downloadKbps (promptManualSpeed (fun _ => Infinity) "Infinity"%string)
     = Infinity.
Proof. vm_compute. repeat split. Qed.

(** C8. When [parseFloat] of the manual entry is NaN or not above zero, the
    prompt resolves to exactly
    [{downloadKbps: 50000, uploadKbps: 25000, ping: 20}]; when it is a
    positive number m, it resolves to
    [{downloadKbps: Math.round(m * 1000), uploadKbps: downloadKbps / 2,
    ping: 20}]. *)
Theorem promptManualSpeed_result
    (parseFloat : string -> number) (answer : string) :
  (isNaN (parseFloat answer) = true \/ le (parseFloat answer) (of_Z 0) = true ->
   promptManualSpeed parseFloat answer
   = mkSpeed (of_Z 50000) (of_Z 25000) (of_Z 20))
  /\ (lt (of_Z 0) (parseFloat answer) = true ->
      promptManualSpeed parseFloat answer
      = mkSpeed (Math_round (mul (parseFloat answer) (of_Z 1000)))
                (div (Math_round (mul (parseFloat answer) (of_Z 1000)))
                     (of_Z 2))
                (of_Z 20)).
Proof.
  unfold promptManualSpeed. split.
  - intros [H|H]; rewrite H; [reflexivity | now rewrite orb_true_r].
  - intros H. destruct (lt_zero_not_le_zero _ H) as [-> ->]. reflexivity.
Qed.

Lemma promptManualSpeed_result_witness :
  let parseFloat :=
    fun s : string => if String.eqb s "75" then of_Z 75 else NaN in
  promptManualSpeed parseFloat "abc"
  = mkSpeed (of_Z 50000) (of_Z 25000) (of_Z 20)
  /\ promptManualSpeed parseFloat "75"
     = mkSpeed (of_Z 75000) (of_Z 37500) (of_Z 20).
Proof.
  intros parseFloat. split.
  - apply (proj1 (promptManualSpeed_result parseFloat "abc")).
    left. reflexivity.
  - rewrite (proj2 (promptManualSpeed_result parseFloat "75") eq_refl).
    vm_compute. reflexivity.
Defined.

(* ================================================================== *)
(** * stream-monitor.js: properties *)
(* ================================================================== *)

Section GetHealth.

Import Async StreamMonitor.

Variable evaluate : Evaluate.
Variable page : Page.

Lemma length_zero_nil (A : Type) (l : list A) :
  (List.length l =? 0)%nat = true <-> l = [].
Proof.
  destruct l; simpl; split; intros H; trivial; discriminate.
Qed.

(** What [getHealth] returns on a readable snapshot. *)
Lemma getHealth_readable (health : StreamHealth) :
  evaluate page = Normal (Some health) ->
  getHealth evaluate page
  = Normal (mkHealthReport
              (isPlaying health) (currentTime health)
              (Some (lastTime health))
              (stalledCount health) (bufferingCount health)
              (errors health)
              (Some (readyState health)) (Some (startTime health))
              (isPlaying health
               && gt (currentTime health) (lastTime health)
               && (List.length (errors health) =? 0)%nat)).
Proof. intros H. unfold getHealth. rewrite H. reflexivity. Qed.

(** C2. On a readable snapshot, [getHealth] reports the session healthy if
    and only if [isPlaying] is true, the current playback time is strictly
    above the previous sample and the list of errors is empty; two equal
    samples make it unhealthy whatever [isPlaying] is, and so does a
    non-empty list of errors whatever the samples are. *)
Theorem getHealth_healthy_iff (health : StreamHealth) :
  evaluate page = Normal (Some health) ->
  exists report,
    getHealth evaluate page = Normal report
    /\ (healthy report = true <->
        isPlaying health = true
        /\ gt (currentTime health) (lastTime health) = true
        /\ errors health = [])
    /\ (JS.eq (currentTime health) (lastTime health) = true ->
        healthy report = false)
    /\ (errors health <> [] -> healthy report = false).
Proof.
  intros H. eexists. split; [apply getHealth_readable, H|]. simpl.
  split; [split|split].
  - intros E. apply andb_prop in E. destruct E as [E He].
    apply andb_prop in E. destruct E as [Hp Ht].
    apply length_zero_nil in He. now repeat split.
  - intros (Hp & Ht & He). rewrite Hp, Ht, He. reflexivity.
  - intros E. rewrite (eq_not_gt _ _ E). now rewrite andb_false_r.
  - intros E. destruct (errors health); [now elim E|].
    simpl. now rewrite andb_false_r.
Qed.

(** C7. When the probe object is absent, [getHealth] returns a report with
    [healthy = false] and [errors = ["Monitor not initialized"]]; when the
    read throws, it returns a report with [healthy = false] and the thrown
    message as the only error; in no case does [getHealth] throw. *)
Theorem getHealth_unreadable :
  (evaluate page = Normal None ->
   exists report,
     getHealth evaluate page = Normal report
     /\ healthy report = false
     /\ rep_errors report = ["Monitor not initialized"%string])
  /\ (forall message,
        evaluate page = Throw message ->
        exists report,
          getHealth evaluate page = Normal report
          /\ healthy report = false
          /\ rep_errors report = [message])
  /\ throws (getHealth evaluate page) = false.
Proof.
  unfold getHealth. repeat split.
  - intros H. rewrite H. simpl. eexists. now repeat split.
  - intros message H. rewrite H. simpl. eexists. now repeat split.
  - destruct (evaluate page) as [[health|]|message]; reflexivity.
Qed.

End GetHealth.

Lemma getHealth_healthy_iff_witness :
  let health :=
    StreamMonitor.mkStreamHealth true (of_Z 7) (of_Z 7) 0 0 [] 4 0%Z in
  exists report,
    StreamMonitor.getHealth (fun _ => Async.Normal (Some health)) 0
    = Async.Normal report
    /\ StreamMonitor.healthy report = false.
Proof.
  intros health.
  destruct (@getHealth_healthy_iff (fun _ => Async.Normal (Some health)) 0
              health eq_refl) as (report & Hr & _ & Heq & _).
  exists report. split; [exact Hr|]. apply Heq. vm_compute. reflexivity.
Defined.

Lemma getHealth_unreadable_witness :
  (exists report,
     StreamMonitor.getHealth (fun _ => Async.Normal None) 0
     = Async.Normal report
     /\ StreamMonitor.healthy report = false
     /\ StreamMonitor.rep_errors report = ["Monitor not initialized"%string])
  /\ (exists report,
        StreamMonitor.getHealth
          (fun _ => Async.Throw "Target closed"%string) 0
        = Async.Normal report
        /\ StreamMonitor.healthy report = false
        /\ StreamMonitor.rep_errors report = ["Target closed"%string]).
Proof.
  split.
  - apply (proj1 (getHealth_unreadable (fun _ => Async.Normal None) 0)).
    reflexivity.
  - apply (proj1 (proj2 (getHealth_unreadable
                           (fun _ => Async.Throw "Target closed"%string) 0))).
    reflexivity.
Defined.

(* ================================================================== *)
(** * browser-manager.js: launching one session *)
(* ================================================================== *)

Import Async BrowserManager.

(** Destructs every awaited call of a launch world. *)
Ltac destruct_world w :=
  destruct w as [cl nc np gt_ im ap wf];
  destruct cl, nc, np, gt_, im, ap, wf.

Lemma launchSteps_throw (w : LaunchWorld) (message : string) :
  firstThrow w = Some message -> launchSteps w = Throw message.
Proof.
  destruct_world w; unfold firstThrow, launchSteps; simpl;
    intros H; try discriminate; congruence.
Qed.

Lemma launchSteps_normal (w : LaunchWorld) :
  firstThrow w = None ->
  exists browser page,
    launchSteps w
    = Normal (browser, page, negb (throws (page_waitForFunction w))).
Proof.
  destruct_world w; unfold firstThrow, launchSteps; simpl;
    intros H; try discriminate; eexists; eexists; reflexivity.
Qed.

Lemma firstThrow_throwsBeforeProbe (w : LaunchWorld) :
  throwsBeforeProbe w = true -> firstThrow w <> None.
Proof.
  destruct_world w; unfold firstThrow, throwsBeforeProbe; simpl;
    intros H; discriminate.
Qed.

Section LaunchBrowser.

Variable w : LaunchWorld.
Variables (index : nat) (streamUrl : string).
Variable this : Manager.


(** A launch never touches the shutdown flag or the interval handle. *)
Lemma launchBrowser_isShuttingDown :
  isShuttingDown (fst (launchBrowser w index streamUrl this))
  = isShuttingDown this.
Proof.
  unfold launchBrowser. destruct (launchSteps w) as [[[b p] []]|m]; reflexivity.
Qed.

(** A launch only ever appends to the tracked lists. *)
Lemma launchBrowser_appends :
  exists bs ps,
    browsers (fst (launchBrowser w index streamUrl this)) = browsers this ++ bs
    /\ pages (fst (launchBrowser w index streamUrl this)) = pages this ++ ps.
Proof.
  unfold launchBrowser. destruct (launchSteps w) as [[[b p] []]|m]; simpl.
  - now exists [b], [p].
  - now exists [b], [p].
  - exists [], []. now rewrite !app_nil_r.
Qed.

End LaunchBrowser.



(* ================================================================== *)
(** * browser-manager.js: the health check *)
(* ================================================================== *)

Section HealthCheck.

Variable evaluate : StreamMonitor.Evaluate.

(** What one turn of the polling loop adds to the three counters. *)
Lemma pollPages_cons (page : Page) (rest : list Page) (h b e : nat) :
  pollPages evaluate (page :: rest) h b e
  = match category evaluate page with
    | Healthy => pollPages evaluate rest (S h) b e
    | Buffering => pollPages evaluate rest h (S b) e
    | Errored => pollPages evaluate rest h b (S e)
    end.
Proof.
  unfold category. simpl. unfold StreamMonitor.getHealth.
  destruct (evaluate page) as [[health|]|message]; simpl; trivial.
  destruct (StreamMonitor.errors health) as [|err errs]; simpl.
  - rewrite andb_true_r.
    destruct (StreamMonitor.isPlaying health
              && JS.gt (StreamMonitor.currentTime health)
                       (StreamMonitor.lastTime health)); reflexivity.
  - rewrite andb_false_r. reflexivity.
Qed.

Lemma countIn_cons (c : Category) (page : Page) (rest : list Page) :
  countIn evaluate c (page :: rest)
  = (if Category_eqb (category evaluate page) c then 1 else 0)
    + countIn evaluate c rest.
Proof.
  unfold countIn. simpl.
  destruct (Category_eqb (category evaluate page) c); reflexivity.
Qed.

(** The polling loop adds to each counter the number of pages of its
    category. *)
Lemma pollPages_counts (ps : list Page) :
  forall h b e,
    pollPages evaluate ps h b e
    = (h + countIn evaluate Healthy ps,
       b + countIn evaluate Buffering ps,
       e + countIn evaluate Errored ps).
Proof.
  induction ps as [|page rest IH]; intros h b e.
  - unfold countIn. simpl. now rewrite !Nat.add_0_r.
  - rewrite pollPages_cons, !countIn_cons.
    destruct (category evaluate page); rewrite IH; simpl;
      repeat f_equal; lia.
Qed.

(** Every page falls in exactly one category. *)
Lemma countIn_total (ps : list Page) :
  countIn evaluate Healthy ps + countIn evaluate Buffering ps
  + countIn evaluate Errored ps = List.length ps.
Proof.
  induction ps as [|page rest IH]; [reflexivity|].
  rewrite !countIn_cons. destruct (category evaluate page); simpl; lia.
Qed.

(** The tick while no shutdown is in progress. *)
Lemma healthCheckTick_polls (onUpdate : bool) (this : Manager) :
  isShuttingDown this = false ->
  fst (healthCheckTick evaluate onUpdate this)
  = set_stats
      (mkStats (launched (stats this))
               (countIn evaluate Healthy (pages this))
               (countIn evaluate Buffering (pages this))
               (countIn evaluate Errored (pages this)))
      this.
Proof.
  intros H. unfold healthCheckTick. rewrite H, pollPages_counts. reflexivity.
Qed.

(** C9, as amended. On every tick that runs while no shutdown is in
    progress, every tracked session is counted in exactly one of the three
    categories: the three counters of the polling loop are the numbers of
    sessions per category and add up to the number of tracked sessions, and
    they are what the tick stores; a readable snapshot that is not healthy
    counts as an error if and only if its list of errors is non-empty, and
    as buffering otherwise. *)
Theorem pollPages_classifies (ps : list Page) :
  pollPages evaluate ps 0 0 0
  = (countIn evaluate Healthy ps, countIn evaluate Buffering ps,
     countIn evaluate Errored ps)
  /\ countIn evaluate Healthy ps + countIn evaluate Buffering ps
     + countIn evaluate Errored ps = List.length ps
  /\ (forall page,
        pollPages evaluate [page] 0 0 0 = (1, 0, 0)
        \/ pollPages evaluate [page] 0 0 0 = (0, 1, 0)
        \/ pollPages evaluate [page] 0 0 0 = (0, 0, 1))
  /\ (forall page health report,
        evaluate page = Normal (Some health) ->
        StreamMonitor.getHealth evaluate page = Normal report ->
        StreamMonitor.healthy report = false ->
        (StreamMonitor.errors health <> [] <->
         pollPages evaluate [page] 0 0 0 = (0, 0, 1))
        /\ (StreamMonitor.errors health = [] <->
            pollPages evaluate [page] 0 0 0 = (0, 1, 0)))
  /\ (forall onUpdate this,
        pages this = ps ->
        isShuttingDown this = false ->
        stats (fst (healthCheckTick evaluate onUpdate this))
        = mkStats (launched (stats this))
                  (countIn evaluate Healthy ps)
                  (countIn evaluate Buffering ps)
                  (countIn evaluate Errored ps)).
Proof.
  split; [apply pollPages_counts|].
  split; [apply countIn_total|].
  split; [|split].
  - intros page. rewrite pollPages_cons.
    destruct (category evaluate page); simpl; auto.
  - intros page health report Hev Hrep Hunhealthy.
    rewrite (getHealth_readable _ _ Hev) in Hrep.
    injection Hrep as <-. simpl in Hunhealthy.
    simpl. unfold StreamMonitor.getHealth. rewrite Hev. simpl.
    rewrite Hunhealthy.
    destruct (StreamMonitor.errors health) as [|err errs]; simpl;
      split; split; intros H; try reflexivity; try discriminate;
      try congruence.
  - intros onUpdate this <- H. now rewrite healthCheckTick_polls.
Qed.

End HealthCheck.

Lemma pollPages_classifies_witness :
  let health :=
    StreamMonitor.mkStreamHealth true (of_Z 7) (of_Z 7) 0 2 [] 4 0%Z in
  let evaluate : StreamMonitor.Evaluate :=
    fun page =>
      match page with
      | 0 => Normal (Some health)
      | 1 => Throw "Target closed"%string
      | _ => Normal None
      end in
  pollPages evaluate [0] 0 0 0 = (0, 1, 0)
  /\ stats (fst (healthCheckTick evaluate true
                   (mkManager [10; 11; 12] [0; 1; 2] (mkStats 3 3 0 0)
                              false (Some 1))))
     = mkStats 3 0 1 2.
Proof.
  intros health evaluate.
  pose proof (pollPages_classifies evaluate [0; 1; 2]) as (_ & _ & _ & Ht & Hk).
  split.
  - destruct (Ht 0 health
                (StreamMonitor.mkHealthReport true (of_Z 7) (Some (of_Z 7))
                   0 2 [] (Some 4) (Some 0%Z) false)
                eq_refl eq_refl eq_refl) as [_ Hb].
    apply Hb. reflexivity.
  - rewrite (Hk true (mkManager [10; 11; 12] [0; 1; 2] (mkStats 3 3 0 0)
                                false (Some 1)) eq_refl eq_refl).
    reflexivity.
Defined.

(** C5, as stated, fails on a tick that fires while a shutdown is in
    progress. (1) One session is launched with playback confirmed,
    [shutdown()] is called, and the tick fires while the browser is still
    being closed: the only tracked session can no longer be read, yet the
    statistics stay at one healthy session and no error. (2) After that
    shutdown has emptied the tracked lists a tick still leaves one launched
    and one healthy session in the statistics, more than the sessions
    tracked. *)
Lemma healthCheckTick_skipped_while_shutting_down :
  let w :=
    mkLaunchWorld (Normal 10) (Normal 1) (Normal 0) (Normal tt) (Normal tt)
                  (Normal tt) (Normal tt) in
  let evaluate : StreamMonitor.Evaluate :=
    fun _ => Throw "Target closed"%string in
  let close : Browser -> Completion unit := fun _ => Normal tt in
  let launched1 :=
    fst (launchBrowser w 1 "https://stream"%string constructor) in
  let closing := fst (shutdownBegin launched1) in
  let closed := fst (shutdown close launched1) in
  (pages closing = [0]
   /\ pollPages evaluate (pages closing) 0 0 0 = (0, 0, 1)
   /\ stats (fst (healthCheckTick evaluate true closing)) = mkStats 1 1 0 0)
  /\ (pages closed = []
      /\ stats (fst (healthCheckTick evaluate true closed)) = mkStats 1 1 0 0).
Proof. repeat split. Qed.

(** C9, as stated, fails on a tick that fires while a shutdown is in
    progress. Two sessions are launched, the first with playback confirmed
    and the second without; a shutdown begins; both snapshots are readable
    and healthy when the tick fires. The polling loop would count two
    healthy sessions, but the tick returns before it: the statistics keep
    one healthy session, no buffering one and no error, so the second
    tracked session is counted in none of the three categories. *)
Lemma healthCheckTick_counts_nothing_while_shutting_down :
  let playing :=
    mkLaunchWorld (Normal 10) (Normal 1) (Normal 0) (Normal tt) (Normal tt)
                  (Normal tt) (Normal tt) in
  let silent :=
    mkLaunchWorld (Normal 11) (Normal 1) (Normal 1) (Normal tt) (Normal tt)
                  (Normal tt) (Throw "Timeout 15000ms exceeded"%string) in
  let health :=
    StreamMonitor.mkStreamHealth true (of_Z 9) (of_Z 8) 0 0 [] 4 0%Z in
  let evaluate : StreamMonitor.Evaluate := fun _ => Normal (Some health) in
  let launched2 :=
    fst (launchBrowser silent 2 "https://stream"%string
           (fst (launchBrowser playing 1 "https://stream"%string
                   constructor))) in
  let closing := fst (shutdownBegin launched2) in
  pages closing = [0; 1]
  /\ pollPages evaluate (pages closing) 0 0 0 = (2, 0, 0)
  /\ pages (fst (healthCheckTick evaluate true closing)) = [0; 1]
  /\ stats (fst (healthCheckTick evaluate true closing)) = mkStats 2 1 0 0.
Proof. repeat split. Qed.

Section LaunchStats.

Variable w : LaunchWorld.
Variables (index : nat) (streamUrl : string).
Variable this : Manager.

(** C10, as amended. A launch changes the statistics by itself: when
    playback is confirmed within the timeout, [launched] and [healthy] both
    grow by 1; when the launch throws, [errors] grows by 1 and [launched]
    and the tracked lists stay as they are; the first tick that runs while
    no shutdown is in progress replaces [healthy], [buffering] and [errors]
    by the counts of its own sweep, whatever the launches had left there. *)
Theorem launchBrowser_mutates_stats :
  (firstThrow w = None ->
   throws (page_waitForFunction w) = false ->
   stats (fst (launchBrowser w index streamUrl this))
   = mkStats (S (launched (stats this))) (S (healthy (stats this)))
             (buffering (stats this)) (errors (stats this)))
  /\ (forall message,
        firstThrow w = Some message ->
        stats (fst (launchBrowser w index streamUrl this))
        = mkStats (launched (stats this)) (healthy (stats this))
                  (buffering (stats this)) (S (errors (stats this)))
        /\ browsers (fst (launchBrowser w index streamUrl this))
           = browsers this
        /\ pages (fst (launchBrowser w index streamUrl this)) = pages this)
  /\ (forall evaluate onUpdate,
        isShuttingDown this = false ->
        let this1 := fst (launchBrowser w index streamUrl this) in
        let this2 := fst (healthCheckTick evaluate onUpdate this1) in
        launched (stats this2) = launched (stats this1)
        /\ healthy (stats this2) = countIn evaluate Healthy (pages this1)
        /\ buffering (stats this2) = countIn evaluate Buffering (pages this1)
        /\ errors (stats this2) = countIn evaluate Errored (pages this1)).
Proof.
  split; [|split].
  - intros F P. unfold launchBrowser.
    destruct (launchSteps_normal w F) as (browser & page & ->).
    rewrite P. reflexivity.
  - intros message F. unfold launchBrowser.
    rewrite (launchSteps_throw w F). now repeat split.
  - intros evaluate onUpdate H this1 this2. unfold this2.
    rewrite healthCheckTick_polls.
    + now repeat split.
    + unfold this1. now rewrite launchBrowser_isShuttingDown.
Qed.

End LaunchStats.

Lemma launchBrowser_mutates_stats_witness :
  let playing :=
    mkLaunchWorld (Normal 10) (Normal 1) (Normal 0) (Normal tt) (Normal tt)
                  (Normal tt) (Normal tt) in
  let failing :=
    mkLaunchWorld (Normal 11) (Normal 1) (Normal 1)
                  (Throw "net::ERR_CONNECTION_REFUSED"%string)
                  (Normal tt) (Normal tt) (Normal tt) in
  let evaluate : StreamMonitor.Evaluate := fun _ => Normal None in
  stats (fst (launchBrowser playing 1 "https://stream"%string constructor))
  = mkStats 1 1 0 0
  /\ stats (fst (launchBrowser failing 1 "https://stream"%string constructor))
     = mkStats 0 0 0 1
  /\ errors (stats (fst (healthCheckTick evaluate true
               (fst (launchBrowser playing 1 "https://stream"%string
                       constructor)))))
     = 1.
Proof.
  intros playing failing evaluate.
  pose proof (launchBrowser_mutates_stats playing 1 "https://stream"%string
                constructor) as (Hp & _ & Ht).
  pose proof (launchBrowser_mutates_stats failing 1 "https://stream"%string
                constructor) as (_ & Hf & _).
  split; [apply Hp; reflexivity|].
  split; [apply (Hf _ eq_refl)|].
  destruct (Ht evaluate true eq_refl) as (_ & _ & _ & ->). reflexivity.
Defined.

(** C10, as stated, fails when the first tick fires while a shutdown is in
    progress. The only launch throws during navigation, which leaves one
    error in the statistics and no tracked session; a shutdown begins; the
    first tick returns at once, and the error of the launch is still there
    although the sweep over the tracked sessions finds none. *)
Lemma launchBrowser_errors_survive_first_tick :
  let failing :=
    mkLaunchWorld (Normal 10) (Normal 1) (Normal 0)
                  (Throw "net::ERR_CONNECTION_REFUSED"%string)
                  (Normal tt) (Normal tt) (Normal tt) in
  let evaluate : StreamMonitor.Evaluate := fun _ => Normal None in
  let launched1 :=
    fst (launchBrowser failing 1 "https://stream"%string constructor) in
  let closing := fst (shutdownBegin launched1) in
  stats launched1 = mkStats 0 0 0 1
  /\ pages closing = []
  /\ pollPages evaluate (pages closing) 0 0 0 = (0, 0, 0)
  /\ stats (fst (healthCheckTick evaluate true closing)) = mkStats 0 0 0 1.
Proof. repeat split. Qed.

(* ================================================================== *)
(** * browser-manager.js: shutdown *)
(* ================================================================== *)

Section Shutdown.

Variable close : Browser -> Completion unit.

Lemma closeBrowsers_trace (bs : list Browser) :
  forall n,
    closeBrowsers close bs n
    = (n + List.length (filter (closesOn close) bs),
       map (fun b => EvClose b (closesOn close b)) bs).
Proof.
  induction bs as [|b rest IH]; intros n; simpl.
  - now rewrite Nat.add_0_r.
  - assert (Hb : closesOn close b = negb (throws (close b))) by reflexivity.
    rewrite Hb. destruct (close b) as [u|message]; simpl; rewrite IH.
    + f_equal. lia.
    + reflexivity.
Qed.

Lemma closedIn_app (tr1 tr2 : list Event) :
  closedIn (tr1 ++ tr2) = closedIn tr1 + closedIn tr2.
Proof.
  induction tr1 as [|ev rest IH]; [reflexivity|].
  destruct ev as [ | | | | | |b []| ]; simpl; rewrite IH; reflexivity.
Qed.

Lemma closeAttempts_app (tr1 tr2 : list Event) :
  closeAttempts (tr1 ++ tr2) = closeAttempts tr1 ++ closeAttempts tr2.
Proof.
  induction tr1 as [|ev rest IH]; [reflexivity|].
  destruct ev; simpl; rewrite IH; reflexivity.
Qed.

Lemma closedIn_closes (bs : list Browser) :
  closedIn (map (fun b => EvClose b (closesOn close b)) bs)
  = List.length (filter (closesOn close) bs).
Proof.
  induction bs as [|b rest IH]; [reflexivity|].
  simpl. destruct (closesOn close b); simpl; now rewrite IH.
Qed.

Lemma closeAttempts_closes (bs : list Browser) :
  closeAttempts (map (fun b => EvClose b (closesOn close b)) bs) = bs.
Proof.
  induction bs as [|b rest IH]; [reflexivity|]. simpl. now rewrite IH.
Qed.

(** What the first [shutdown()] does, event by event. *)
Lemma shutdown_first (this : Manager) :
  isShuttingDown this = false ->
  shutdown close this
  = (mkManager [] [] (stats this) true None,
     intervalStop this
     ++ map (fun b => EvClose b (closesOn close b)) (browsers this)
     ++ [EvLogClosed (List.length (filter (closesOn close) (browsers this)))
                     (List.length (browsers this))]).
Proof.
  intros H. unfold shutdown, shutdownBegin, stopHealthChecks, intervalStop.
  rewrite H. simpl.
  destruct (healthCheckInterval this) as [t|]; simpl;
    rewrite closeBrowsers_trace; reflexivity.
Qed.

Lemma shutdown_sets_flag (this : Manager) :
  isShuttingDown (fst (shutdown close this)) = true.
Proof.
  destruct (isShuttingDown this) eqn:H.
  - unfold shutdown. now rewrite H.
  - now rewrite shutdown_first.
Qed.

Lemma shutdownBegin_sets_flag (this : Manager) :
  isShuttingDown (fst (shutdownBegin this)) = true.
Proof.
  unfold shutdownBegin, stopHealthChecks. simpl.
  destruct (healthCheckInterval this); reflexivity.
Qed.

(** C4. A second [shutdown()] is a no-op, after the first one and also
    while the first one is still closing browsers: it changes no field and
    does nothing, so the statistics and the number of closed sessions
    after two calls are those after one. The first shutdown clears the
    monitoring interval before it closes any browser, tries to close every
    tracked browser whether or not an earlier close threw, reports the
    number of closes that returned, and leaves the two tracked lists
    empty. *)
Theorem shutdown_idempotent (close' : Browser -> Completion unit)
    (this : Manager) :
  (shutdown close' (fst (shutdown close this)) = (fst (shutdown close this), [])
   /\ stats (fst (shutdown close' (fst (shutdown close this))))
      = stats (fst (shutdown close this))
   /\ closedIn (snd (shutdown close this)
                ++ snd (shutdown close' (fst (shutdown close this))))
      = closedIn (snd (shutdown close this)))
  /\ shutdown close' (fst (shutdownBegin this)) = (fst (shutdownBegin this), [])
  /\ (isShuttingDown this = false ->
      snd (shutdown close this)
      = intervalStop this
        ++ map (fun b => EvClose b (closesOn close b)) (browsers this)
        ++ [EvLogClosed (List.length (filter (closesOn close) (browsers this)))
                        (List.length (browsers this))]
      /\ closeAttempts (snd (shutdown close this)) = browsers this
      /\ closedIn (snd (shutdown close this))
         = List.length (filter (closesOn close) (browsers this))
      /\ browsers (fst (shutdown close this)) = []
      /\ pages (fst (shutdown close this)) = []
      /\ healthCheckInterval (fst (shutdown close this)) = None
      /\ stats (fst (shutdown close this)) = stats this).
Proof.
  assert (Hnoop : forall that,
             isShuttingDown that = true -> shutdown close' that = (that, [])).
  { intros that H. unfold shutdown. now rewrite H. }
  split; [|split].
  - rewrite (Hnoop _ (shutdown_sets_flag this)). simpl.
    rewrite app_nil_r. now repeat split.
  - apply Hnoop, shutdownBegin_sets_flag.
  - intros H. rewrite (shutdown_first this H). simpl.
    split; [reflexivity|]. split; [|split; [|now repeat split]].
    + rewrite !closeAttempts_app, closeAttempts_closes.
      unfold intervalStop. destruct (healthCheckInterval this); simpl;
        now rewrite app_nil_r.
    + rewrite !closedIn_app, closedIn_closes.
      unfold intervalStop. destruct (healthCheckInterval this); simpl; lia.
Qed.

End Shutdown.

Lemma shutdown_idempotent_witness :
  let close : Browser -> Completion unit :=
    fun b => match b with
             | 11 => Throw "Target closed"%string
             | _ => Normal tt
             end in
  let this :=
    mkManager [10; 11; 12] [0; 1; 2] (mkStats 3 2 1 0) false (Some 7) in
  snd (shutdown close this)
  = [EvClearInterval 7; EvClose 10 true; EvClose 11 false; EvClose 12 true;
     EvLogClosed 2 3]
  /\ browsers (fst (shutdown close this)) = []
  /\ shutdown close (fst (shutdown close this))
     = (fst (shutdown close this), []).
Proof.
  intros close this.
  pose proof (shutdown_idempotent close close this)
    as ((Hnoop & _ & _) & _ & Hfirst).
  destruct (Hfirst eq_refl) as (Htr & _ & _ & Hb & _).
  split; [rewrite Htr; reflexivity|]. split; [exact Hb|exact Hnoop].
Defined.

(* ================================================================== *)
(** * browser-manager.js: a shutdown beside the launch loop *)
(* ================================================================== *)

Section Teardown.

Variable close : Browser -> Completion unit.

Lemma reportedTotal_app (tr1 tr2 : list Event) :
  Run.reportedTotal (tr1 ++ tr2)
  = match Run.reportedTotal tr1 with
    | Some total => Some total
    | None => Run.reportedTotal tr2
    end.
Proof.
  induction tr1 as [|ev rest IH]; [reflexivity|].
  destruct ev; simpl; trivial.
Qed.

Lemma reportedTotal_app_None (tr1 tr2 : list Event) :
  Run.reportedTotal (tr1 ++ tr2) = None
  <-> Run.reportedTotal tr1 = None /\ Run.reportedTotal tr2 = None.
Proof.
  rewrite reportedTotal_app.
  destruct (Run.reportedTotal tr1); split; intros H;
    try discriminate; try (now split); tauto.
Qed.

Lemma progressReports_app (tr1 tr2 : list Event) :
  Run.progressReports (tr1 ++ tr2)
  = Run.progressReports tr1 ++ Run.progressReports tr2.
Proof.
  induction tr1 as [|ev rest IH]; [reflexivity|].
  destruct ev; simpl; now rewrite IH.
Qed.

Lemma outline_app (tr1 tr2 : list Event) :
  outline (tr1 ++ tr2) = outline tr1 ++ outline tr2.
Proof.
  induction tr1 as [|ev rest IH]; [reflexivity|].
  destruct ev; simpl; now rewrite IH.
Qed.

Lemma launchIndices_app (tr1 tr2 : list Event) :
  launchIndices (tr1 ++ tr2) = launchIndices tr1 ++ launchIndices tr2.
Proof.
  induction tr1 as [|ev rest IH]; [reflexivity|].
  destruct ev; simpl; now rewrite IH.
Qed.

Lemma closesSettled_idle (n : nat) (this : Manager) :
  closesSettled close n this None = (this, None, []).
Proof. destruct n; reflexivity. Qed.

Lemma meanwhile_idle (n : nat) (this : Manager) :
  meanwhile close false n this None = (this, None, []).
Proof. unfold meanwhile. now rewrite closesSettled_idle. Qed.

(** What a shutdown beside the loop leaves alone, and what it adds to the
    trace: no launch, no sleep, no progress report. *)
Lemma closeSettled_frame (this : Manager) (t : Teardown) :
  let res := closeSettled close this t in
  stats (fst (fst res)) = stats this
  /\ isShuttingDown (fst (fst res)) = isShuttingDown this
  /\ outline (snd res) = []
  /\ launchIndices (snd res) = []
  /\ Run.progressReports (snd res) = [].
Proof.
  unfold closeSettled, shutdownEnd.
  destruct (nth_error (browsers this) (position t)) as [b|];
    [destruct (close b);
     destruct (S (position t) <? List.length (browsers this))|];
    simpl; now repeat split.
Qed.

(** The tracked lists stay as they are until the shutdown ends, and are
    empty once it has ended. *)
Lemma closeSettled_lists (this : Manager) (t : Teardown) :
  let res := closeSettled close this t in
  (browsers (fst (fst res)) = browsers this
   /\ pages (fst (fst res)) = pages this
   /\ Run.reportedTotal (snd res) = None)
  \/ (browsers (fst (fst res)) = []
      /\ pages (fst (fst res)) = []
      /\ snd (fst res) = None
      /\ Run.reportedTotal (snd res) <> None).
Proof.
  unfold closeSettled, shutdownEnd.
  destruct (nth_error (browsers this) (position t)) as [b|];
    [destruct (close b);
     destruct (S (position t) <? List.length (browsers this))|];
    simpl; first [left; now repeat split
                 |right; repeat split; discriminate].
Qed.

Lemma closesSettled_frame (n : nat) :
  forall this pending,
    let res := closesSettled close n this pending in
    stats (fst (fst res)) = stats this
    /\ isShuttingDown (fst (fst res)) = isShuttingDown this
    /\ outline (snd res) = []
    /\ launchIndices (snd res) = []
    /\ Run.progressReports (snd res) = [].
Proof.
  induction n as [|n IH]; intros this pending; [now repeat split|].
  destruct pending as [t|]; [|now repeat split].
  simpl.
  destruct (closeSettled_frame this t) as (F1 & F2 & F3 & F4 & F5).
  destruct (closeSettled close this t) as [[this1 pending1] tr1].
  destruct (IH this1 pending1) as (G1 & G2 & G3 & G4 & G5).
  destruct (closesSettled close n this1 pending1) as [[this2 pending2] tr2].
  cbn [fst snd] in *.
  rewrite outline_app, launchIndices_app, progressReports_app.
  rewrite G1, G2, G3, G4, G5, F1, F2, F3, F4, F5. now repeat split.
Qed.

Lemma closesSettled_lists (n : nat) :
  forall this pending,
    let res := closesSettled close n this pending in
    (browsers (fst (fst res)) = browsers this
     /\ pages (fst (fst res)) = pages this
     /\ Run.reportedTotal (snd res) = None)
    \/ (browsers (fst (fst res)) = []
        /\ pages (fst (fst res)) = []
        /\ snd (fst res) = None
        /\ Run.reportedTotal (snd res) <> None).
Proof.
  induction n as [|n IH]; intros this pending; [left; now repeat split|].
  destruct pending as [t|]; [|left; now repeat split].
  simpl.
  pose proof (closeSettled_lists this t) as F.
  destruct (closeSettled close this t) as [[this1 pending1] tr1].
  pose proof (IH this1 pending1) as G.
  cbn [fst snd] in F.
  destruct F as [(F1 & F2 & F3)|(F1 & F2 & F3 & F4)].
  - destruct (closesSettled close n this1 pending1) as [[this2 pending2] tr2].
    cbn [fst snd] in *. rewrite reportedTotal_app, F3.
    destruct G as [(G1 & G2 & G3)|(G1 & G2 & G3 & G4)].
    + left. rewrite G1, G2, F1, F2. now repeat split.
    + right. now repeat split.
  - subst pending1. rewrite closesSettled_idle. cbn [fst snd].
    rewrite reportedTotal_app.
    right. repeat split; trivial.
    destruct (Run.reportedTotal tr1); [discriminate|contradiction].
Qed.

Lemma shutdownCalled_frame (this : Manager) (pending : option Teardown) :
  let res := shutdownCalled this pending in
  stats (fst (fst res)) = stats this
  /\ isShuttingDown (fst (fst res)) = true
  /\ outline (snd res) = []
  /\ launchIndices (snd res) = []
  /\ Run.progressReports (snd res) = [].
Proof.
  unfold shutdownCalled, shutdownBegin, stopHealthChecks, shutdownEnd.
  destruct (isShuttingDown this) eqn:Hflag; [now repeat split|].
  destruct (healthCheckInterval this); simpl;
    destruct (browsers this); simpl; now repeat split.
Qed.

Lemma shutdownCalled_lists (this : Manager) (pending : option Teardown) :
  let res := shutdownCalled this pending in
  (browsers (fst (fst res)) = browsers this
   /\ pages (fst (fst res)) = pages this
   /\ Run.reportedTotal (snd res) = None)
  \/ (browsers (fst (fst res)) = []
      /\ pages (fst (fst res)) = []
      /\ snd (fst res) = None
      /\ Run.reportedTotal (snd res) <> None).
Proof.
  unfold shutdownCalled, shutdownBegin, stopHealthChecks, shutdownEnd.
  destruct (isShuttingDown this) eqn:Hflag; [left; now repeat split|].
  destruct (healthCheckInterval this); simpl;
    destruct (browsers this); simpl;
    first [left; now repeat split|right; repeat split; discriminate].
Qed.

Lemma meanwhile_frame (requested : bool) (n : nat) (this : Manager)
    (pending : option Teardown) :
  let res := meanwhile close requested n this pending in
  stats (fst (fst res)) = stats this
  /\ isShuttingDown (fst (fst res)) = isShuttingDown this || requested
  /\ outline (snd res) = []
  /\ launchIndices (snd res) = []
  /\ Run.progressReports (snd res) = [].
Proof.
  unfold meanwhile.
  assert (F : let res :=
                if requested then shutdownCalled this pending
                else (this, pending, []) in
              stats (fst (fst res)) = stats this
              /\ isShuttingDown (fst (fst res))
                 = isShuttingDown this || requested
              /\ outline (snd res) = []
              /\ launchIndices (snd res) = []
              /\ Run.progressReports (snd res) = []).
  { destruct requested.
    - destruct (shutdownCalled_frame this pending) as (F1 & F2 & F3).
      rewrite orb_true_r. now repeat split.
    - rewrite orb_false_r. now repeat split. }
  destruct (if requested then shutdownCalled this pending
            else (this, pending, [])) as [[this1 pending1] tr1].
  destruct F as (F1 & F2 & F3 & F4 & F5).
  destruct (closesSettled_frame n this1 pending1) as (G1 & G2 & G3 & G4 & G5).
  destruct (closesSettled close n this1 pending1) as [[this2 pending2] tr2].
  cbn [fst snd] in *.
  rewrite outline_app, launchIndices_app, progressReports_app.
  rewrite G1, G2, G3, G4, G5, F1, F2, F3, F4, F5. now repeat split.
Qed.

Lemma meanwhile_lists (requested : bool) (n : nat) (this : Manager)
    (pending : option Teardown) :
  let res := meanwhile close requested n this pending in
  (browsers (fst (fst res)) = browsers this
   /\ pages (fst (fst res)) = pages this
   /\ Run.reportedTotal (snd res) = None)
  \/ (browsers (fst (fst res)) = []
      /\ pages (fst (fst res)) = []
      /\ snd (fst res) = None
      /\ Run.reportedTotal (snd res) <> None).
Proof.
  unfold meanwhile.
  assert (F : let res :=
                if requested then shutdownCalled this pending
                else (this, pending, []) in
              (browsers (fst (fst res)) = browsers this
               /\ pages (fst (fst res)) = pages this
               /\ Run.reportedTotal (snd res) = None)
              \/ (browsers (fst (fst res)) = []
                  /\ pages (fst (fst res)) = []
                  /\ snd (fst res) = None
                  /\ Run.reportedTotal (snd res) <> None)).
  { destruct requested; [apply shutdownCalled_lists|left; now repeat split]. }
  destruct (if requested then shutdownCalled this pending
            else (this, pending, [])) as [[this1 pending1] tr1].
  pose proof (closesSettled_lists n this1 pending1) as G.
  cbn [fst snd] in F.
  destruct F as [(F1 & F2 & F3)|(F1 & F2 & F3 & F4)].
  - destruct (closesSettled close n this1 pending1) as [[this2 pending2] tr2].
    cbn [fst snd] in *. rewrite reportedTotal_app, F3.
    destruct G as [(G1 & G2 & G3)|(G1 & G2 & G3 & G4)].
    + left. rewrite G1, G2, F1, F2. now repeat split.
    + right. now repeat split.
  - subst pending1. rewrite closesSettled_idle. cbn [fst snd].
    rewrite reportedTotal_app.
    right. repeat split; trivial.
    destruct (Run.reportedTotal tr1); [discriminate|contradiction].
Qed.

(** A call of [shutdown()] is suspended only once the flag is up: the
    manager stays consistent whatever the shutdown does meanwhile. *)
Lemma meanwhile_suspended (requested : bool) (n : nat) (this : Manager)
    (pending : option Teardown) :
  (isShuttingDown this = false -> pending = None) ->
  let res := meanwhile close requested n this pending in
  (isShuttingDown (fst (fst res)) = false ->
   snd (fst res) = None /\ fst (fst res) = this /\ snd res = []).
Proof.
  intros Hinv res Hflag. unfold res in *.
  destruct (meanwhile_frame requested n this pending) as (_ & F & _).
  rewrite F in Hflag. apply orb_false_iff in Hflag as [Hf ->].
  rewrite (Hinv Hf), meanwhile_idle. now repeat split.
Qed.

Lemma meanwhile_consistent (requested : bool) (n : nat) (this : Manager)
    (pending : option Teardown) :
  (isShuttingDown this = false -> pending = None) ->
  Run.consistent this ->
  Run.consistent (fst (fst (meanwhile close requested n this pending))).
Proof.
  intros Hinv H.
  destruct (isShuttingDown
              (fst (fst (meanwhile close requested n this pending)))) eqn:Hf.
  - destruct (meanwhile_frame requested n this pending) as (Hs & _).
    destruct H as (Hl & Hle & Heq & Hhb). unfold Run.consistent.
    rewrite Hs, Hf.
    destruct (meanwhile_lists requested n this pending)
      as [(-> & -> & _)|(-> & -> & _)]; simpl; repeat split;
      trivial; try lia; discriminate.
  - destruct (@meanwhile_suspended requested n this pending Hinv Hf)
      as (_ & -> & _). exact H.
Qed.

(** When all the closes it awaits settle, a suspended [shutdown()] tries
    to close every browser from its iterator on, those added meanwhile
    included, reports, and empties the tracked lists. *)
Lemma skipn_nth_error (A : Type) (l : list A) :
  forall n a, nth_error l n = Some a -> skipn n l = a :: skipn (S n) l.
Proof.
  induction l as [|x l IH]; intros [|n] a H; try discriminate.
  - now injection H as ->.
  - simpl in H. exact (IH n a H).
Qed.

Lemma closesSettled_step (n : nat) (this : Manager) (t : Teardown) :
  closesSettled close (S n) this (Some t)
  = (fst (fst (closesSettled close n
                 (fst (fst (closeSettled close this t)))
                 (snd (fst (closeSettled close this t))))),
     snd (fst (closesSettled close n
                 (fst (fst (closeSettled close this t)))
                 (snd (fst (closeSettled close this t))))),
     snd (closeSettled close this t)
     ++ snd (closesSettled close n
               (fst (fst (closeSettled close this t)))
               (snd (fst (closeSettled close this t))))).
Proof.
  cbn [closesSettled].
  destruct (closeSettled close this t) as [[this1 pending1] tr1].
  cbn [fst snd].
  destruct (closesSettled close n this1 pending1) as [[this2 pending2] tr2].
  reflexivity.
Qed.

Lemma closeSettled_next (this : Manager) (t : Teardown) (b : Browser) :
  nth_error (browsers this) (position t) = Some b ->
  S (position t) < List.length (browsers this) ->
  closeSettled close this t
  = (this,
     Some (mkTeardown (S (position t))
             (if closesOn close b then S (closedSoFar t)
              else closedSoFar t)),
     [EvClose b (closesOn close b)]).
Proof.
  intros Hb Hlt. unfold closeSettled, closesOn. rewrite Hb.
  apply Nat.ltb_lt in Hlt. rewrite Hlt. now destruct (close b).
Qed.

Lemma closeSettled_last (this : Manager) (t : Teardown) (b : Browser) :
  nth_error (browsers this) (position t) = Some b ->
  List.length (browsers this) <= S (position t) ->
  closeSettled close this t
  = (mkManager [] [] (stats this) (isShuttingDown this)
               (healthCheckInterval this),
     None,
     [EvClose b (closesOn close b);
      EvLogClosed (if closesOn close b then S (closedSoFar t)
                   else closedSoFar t)
                  (List.length (browsers this))]).
Proof.
  intros Hb Hlt. unfold closeSettled, closesOn, shutdownEnd. rewrite Hb.
  apply Nat.ltb_ge in Hlt. rewrite Hlt. now destruct (close b).
Qed.

Lemma closeSettled_none (this : Manager) (t : Teardown) :
  nth_error (browsers this) (position t) = None ->
  closeSettled close this t
  = (mkManager [] [] (stats this) (isShuttingDown this)
               (healthCheckInterval this),
     None,
     [EvLogClosed (closedSoFar t) (List.length (browsers this))]).
Proof. intros Hb. unfold closeSettled, shutdownEnd. now rewrite Hb. Qed.

Lemma closesSettled_ends (n : nat) :
  forall this t,
    List.length (browsers this) <= n + S (position t) ->
    closesSettled close (S n) this (Some t)
    = (mkManager [] [] (stats this) (isShuttingDown this)
                 (healthCheckInterval this),
       None,
       map (fun b => EvClose b (closesOn close b))
           (skipn (position t) (browsers this))
       ++ [EvLogClosed
             (closedSoFar t
              + List.length (filter (closesOn close)
                               (skipn (position t) (browsers this))))
             (List.length (browsers this))]).
Proof.
  induction n as [|n IH]; intros this t Hn; rewrite closesSettled_step;
    destruct (nth_error (browsers this) (position t)) as [b|] eqn:Hb.
  - rewrite (closeSettled_last _ _ Hb) by lia. cbn [fst snd closesSettled].
    rewrite (skipn_nth_error _ _ Hb), (skipn_all2 (browsers this)) by lia.
    simpl. destruct (closesOn close b); simpl; repeat f_equal; lia.
  - rewrite (closeSettled_none _ _ Hb). cbn [fst snd closesSettled].
    apply nth_error_None in Hb. rewrite skipn_all2 by lia.
    simpl. now rewrite Nat.add_0_r.
  - rewrite (skipn_nth_error _ _ Hb).
    destruct (Nat.lt_ge_cases (S (position t)) (List.length (browsers this)))
      as [Hlt|Hge].
    + rewrite (closeSettled_next _ _ Hb Hlt). cbn [fst snd].
      rewrite IH by (cbn [position]; lia). cbn [fst snd position closedSoFar].
      simpl. destruct (closesOn close b); simpl; repeat f_equal; lia.
    + rewrite (closeSettled_last _ _ Hb Hge). cbn [fst snd].
      rewrite closesSettled_idle, (skipn_all2 (browsers this)) by lia.
      simpl. destruct (closesOn close b); simpl; repeat f_equal; lia.
  - rewrite (closeSettled_none _ _ Hb). cbn [fst snd].
    rewrite closesSettled_idle.
    apply nth_error_None in Hb. rewrite skipn_all2 by lia.
    simpl. now rewrite Nat.add_0_r.
Qed.

Lemma teardownEnds_ends (this : Manager) (t : Teardown) :
  teardownEnds close this (Some t)
  = (mkManager [] [] (stats this) (isShuttingDown this)
               (healthCheckInterval this),
     None,
     map (fun b => EvClose b (closesOn close b))
         (skipn (position t) (browsers this))
     ++ [EvLogClosed
           (closedSoFar t
            + List.length (filter (closesOn close)
                             (skipn (position t) (browsers this))))
           (List.length (browsers this))]).
Proof. unfold teardownEnds. apply closesSettled_ends. lia. Qed.

(** A [shutdown()] that nothing runs beside is the one of the previous
    section: called, then left to close the browsers one by one. *)
Lemma shutdown_stepwise (this : Manager) :
  isShuttingDown this = false ->
  let called := shutdownCalled this None in
  let ended := teardownEnds close (fst (fst called)) (snd (fst called)) in
  (fst (fst ended), snd called ++ snd ended) = shutdown close this.
Proof.
  intros Hflag called ended. unfold ended, called.
  rewrite shutdown_first by exact Hflag.
  unfold shutdownCalled, shutdownBegin, stopHealthChecks, intervalStop,
    shutdownEnd.
  rewrite Hflag.
  destruct (healthCheckInterval this) as [timer|];
    destruct (browsers this) as [|b bs] eqn:Hbs;
    cbn [browsers pages stats isShuttingDown healthCheckInterval fst snd].
  all: try (unfold teardownEnds; rewrite closesSettled_idle; simpl;
            reflexivity).
  all: rewrite teardownEnds_ends; simpl; reflexivity.
Qed.

End Teardown.

(* ================================================================== *)
(** * browser-manager.js: the staggered launch *)
(* ================================================================== *)

Section StaggeredLaunch.

Variable sched : Schedule.
Variable count : nat.
Variable streamUrl : string.
Variable delayMs : nat.
Variable onProgress : bool.

Local Notation "'loop'" :=
  (launchLoop sched count streamUrl delayMs onProgress) (only parsing).

(** Once the flag is up the loop leaves at its first test. *)
Lemma launchLoop_flagged (remaining i : nat) (this : Manager)
    (pending : option Teardown) :
  isShuttingDown this = true ->
  loop remaining i this pending = (this, pending, []).
Proof. intros H. destruct remaining; simpl; now rewrite ?H. Qed.

(** One turn of the loop, entered with the flag down: what runs beside the
    launch, the launch, what runs beside the sleep, the rest of the loop. *)
Lemma launchLoop_turn (remaining i : nat) (this : Manager)
    (pending : option Teardown) :
  isShuttingDown this = false ->
  let before :=
    meanwhile (browser_close sched) (shutdownDuringLaunch sched (i + 1))
              (closesDuringLaunch sched (i + 1)) this pending in
  let launch :=
    launchBrowser (worldAt sched (i + 1)) (i + 1) streamUrl
                  (fst (fst before)) in
  let evs :=
    EvLaunchCalled (i + 1)
    :: snd before
       ++ EvLaunchSettled (i + 1) (snd launch)
          :: (if onProgress then
                [EvProgress (mkProgress (i + 1) count (success (snd launch))
                               (error (snd launch)) (stats (fst launch)))]
              else []) in
  let asleep :=
    meanwhile (browser_close sched) (shutdownDuringSleep sched (i + 1))
              (closesDuringSleep sched (i + 1)) (fst launch)
              (snd (fst before)) in
  loop (S remaining) i this pending
  = if (i <? count - 1) && negb (isShuttingDown (fst launch)) then
      (fst (fst (loop remaining (S i) (fst (fst asleep)) (snd (fst asleep)))),
       snd (fst (loop remaining (S i) (fst (fst asleep)) (snd (fst asleep)))),
       evs ++ EvSleep delayMs
           :: snd asleep
              ++ snd (loop remaining (S i) (fst (fst asleep))
                        (snd (fst asleep))))
    else
      (fst (fst (loop remaining (S i) (fst launch) (snd (fst before)))),
       snd (fst (loop remaining (S i) (fst launch) (snd (fst before)))),
       evs ++ snd (loop remaining (S i) (fst launch) (snd (fst before)))).
Proof.
  intros H before launch evs asleep.
  unfold evs, asleep, launch, before. cbn [launchLoop]. rewrite H.
  destruct (meanwhile (browser_close sched) (shutdownDuringLaunch sched (i + 1))
              (closesDuringLaunch sched (i + 1)) this pending)
    as [[this0 pending0] tr0].
  cbn [fst snd].
  destruct (launchBrowser (worldAt sched (i + 1)) (i + 1) streamUrl this0)
    as [this1 result].
  cbn [fst snd].
  destruct ((i <? count - 1) && negb (isShuttingDown this1)).
  - destruct (meanwhile (browser_close sched)
                (shutdownDuringSleep sched (i + 1))
                (closesDuringSleep sched (i + 1)) this1 pending0)
      as [[this2 pending2] tr2].
    cbn [fst snd].
    destruct (loop remaining (S i) this2 pending2) as [[this3 pending3] tr].
    reflexivity.
  - destruct (loop remaining (S i) this1 pending0) as [[this3 pending3] tr].
    reflexivity.
Qed.

(** The events of one launch, with what ran beside it. *)
Lemma launch_events (index : nat) (result : LaunchResult) (st : Stats)
    (tr0 : list Event) :
  outline tr0 = [] -> launchIndices tr0 = [] ->
  Run.progressReports tr0 = [] ->
  let evs :=
    EvLaunchCalled index
    :: tr0
       ++ EvLaunchSettled index result
          :: (if onProgress then
                [EvProgress (mkProgress index count (success result)
                               (error result) st)]
              else []) in
  outline evs = [Call index; Settle index]
  /\ launchIndices evs = [index]
  /\ map current (Run.progressReports evs)
     = (if onProgress then [index] else [])
  /\ Forall (fun p => total p = count) (Run.progressReports evs)
  /\ Run.reportedTotal evs = Run.reportedTotal tr0.
Proof.
  intros H1 H2 H3 evs. unfold evs. cbn [outline launchIndices].
  change (Run.progressReports (EvLaunchCalled index :: ?l))
    with (Run.progressReports l).
  change (Run.reportedTotal (EvLaunchCalled index :: ?l))
    with (Run.reportedTotal l).
  rewrite outline_app, launchIndices_app, progressReports_app,
    reportedTotal_app, H1, H2, H3.
  destruct onProgress; simpl; repeat split; repeat constructor;
    now destruct (Run.reportedTotal tr0).
Qed.

(** A launch that succeeds adds its session at the end of the tracked
    lists; a launch that fails adds nothing. *)
Lemma launchBrowser_tracks (w : LaunchWorld) (index : nat) (this : Manager) :
  browsers (fst (launchBrowser w index streamUrl this))
  = browsers this
    ++ match launchSteps w with
       | Normal (browser, _, _) => [browser]
       | Throw _ => []
       end
  /\ pages (fst (launchBrowser w index streamUrl this))
     = pages this
       ++ match launchSteps w with
          | Normal (_, page, _) => [page]
          | Throw _ => []
          end.
Proof.
  unfold launchBrowser.
  destruct (launchSteps w) as [[[b p] []]|message]; simpl;
    now rewrite ?app_nil_r.
Qed.

(** The loop when no shutdown is called from launch [i + 1] on: the flag
    stays down, nothing is suspended, no shutdown ends. *)
Lemma launchLoop_quiet_flag (remaining : nat) :
  forall i this,
    isShuttingDown this = false ->
    (forall index, i < index -> quietAt sched index) ->
    isShuttingDown (fst (fst (loop remaining i this None))) = false
    /\ snd (fst (loop remaining i this None)) = None
    /\ Run.reportedTotal (snd (loop remaining i this None)) = None
    /\ closeAttempts (snd (loop remaining i this None)) = [].
Proof.
  induction remaining as [|remaining IH]; intros i this Hflag Hquiet.
  - now repeat split.
  - rewrite launchLoop_turn by exact Hflag.
    destruct (Hquiet (i + 1) ltac:(lia)) as [-> ->].
    rewrite !meanwhile_idle. cbn [fst snd].
    rewrite ?meanwhile_idle. cbn [fst snd app].
    assert (Hflag1 : isShuttingDown
                       (fst (launchBrowser (worldAt sched (i + 1)) (i + 1)
                               streamUrl this)) = false)
      by now rewrite launchBrowser_isShuttingDown.
    destruct (IH (S i) _ Hflag1) as (I1 & I2 & I3 & I4).
    { intros index Hlt. apply Hquiet. lia. }
    destruct ((i <? count - 1) && negb _); cbn [fst snd];
      (split; [exact I1|]); (split; [exact I2|]);
      cbn [Run.reportedTotal closeAttempts];
      rewrite reportedTotal_app, closeAttempts_app;
      destruct onProgress; cbn [Run.reportedTotal closeAttempts app];
      now rewrite I3, I4.
Qed.

(** The loop when no shutdown is called from launch [i + 1] on. *)
Lemma launchLoop_quiet (remaining : nat) :
  forall i this,
    i + remaining = count ->
    isShuttingDown this = false ->
    (forall index, i < index -> quietAt sched index) ->
    outline (snd (loop remaining i this None)) = staggered delayMs i remaining
    /\ launchIndices (snd (loop remaining i this None))
       = seq (i + 1) remaining.
Proof.
  induction remaining as [|remaining IH]; intros i this Hcount Hflag Hquiet.
  - now split.
  - rewrite launchLoop_turn by exact Hflag.
    destruct (Hquiet (i + 1) ltac:(lia)) as [-> ->].
    rewrite !meanwhile_idle. cbn [fst snd].
    rewrite ?meanwhile_idle. cbn [fst snd].
    assert (Hflag1 : isShuttingDown
                       (fst (launchBrowser (worldAt sched (i + 1)) (i + 1)
                               streamUrl this)) = false)
      by now rewrite launchBrowser_isShuttingDown.
    rewrite Hflag1. simpl negb. rewrite andb_true_r.
    set (evs := EvLaunchCalled (i + 1) :: _).
    assert (Hevs : outline evs = [Call (i + 1); Settle (i + 1)]
                   /\ launchIndices evs = [i + 1])
      by (unfold evs; destruct onProgress; now split).
    destruct Hevs as [Hout Hidx].
    destruct remaining as [|remaining].
    + replace (i <? count - 1) with false
        by (symmetry; apply Nat.ltb_ge; lia).
      cbn [fst snd launchLoop]. rewrite app_nil_r, Hout, Hidx. now split.
    + replace (i <? count - 1) with true
        by (symmetry; apply Nat.ltb_lt; lia).
      destruct (IH (S i) (fst (launchBrowser (worldAt sched (i + 1)) (i + 1)
                                 streamUrl this)) ltac:(lia) Hflag1)
        as [IHo IHi].
      { intros index Hlt. apply Hquiet. lia. }
      cbn [fst snd].
      rewrite outline_app, launchIndices_app, Hout, Hidx.
      cbn [outline launchIndices app]. rewrite IHo, IHi.
      replace (S i + 1) with (S (i + 1)) by lia.
      now split.
Qed.

(** The loop when the first call of [shutdown()] comes around launch
    [i + S n]. *)
Lemma launchLoop_interrupted (n : nat) :
  forall i this,
    i + S n <= count ->
    isShuttingDown this = false ->
    (forall index, i < index -> index < i + S n -> quietAt sched index) ->
    (shutdownDuringLaunch sched (i + S n) = true ->
     outline (snd (loop (count - i) i this None)) = staggered delayMs i (S n)
     /\ launchIndices (snd (loop (count - i) i this None))
        = seq (i + 1) (S n))
    /\ (shutdownDuringLaunch sched (i + S n) = false ->
        shutdownDuringSleep sched (i + S n) = true ->
        i + S n < count ->
        outline (snd (loop (count - i) i this None))
        = staggered delayMs i (S n) ++ [Sleep delayMs]
        /\ launchIndices (snd (loop (count - i) i this None))
           = seq (i + 1) (S n)).
Proof.
  induction n as [|n IH]; intros i this Hcount Hflag Hquiet.
  - replace (count - i) with (S (count - S i)) by lia.
    rewrite launchLoop_turn by exact Hflag.
    replace (i + 1) with (i + 1) in * by reflexivity.
    set (before := meanwhile _ _ _ this None).
    set (launch := launchBrowser _ _ _ (fst (fst before))).
    set (asleep := meanwhile _ _ _ (fst launch) _).
    destruct (meanwhile_frame (browser_close sched)
                (shutdownDuringLaunch sched (i + 1))
                (closesDuringLaunch sched (i + 1)) this None)
      as (_ & Fflag & Fout & Fidx & Frep).
    fold before in Fflag, Fout, Fidx, Frep.
    destruct (@launch_events (i + 1) (snd launch) (stats (fst launch))
                  (snd before) Fout Fidx Frep) as (Hout & Hidx & _).
    assert (Hflag1 : isShuttingDown (fst launch)
                     = shutdownDuringLaunch sched (i + 1)).
    { unfold launch. now rewrite launchBrowser_isShuttingDown, Fflag, Hflag. }
    split.
    + intros Hl. rewrite Hl in Hflag1. rewrite Hflag1.
      simpl negb. rewrite andb_false_r.
      rewrite launchLoop_flagged by exact Hflag1. cbn [fst snd].
      rewrite app_nil_r, Hout, Hidx. now split.
    + intros Hl Hs Hlt. rewrite Hl in Hflag1. rewrite Hflag1.
      simpl negb. rewrite andb_true_r.
      replace (i <? count - 1) with true
        by (symmetry; apply Nat.ltb_lt; lia).
      destruct (meanwhile_frame (browser_close sched)
                  (shutdownDuringSleep sched (i + 1))
                  (closesDuringSleep sched (i + 1)) (fst launch)
                  (snd (fst before)))
        as (_ & Gflag & Gout & Gidx & _).
      fold asleep in Gflag, Gout, Gidx.
      rewrite Hs, orb_true_r in Gflag.
      rewrite launchLoop_flagged by exact Gflag.
      cbn [fst snd]. rewrite app_nil_r.
      rewrite outline_app, launchIndices_app, Hout, Hidx.
      cbn [outline launchIndices]. rewrite Gout, Gidx. now split.
  - replace (count - i) with (S (count - S i)) by lia.
    rewrite launchLoop_turn by exact Hflag.
    destruct (Hquiet (i + 1) ltac:(lia) ltac:(lia)) as [-> ->].
    rewrite !meanwhile_idle. cbn [fst snd].
    rewrite ?meanwhile_idle. cbn [fst snd].
    set (launch := launchBrowser _ _ _ this).
    assert (Hflag1 : isShuttingDown (fst launch) = false)
      by (unfold launch; now rewrite launchBrowser_isShuttingDown).
    rewrite Hflag1. simpl negb. rewrite andb_true_r.
    replace (i <? count - 1) with true
      by (symmetry; apply Nat.ltb_lt; lia).
    set (evs := EvLaunchCalled (i + 1) :: _).
    assert (Hevs : outline evs = [Call (i + 1); Settle (i + 1)]
                   /\ launchIndices evs = [i + 1])
      by (unfold evs; destruct onProgress; now split).
    destruct Hevs as [Hout Hidx].
    cbn [fst snd].
    destruct (IH (S i) (fst launch) ltac:(lia) Hflag1) as [IHl IHs].
    { intros index H1 H2. apply Hquiet; lia. }
    replace (S i + S n) with (i + S (S n)) in * by lia.
    split.
    + intros Hk. destruct (IHl Hk) as [IHo IHi].
      rewrite outline_app, launchIndices_app, Hout, Hidx.
      cbn [outline launchIndices app]. rewrite IHo, IHi.
      replace (S i + 1) with (S (i + 1)) by lia. now split.
    + intros Hk1 Hk2 Hlt. destruct (IHs Hk1 Hk2 Hlt) as [IHo IHi].
      rewrite outline_app, launchIndices_app, Hout, Hidx.
      cbn [outline launchIndices app]. rewrite IHo, IHi.
      replace (S i + 1) with (S (i + 1)) by lia. now split.
Qed.

(** As long as no shutdown has ended, the sessions tracked before and
    those of the launches that succeeded are tracked, in that order. *)
Lemma launchLoop_tracked (remaining : nat) :
  forall i this pending,
    Run.reportedTotal (snd (loop remaining i this pending)) = None ->
    browsers (fst (fst (loop remaining i this pending)))
    = browsers this
      ++ launchedBrowsers sched i
           (List.length (launchIndices (snd (loop remaining i this pending))))
    /\ pages (fst (fst (loop remaining i this pending)))
       = pages this
         ++ launchedPages sched i
              (List.length
                 (launchIndices (snd (loop remaining i this pending)))).
Proof.
  induction remaining as [|remaining IH]; intros i this pending.
  - intros _. simpl. now rewrite !app_nil_r.
  - destruct (isShuttingDown this) eqn:Hflag.
    + rewrite launchLoop_flagged by exact Hflag. intros _. simpl.
      now rewrite !app_nil_r.
    + rewrite launchLoop_turn by exact Hflag.
      set (before := meanwhile _ _ _ this pending).
      set (launch := launchBrowser _ _ _ (fst (fst before))).
      set (asleep := meanwhile _ _ _ (fst launch) _).
      destruct (meanwhile_frame (browser_close sched)
                  (shutdownDuringLaunch sched (i + 1))
                  (closesDuringLaunch sched (i + 1)) this pending)
        as (_ & _ & Fout & Fidx & Frep).
      fold before in Fout, Fidx, Frep.
      destruct (@launch_events (i + 1) (snd launch) (stats (fst launch))
                  (snd before) Fout Fidx Frep) as (_ & Hidx & _ & _ & Hrep).
      destruct (launchBrowser_tracks (worldAt sched (i + 1)) (i + 1)
                  (fst (fst before))) as [Hb Hp].
      fold launch in Hb, Hp.
      assert (Hsame : Run.reportedTotal (snd before) = None ->
                      browsers (fst (fst before)) = browsers this
                      /\ pages (fst (fst before)) = pages this).
      { intros E.
        destruct (meanwhile_lists (browser_close sched)
                    (shutdownDuringLaunch sched (i + 1))
                    (closesDuringLaunch sched (i + 1)) this pending)
          as [(L1 & L2 & _)|(_ & _ & _ & L)]; [now split|].
        fold before in L. contradiction. }
      destruct ((i <? count - 1) && negb (isShuttingDown (fst launch)));
        cbn [fst snd]; rewrite reportedTotal_app, Hrep, launchIndices_app,
          Hidx; intros H.
      * destruct (Run.reportedTotal (snd before)) eqn:E0; [discriminate|].
        change (Run.reportedTotal (EvSleep delayMs :: ?l))
          with (Run.reportedTotal l) in H.
        rewrite reportedTotal_app in H.
        destruct (Run.reportedTotal (snd asleep)) eqn:E2; [discriminate|].
        destruct (meanwhile_lists (browser_close sched)
                    (shutdownDuringSleep sched (i + 1))
                    (closesDuringSleep sched (i + 1)) (fst launch)
                    (snd (fst before)))
          as [(L1 & L2 & _)|(_ & _ & _ & L)];
          [|fold asleep in L; rewrite E2 in L; contradiction].
        fold asleep in L1, L2.
        destruct (meanwhile_frame (browser_close sched)
                    (shutdownDuringSleep sched (i + 1))
                    (closesDuringSleep sched (i + 1)) (fst launch)
                    (snd (fst before)))
          as (_ & _ & _ & Gidx & _).
        fold asleep in Gidx.
        destruct (IH (S i) _ _ H) as [IHb IHp].
        destruct (Hsame eq_refl) as [S1 S2].
        cbn [launchIndices]. rewrite launchIndices_app, Gidx.
        cbn [app List.length launchedBrowsers launchedPages].
        rewrite IHb, IHp, L1, L2, Hb, Hp, S1, S2.
        now rewrite <- !app_assoc.
      * destruct (Run.reportedTotal (snd before)) eqn:E0; [discriminate|].
        destruct (IH (S i) _ _ H) as [IHb IHp].
        destruct (Hsame eq_refl) as [S1 S2].
        cbn [app List.length launchedBrowsers launchedPages].
        rewrite IHb, IHp, Hb, Hp, S1, S2.
        now rewrite <- !app_assoc.
Qed.

(** Once a shutdown has ended during the loop, at most the session of the
    launch that was awaited at that time is tracked. *)
Lemma launchLoop_ended (remaining : nat) :
  forall i this pending,
    (isShuttingDown this = false -> pending = None) ->
    Run.reportedTotal (snd (loop remaining i this pending)) <> None ->
    List.length (browsers (fst (fst (loop remaining i this pending)))) <= 1
    /\ List.length (pages (fst (fst (loop remaining i this pending)))) <= 1.
Proof.
  induction remaining as [|remaining IH]; intros i this pending Hinv.
  - intros H. now contradiction H.
  - destruct (isShuttingDown this) eqn:Hflag.
    + rewrite launchLoop_flagged by exact Hflag. intros H.
      now contradiction H.
    + assert (Hnone : isShuttingDown this = false -> pending = None)
        by (intros _; now apply Hinv).
      clear Hinv. rename Hnone into Hinv.
      rewrite launchLoop_turn by exact Hflag.
      set (before := meanwhile _ _ _ this pending).
      set (launch := launchBrowser _ _ _ (fst (fst before))).
      set (asleep := meanwhile _ _ _ (fst launch) _).
      destruct (meanwhile_frame (browser_close sched)
                  (shutdownDuringLaunch sched (i + 1))
                  (closesDuringLaunch sched (i + 1)) this pending)
        as (_ & _ & Fout & Fidx & Frep).
      fold before in Fout, Fidx, Frep.
      destruct (@launch_events (i + 1) (snd launch) (stats (fst launch))
                  (snd before) Fout Fidx Frep) as (_ & _ & _ & _ & Hrep).
      destruct (launchBrowser_tracks (worldAt sched (i + 1)) (i + 1)
                  (fst (fst before))) as [Hb Hp].
      fold launch in Hb, Hp.
      assert (Hflag1 : isShuttingDown (fst launch)
                       = isShuttingDown (fst (fst before)))
        by (unfold launch; now rewrite launchBrowser_isShuttingDown).
      pose proof (@meanwhile_suspended (browser_close sched)
                    (shutdownDuringLaunch sched (i + 1))
                    (closesDuringLaunch sched (i + 1)) this pending Hinv)
        as Hsusp.
      fold before in Hsusp. cbn zeta in Hsusp.
      assert (Hone : List.length
                       (match launchSteps (worldAt sched (i + 1)) with
                        | Normal (browser, _, _) => [browser]
                        | Throw _ => []
                        end) <= 1
                     /\ List.length
                          (match launchSteps (worldAt sched (i + 1)) with
                           | Normal (_, page, _) => [page]
                           | Throw _ => []
                           end) <= 1).
      { destruct (launchSteps (worldAt sched (i + 1))) as [[[b p] c]|m];
          simpl; lia. }
      destruct (meanwhile_lists (browser_close sched)
                  (shutdownDuringLaunch sched (i + 1))
                  (closesDuringLaunch sched (i + 1)) this pending)
        as [(_ & _ & L)|(L1 & L2 & _ & L)]; fold before in L.
      * (* nothing has ended while the launch was awaited *)
        destruct ((i <? count - 1) && negb (isShuttingDown (fst launch)))
          eqn:Hcond; cbn [fst snd]; rewrite reportedTotal_app, Hrep, L;
          intros H.
        -- change (Run.reportedTotal (EvSleep delayMs :: ?l))
             with (Run.reportedTotal l) in H.
           rewrite reportedTotal_app in H.
           apply andb_true_iff in Hcond as [_ Hdown].
           apply negb_true_iff in Hdown.
           assert (Hinv1 : isShuttingDown (fst launch) = false ->
                           snd (fst before) = None).
           { intros _. apply Hsusp. now rewrite <- Hflag1. }
           pose proof (@meanwhile_suspended (browser_close sched)
                         (shutdownDuringSleep sched (i + 1))
                         (closesDuringSleep sched (i + 1)) (fst launch)
                         (snd (fst before)) Hinv1) as Gsusp.
           fold asleep in Gsusp. cbn zeta in Gsusp.
           destruct (meanwhile_lists (browser_close sched)
                       (shutdownDuringSleep sched (i + 1))
                       (closesDuringSleep sched (i + 1)) (fst launch)
                       (snd (fst before)))
             as [(_ & _ & G)|(G1 & G2 & _ & G)]; fold asleep in G.
           ++ rewrite G in H. apply IH; [|exact H].
              intros Hdown2. now apply Gsusp.
           ++ fold asleep in G1, G2.
              destruct (isShuttingDown (fst (fst asleep))) eqn:Hup.
              ** rewrite launchLoop_flagged by exact Hup. cbn [fst].
                 rewrite G1, G2. simpl. lia.
              ** destruct (Gsusp eq_refl) as (_ & _ & Hnil).
                 rewrite Hnil in G. now contradiction G.
        -- apply IH; [|exact H].
           intros Hdown. apply Hsusp. now rewrite <- Hflag1.
      * (* a shutdown has ended while the launch was awaited *)
        fold before in L1, L2.
        destruct (isShuttingDown (fst (fst before))) eqn:Hup.
        -- rewrite Hflag1. simpl negb. rewrite andb_false_r.
           rewrite launchLoop_flagged by now rewrite Hflag1.
           cbn [fst snd]. intros _. rewrite Hb, Hp, L1, L2. exact Hone.
        -- destruct (Hsusp eq_refl) as (_ & _ & Hnil).
           rewrite Hnil in L. now contradiction L.
Qed.

End StaggeredLaunch.

(** C3, as amended. Started while no shutdown is in progress, the
    staggered launch of budget N issues, when [shutdown()] is not called
    meanwhile, exactly the launches 1..N in increasing order, each one
    settled before the next is called, with one sleep of the stagger delay
    between two consecutive launches and none after the last; the sessions
    tracked afterwards are those tracked before followed by those of the
    launches that succeeded.
    When [shutdown()] is first called while launch k is awaited, the
    launches are exactly 1..k and no sleep follows launch k; when it is
    first called during the sleep after launch k, the launches are exactly
    1..k as well; when a shutdown is already in progress at the start,
    nothing is launched. The loop itself retracts nothing: as long as no
    shutdown has ended, every session tracked before and every session of a
    launch that succeeded is tracked when the loop returns. But the
    shutdown that raised the flag empties the tracked lists when it ends:
    if it has ended before the loop returns, at most the session of the
    launch that was awaited meanwhile is tracked, and if it is still
    closing browsers then, both lists are empty once it has ended. *)
Theorem startStaggeredLaunch_sequence (sched : Schedule) (count : nat)
    (streamUrl : string) (delayMs : nat) (onProgress : bool)
    (this : Manager) :
  let run :=
    startStaggeredLaunch sched count streamUrl delayMs onProgress this in
  let after := fst (fst run) in
  let trace := snd run in
  (isShuttingDown this = false ->
   (forall index, quietAt sched index) ->
   outline trace = staggered delayMs 0 count
   /\ launchIndices trace = seq 1 count
   /\ browsers after = browsers this ++ launchedBrowsers sched 0 count
   /\ pages after = pages this ++ launchedPages sched 0 count)
  /\ (isShuttingDown this = false ->
      forall k,
        1 <= k <= count ->
        (forall index, index < k -> quietAt sched index) ->
        (shutdownDuringLaunch sched k = true ->
         outline trace = staggered delayMs 0 k
         /\ launchIndices trace = seq 1 k)
        /\ (shutdownDuringLaunch sched k = false ->
            shutdownDuringSleep sched k = true ->
            k < count ->
            outline trace = staggered delayMs 0 k ++ [Sleep delayMs]
            /\ launchIndices trace = seq 1 k))
  /\ (isShuttingDown this = true -> run = (this, None, []))
  /\ (Run.reportedTotal trace = None ->
      browsers after
      = browsers this
        ++ launchedBrowsers sched 0 (List.length (launchIndices trace))
      /\ pages after
         = pages this
           ++ launchedPages sched 0 (List.length (launchIndices trace)))
  /\ (Run.reportedTotal trace <> None ->
      List.length (browsers after) <= 1 /\ List.length (pages after) <= 1)
  /\ (forall t,
        snd (fst run) = Some t ->
        browsers (fst (fst (teardownEnds (browser_close sched) after
                              (Some t)))) = []
        /\ pages (fst (fst (teardownEnds (browser_close sched) after
                              (Some t)))) = []).
Proof.
  intros run after trace. unfold trace, after, run, startStaggeredLaunch.
  split; [|split; [|split; [|split; [|split]]]].
  - intros Hflag Hquiet.
    destruct (@launchLoop_quiet sched count streamUrl delayMs onProgress
                count 0 this eq_refl Hflag) as [Hout Hidx].
    { intros index _. apply Hquiet. }
    destruct (@launchLoop_quiet_flag sched count streamUrl delayMs onProgress
                count 0 this Hflag) as (_ & _ & Hrep & _).
    { intros index _. apply Hquiet. }
    destruct (@launchLoop_tracked sched count streamUrl delayMs onProgress
                count 0 this None Hrep) as [Hb Hp].
    rewrite Hidx, length_seq in Hb, Hp. now repeat split.
  - intros Hflag k [Hk1 Hk2] Hquiet.
    destruct k as [|n]; [lia|].
    pose proof (@launchLoop_interrupted sched count streamUrl delayMs
                  onProgress n 0 this ltac:(simpl; lia) Hflag) as H.
    rewrite Nat.sub_0_r in H. simpl in H. apply H.
    intros index _ Hlt. apply Hquiet. exact Hlt.
  - apply launchLoop_flagged.
  - apply launchLoop_tracked.
  - apply launchLoop_ended. reflexivity.
  - intros t _. rewrite teardownEnds_ends. now split.
Qed.

Lemma startStaggeredLaunch_sequence_witness :
  let playing := fun index =>
    mkLaunchWorld (Normal (10 + index)) (Normal 1) (Normal index)
                  (Normal tt) (Normal tt) (Normal tt) (Normal tt) in
  let quiet :=
    mkSchedule playing (fun _ => false) (fun _ => false)
               (fun _ => 0) (fun _ => 0) (fun _ => Normal tt) in
  let interrupted :=
    mkSchedule playing (fun index => index =? 2) (fun _ => false)
               (fun _ => 0) (fun _ => 0) (fun _ => Normal tt) in
  (outline (snd (startStaggeredLaunch quiet 3 "https://stream"%string 1000
                   true constructor))
   = [Call 1; Settle 1; Sleep 1000; Call 2; Settle 2; Sleep 1000;
      Call 3; Settle 3]
   /\ browsers (fst (fst (startStaggeredLaunch quiet 3 "https://stream"%string
                            1000 true constructor)))
      = [11; 12; 13])
  /\ launchIndices
       (snd (startStaggeredLaunch interrupted 3 "https://stream"%string 1000
               true constructor))
     = [1; 2]
  /\ browsers (fst (fst (startStaggeredLaunch interrupted 3
                           "https://stream"%string 1000 true constructor)))
     = [11; 12].
Proof.
  intros playing quiet interrupted. split; [|split].
  - destruct (proj1 (startStaggeredLaunch_sequence quiet 3
                       "https://stream"%string 1000 true constructor) eq_refl)
      as (Hout & _ & Hb & _).
    + intros index. split; reflexivity.
    + split; [exact Hout|exact Hb].
  - refine (proj2 (proj1 (proj1 (proj2 (startStaggeredLaunch_sequence
             interrupted 3 "https://stream"%string 1000 true constructor))
             eq_refl 2 _ _) eq_refl)).
    + lia.
    + intros index Hlt. split; [|reflexivity].
      destruct index as [|[|index]]; [reflexivity|reflexivity|lia].
  - exact (proj1 (proj1 (proj2 (proj2 (proj2
             (startStaggeredLaunch_sequence interrupted 3
                "https://stream"%string 1000 true constructor)))) eq_refl)).
Defined.

(** A run on which the last clause of claim C3 fails: [shutdown()] is
    called during the sleep after launch 1, and its only close settles
    before the sleep is over. No further launch is issued, but the session
    of launch 1, which succeeded and was tracked, is not tracked when the
    loop returns. *)
Lemma startStaggeredLaunch_untracked_by_shutdown :
  let playing := fun index =>
    mkLaunchWorld (Normal (10 + index)) (Normal 1) (Normal index)
                  (Normal tt) (Normal tt) (Normal tt) (Normal tt) in
  let sched :=
    mkSchedule playing (fun _ => false) (fun index => index =? 1)
               (fun _ => 0) (fun _ => 1) (fun _ => Normal tt) in
  let run :=
    startStaggeredLaunch sched 3 "https://stream"%string 1000 false
                         constructor in
  browsers (fst (launchBrowser (playing 1) 1 "https://stream"%string
                   constructor)) = [11]
  /\ snd run
     = [EvLaunchCalled 1; EvLaunchSettled 1 (mkLaunchResult true None);
        EvSleep 1000; EvClose 11 true; EvLogClosed 1 1]
  /\ launchIndices (snd run) = [1]
  /\ browsers (fst (fst run)) = []
  /\ pages (fst (fst run)) = [].
Proof. repeat split. Qed.

(* ================================================================== *)
(** * Beyond the claims: the budget for every input *)
(* ================================================================== *)

Section BudgetFacts.

Import JSValue.

Lemma Math_max_one_nan : Math_max (of_Z 1) NaN = NaN.
Proof. reflexivity. Qed.

(** The budget is NaN or at least 1, whatever the three numbers are. *)
Lemma calculateMaxBrowsers_nan_or_ge (d b m : number) :
  isNaN (calculateMaxBrowsers d b m) = true
  \/ le (of_Z 1) (calculateMaxBrowsers d b m) = true.
Proof.
  unfold calculateMaxBrowsers.
  destruct (Math_floor (div (mul d m) b)) eqn:E;
    try (right; apply Math_max_one_ge; discriminate).
  left. reflexivity.
Qed.

Lemma calculateMaxBrowsers_finite_ge (d b m : number) :
  isFinite d = true -> isFinite m = true ->
  isFinite b = true -> truthy b = true ->
  le (of_Z 1) (calculateMaxBrowsers d b m) = true.
Proof.
  intros Hd Hm Hb Hnz. unfold calculateMaxBrowsers.
  apply Math_max_one_ge, Math_floor_not_nan.
  apply SFdiv_not_nan.
  - now apply SFmul_finite_not_nan.
  - destruct b; discriminate.
  - now right.
  - intros s ->. discriminate.
Qed.

Lemma SFmul_not_nan (x y : number) :
  x <> NaN -> isFinite y = true -> truthy y = true -> mul x y <> NaN.
Proof.
  intros Hx Hy Ht. destruct y as [s|s| |s m e]; try discriminate.
  destruct x as [sx|sx| |sx mx ex]; simpl; try discriminate.
  - now elim Hx.
  - apply binary_round_aux_not_nan. lia.
Qed.

Lemma SFdiv_finite_not_nan (x y : number) :
  x <> NaN -> isFinite y = true -> truthy y = true -> div x y <> NaN.
Proof.
  intros Hx Hy Ht. apply SFdiv_not_nan; trivial.
  - destruct y; discriminate.
  - now right.
  - intros s ->. discriminate.
Qed.

Lemma calculateMaxBrowsers_ge (d b m : number) :
  d <> NaN ->
  isFinite m = true -> truthy m = true ->
  isFinite b = true -> truthy b = true ->
  le (of_Z 1) (calculateMaxBrowsers d b m) = true.
Proof.
  intros Hd Hm Hmt Hb Hbt. unfold calculateMaxBrowsers.
  apply Math_max_one_ge, Math_floor_not_nan, SFdiv_finite_not_nan; trivial.
  now apply SFmul_not_nan.
Qed.

(** X1. For every three numbers [calculateMaxBrowsers] returns NaN or a
    number that is at least 1: it never returns 0, a negative number or
    -Infinity, also for a negative or zero rate or margin. The result is at
    least 1 whenever the bitrate is finite and not zero and either the rate
    and the margin are finite, or the rate is any number but NaN and the
    margin is finite and not zero. *)
Theorem calculateMaxBrowsers_never_below_one (d b m : number) :
  (isNaN (calculateMaxBrowsers d b m) = true
   \/ le (of_Z 1) (calculateMaxBrowsers d b m) = true)
  /\ (isFinite d = true -> isFinite m = true ->
      isFinite b = true -> truthy b = true ->
      le (of_Z 1) (calculateMaxBrowsers d b m) = true)
  /\ (isNaN d = false -> isFinite m = true -> truthy m = true ->
      isFinite b = true -> truthy b = true ->
      le (of_Z 1) (calculateMaxBrowsers d b m) = true).
Proof.
  split; [|split].
  - apply calculateMaxBrowsers_nan_or_ge.
  - apply calculateMaxBrowsers_finite_ge.
  - intros Hd. apply calculateMaxBrowsers_ge. intros ->. discriminate.
Qed.

End BudgetFacts.

Lemma calculateMaxBrowsers_never_below_one_witness :
  le (of_Z 1) (calculateMaxBrowsers (of_Z 0) (of_Z (-2800)) (of_Z (-3)))
  = true.
Proof.
  apply (proj1 (proj2 (calculateMaxBrowsers_never_below_one
                         (of_Z 0) (of_Z (-2800)) (of_Z (-3)))));
    vm_compute; reflexivity.
Defined.

(* ================================================================== *)
(** * Beyond the claims: config.js and the choice of the budget *)
(* ================================================================== *)

Section ConfigFacts.

Import JSValue.

Variable env : string -> option string.
Variables parseInt parseFloat : string -> number.

Lemma orNumber_truthy (x fallback : number) :
  truthy fallback = true -> truthy (orNumber x fallback) = true.
Proof.
  intros H. unfold orNumber. destruct (truthy x) eqn:E; assumption.
Qed.

Lemma orNumber_falsy (x fallback : number) :
  truthy x = false -> orNumber x fallback = fallback.
Proof. intros H. unfold orNumber. now rewrite H. Qed.

Lemma orNumber_finite (x fallback : number) :
  isNaN x || isFinite x = true -> isFinite fallback = true ->
  isFinite (orNumber x fallback) = true.
Proof.
  intros Hx Hf. unfold orNumber.
  destruct x; simpl in *; trivial; discriminate.
Qed.

(** X2. Whatever the environment holds and whatever the parsers return,
    no numeric setting of config.js that has a default is 0 or NaN; a
    variable whose value parses to 0 or to NaN gives the default, so that a
    launch delay of 0 (or a bitrate, a margin, a timeout of 0) cannot be
    configured. *)
Theorem load_settings_truthy :
  let config := Config.load env parseInt parseFloat in
  (truthy (Config.streamBitrateKbps config) = true
   /\ truthy (Config.bandwidthSafetyMargin config) = true
   /\ truthy (Config.launchDelayMs config) = true
   /\ truthy (Config.bufferingThresholdMs config) = true
   /\ truthy (Config.healthCheckIntervalMs config) = true
   /\ truthy (Config.viewport_width config) = true
   /\ truthy (Config.viewport_height config) = true
   /\ truthy (Config.pageLoadTimeoutMs config) = true
   /\ truthy (Config.videoPlayTimeoutMs config) = true)
  /\ (truthy (Config.parsed env parseInt "STREAM_BITRATE_KBPS") = false ->
      Config.streamBitrateKbps config = of_Z 2800)
  /\ (truthy (Config.parsed env parseFloat "BANDWIDTH_SAFETY_MARGIN") = false ->
      Config.bandwidthSafetyMargin config = lit_0_8)
  /\ (truthy (Config.parsed env parseInt "LAUNCH_DELAY_MS") = false ->
      Config.launchDelayMs config = of_Z 1000)
  /\ (truthy (Config.parsed env parseInt "HEALTH_CHECK_INTERVAL_MS") = false ->
      Config.healthCheckIntervalMs config = of_Z 5000)
  /\ (truthy (Config.parsed env parseInt "PAGE_LOAD_TIMEOUT_MS") = false ->
      Config.pageLoadTimeoutMs config = of_Z 30000)
  /\ (truthy (Config.parsed env parseInt "VIDEO_PLAY_TIMEOUT_MS") = false ->
      Config.videoPlayTimeoutMs config = of_Z 15000).
Proof.
  intros config. unfold config, Config.load. simpl.
  split.
  - repeat split; apply orNumber_truthy; reflexivity.
  - repeat split; apply orNumber_falsy.
Qed.

(** The budget computed from the configured bitrate and margin. *)
Lemma budget_from_config_ge (d : number) :
  let config := Config.load env parseInt parseFloat in
  isFinite (Config.streamBitrateKbps config) = true ->
  isFinite (Config.bandwidthSafetyMargin config) = true ->
  isNaN d = false ->
  le (of_Z 1)
     (calculateMaxBrowsers d (Config.streamBitrateKbps config)
        (Config.bandwidthSafetyMargin config))
  = true.
Proof.
  intros config Hb Hm Hd. apply calculateMaxBrowsers_ge; trivial.
  - intros ->. discriminate.
  - apply orNumber_truthy. reflexivity.
  - apply orNumber_truthy. reflexivity.
Qed.

(** With a rate and a bitrate that are both Infinity the budget is NaN,
    whatever the configured margin. *)
Lemma budget_from_config_nan :
  let config := Config.load env parseInt parseFloat in
  Config.streamBitrateKbps config = Infinity ->
  calculateMaxBrowsers Infinity (Config.streamBitrateKbps config)
    (Config.bandwidthSafetyMargin config)
  = NaN.
Proof.
  intros config Hb. rewrite Hb.
  assert (Hm : truthy (Config.bandwidthSafetyMargin config) = true)
    by (apply orNumber_truthy; reflexivity).
  unfold calculateMaxBrowsers. rewrite of_Z_1.
  destruct (Config.bandwidthSafetyMargin config) as [sm|sm| |sm mm em];
    try discriminate; destruct sm; reflexivity.
Qed.

(** X3. When no [--max] flag is given (or its value is empty) and
    MAX_BROWSERS is not set, is empty, or parses to 0 or NaN, the budget of
    [main] is the one [calculateMaxBrowsers] computes from the measured
    download rate and the configured bitrate and margin. That budget is at
    least 1 for every download rate but NaN when the configured bitrate
    and margin are finite; it is NaN when the download rate and the
    configured bitrate are both Infinity. *)
Theorem chooseMaxBrowsers_computed (flags : Index.Flags)
    (speed : Speedtest.Speed) :
  orString (Index.max flags) "" = ""%string ->
  match env "MAX_BROWSERS" with
  | Some text => text = ""%string \/ truthy (parseInt text) = false
  | None => True
  end ->
  let config := Config.load env parseInt parseFloat in
  Index.chooseMaxBrowsers parseInt flags config speed
  = calculateMaxBrowsers (downloadKbps speed)
      (Config.streamBitrateKbps config)
      (Config.bandwidthSafetyMargin config)
  /\ (isNaN (downloadKbps speed) = false ->
      isFinite (Config.streamBitrateKbps config) = true ->
      isFinite (Config.bandwidthSafetyMargin config) = true ->
      le (of_Z 1) (Index.chooseMaxBrowsers parseInt flags config speed)
      = true)
  /\ (downloadKbps speed = Infinity ->
      Config.streamBitrateKbps config = Infinity ->
      Index.chooseMaxBrowsers parseInt flags config speed = NaN).
Proof.
  intros Hflag Henv config.
  assert (E : Index.chooseMaxBrowsers parseInt flags config speed
              = calculateMaxBrowsers (downloadKbps speed)
                  (Config.streamBitrateKbps config)
                  (Config.bandwidthSafetyMargin config)).
  { unfold Index.chooseMaxBrowsers.
    destruct (Index.max flags) as [[|c rest]|]; try discriminate;
      unfold config, Config.load; simpl;
      destruct (env "MAX_BROWSERS") as [[|c' rest']|]; trivial;
      destruct Henv as [Henv|Henv]; try discriminate; now rewrite Henv. }
  split; [exact E|]. rewrite E. split.
  - intros Hd Hb Hm. now apply budget_from_config_ge.
  - intros -> Hb. now apply budget_from_config_nan.
Qed.

(** What the measurement leaves in [downloadKbps] is never NaN when the
    download took some time. *)
Lemma Math_round_not_nan (x : number) : x <> NaN -> Math_round x <> NaN.
Proof.
  intros H. destruct x as [s|s| |s m e]; simpl; trivial.
  destruct (0 <=? e)%Z; trivial.
  destruct (_ =? 0)%Z; [discriminate|].
  destruct (_ <? 0)%Z.
  - apply SFopp_not_nan, of_Z_not_nan.
  - apply of_Z_not_nan.
Qed.

(** X20. [runSpeedTest] never passes on a failure: when the first
    download or the second one throws, it resolves to what the manual
    prompt gives, and a failure of the first download makes the second one
    irrelevant. When both complete and the second one took a finite time
    that is not zero, the measured [downloadKbps] is not NaN for any finite
    byte count, and the budget computed from it is at least 1 when the
    configured bitrate and margin are finite. *)
Theorem runSpeedTest_budget (pingTest download : Completion Measure.Download)
    (ping bytes duration : number) (answer : string) :
  (forall message other,
     pingTest = Throw message ->
     Measure.runSpeedTest parseFloat pingTest ping other answer
     = promptManualSpeed parseFloat answer)
  /\ (forall message,
        download = Throw message ->
        Measure.runSpeedTest parseFloat pingTest ping download answer
        = promptManualSpeed parseFloat answer)
  /\ (throws pingTest = false ->
      download = Normal (Measure.finished bytes duration) ->
      isFinite bytes = true ->
      isFinite duration = true -> truthy duration = true ->
      let speed :=
        Measure.runSpeedTest parseFloat pingTest ping download answer in
      let config := Config.load env parseInt parseFloat in
      isNaN (downloadKbps speed) = false
      /\ Speedtest.ping speed = ping
      /\ (isFinite (Config.streamBitrateKbps config) = true ->
          isFinite (Config.bandwidthSafetyMargin config) = true ->
          le (of_Z 1)
             (calculateMaxBrowsers (downloadKbps speed)
                (Config.streamBitrateKbps config)
                (Config.bandwidthSafetyMargin config))
          = true)).
Proof.
  split; [|split].
  - intros message other ->. reflexivity.
  - intros message ->. unfold Measure.runSpeedTest.
    destruct pingTest; reflexivity.
  - intros Hping -> Hb Hd Hdt speed config.
    assert (Hk : downloadKbps speed <> NaN
                 /\ Speedtest.ping speed = ping).
    { unfold speed, Measure.runSpeedTest.
      destruct pingTest as [first|message]; [|discriminate]. simpl.
      split; [|reflexivity].
      apply Math_round_not_nan.
      apply SFdiv_finite_not_nan; try reflexivity.
      apply SFmul_not_nan; try reflexivity.
      apply SFmul_not_nan; try reflexivity.
      apply SFdiv_finite_not_nan; trivial.
      destruct bytes; discriminate. }
    destruct Hk as [Hk Hp].
    assert (Hn : isNaN (downloadKbps speed) = false)
      by (destruct (downloadKbps speed); trivial; now elim Hk).
    split; [exact Hn|]. split; [exact Hp|].
    intros Hbit Hmargin. now apply budget_from_config_ge.
Qed.

End ConfigFacts.

Lemma load_settings_truthy_witness :
  let env := fun key : string =>
    if String.eqb key "LAUNCH_DELAY_MS" then Some "0"%string else None in
  let parseInt := fun text : string =>
    if String.eqb text "0" then of_Z 0 else NaN in
  Config.launchDelayMs (Config.load env parseInt (fun _ => NaN)) = of_Z 1000.
Proof.
  intros env parseInt.
  apply (proj1 (proj2 (proj2 (proj2
           (load_settings_truthy env parseInt (fun _ => NaN)))))).
  reflexivity.
Defined.

Lemma chooseMaxBrowsers_computed_witness :
  let env := fun key : string =>
    if String.eqb key "MAX_BROWSERS" then Some "0"%string
    else if String.eqb key "STREAM_BITRATE_KBPS" then Some "0"%string
    else None in
  let parseInt := fun text : string =>
    if String.eqb text "0" then of_Z 0 else NaN in
  let overlong := fun text : string =>
    if String.eqb text "0" then of_Z 0 else Infinity in
  let bitrate := fun key : string =>
    if String.eqb key "STREAM_BITRATE_KBPS" then
      Some "9999999999999999999999999999999999999999999999999999999999999999999999999999999999999999999999999999999999999999999999999999999999999999999999999999999999999999999999999999999999999999999999999999999999999999999999999999999999999999999999999999999999999999999999999999999999999999999999999999999999999999999999"%string
    else None in
  le (of_Z 1)
     (Index.chooseMaxBrowsers parseInt
        (Index.mkFlags true None None false false)
        (Config.load env parseInt (fun _ => NaN))
        (mkSpeed (of_Z 100000) (of_Z 50000) (of_Z 12)))
  = true
  /\ Index.chooseMaxBrowsers overlong
       (Index.mkFlags true None None false false)
       (Config.load bitrate overlong (fun _ => NaN))
       (mkSpeed Infinity Infinity (of_Z 20))
     = NaN.
Proof.
  intros env parseInt overlong bitrate. split.
  - refine (proj1 (proj2 (chooseMaxBrowsers_computed env parseInt
                            (fun _ => NaN)
                            (Index.mkFlags true None None false false)
                            (mkSpeed (of_Z 100000) (of_Z 50000) (of_Z 12))
                            eq_refl _))
                  eq_refl eq_refl eq_refl).
    right. reflexivity.
  - refine (proj2 (proj2 (chooseMaxBrowsers_computed bitrate overlong
                            (fun _ => NaN)
                            (Index.mkFlags true None None false false)
                            (mkSpeed Infinity Infinity (of_Z 20))
                            eq_refl _))
                  eq_refl eq_refl).
    exact I.
Defined.

(* ================================================================== *)
(** * Beyond the claims: the probe in the page *)
(* ================================================================== *)

Section ProbeFacts.

Import StreamMonitor.

Lemma run_cons (signal : Probe.Signal) (signals : list Probe.Signal)
    (h : StreamHealth) :
  Probe.run (signal :: signals) h = Probe.run signals (Probe.handle signal h).
Proof. reflexivity. Qed.

Lemma run_app (first second : list Probe.Signal) (h : StreamHealth) :
  Probe.run (first ++ second) h = Probe.run second (Probe.run first h).
Proof. unfold Probe.run. apply fold_left_app. Qed.

(** Errors are only ever appended. *)
Lemma errors_run (signals : list Probe.Signal) :
  forall h,
    errors (Probe.run signals h) = errors h ++ Probe.recorded signals.
Proof.
  induction signals as [|signal rest IH]; intros h.
  - simpl. now rewrite app_nil_r.
  - rewrite run_cons, IH.
    destruct signal; simpl; trivial. now rewrite <- app_assoc.
Qed.

Lemma counts_run (signals : list Probe.Signal) :
  forall h,
    bufferingCount (Probe.run signals h)
    = bufferingCount h + Probe.waitings signals
    /\ stalledCount (Probe.run signals h)
       = stalledCount h + Probe.stalls signals.
Proof.
  induction signals as [|signal rest IH]; intros h.
  - unfold Probe.waitings, Probe.stalls. simpl. lia.
  - rewrite run_cons. destruct (IH (Probe.handle signal h)) as [Hb Hs].
    rewrite Hb, Hs. unfold Probe.waitings, Probe.stalls.
    destruct signal; simpl; lia.
Qed.

(** Only the interval callback touches the two samples. *)
Lemma times_run_unsampled (signals : list Probe.Signal) :
  forall h,
    Probe.unsampled signals = true ->
    currentTime (Probe.run signals h) = currentTime h
    /\ lastTime (Probe.run signals h) = lastTime h.
Proof.
  induction signals as [|signal rest IH]; intros h H.
  - now split.
  - rewrite run_cons. simpl in H. apply andb_prop in H. destruct H as [Hs Hr].
    destruct (IH (Probe.handle signal h) Hr) as [Hc Hl]. rewrite Hc, Hl.
    destruct signal; try discriminate; now split.
Qed.

(** What the sweep of a tick makes of a readable snapshot. *)
Lemma pollPages_reads (h : StreamHealth) (page : Page) :
  pollPages (Probe.reads h) [page] 0 0 0
  = match errors h with
    | _ :: _ => (0, 0, 1)
    | [] =>
        if isPlaying h && JS.gt (currentTime h) (lastTime h) then (1, 0, 0)
        else (0, 1, 0)
    end.
Proof.
  rewrite pollPages_cons. unfold category, Probe.reads.
  destruct (errors h); [|reflexivity].
  destruct (isPlaying h && JS.gt (currentTime h) (lastTime h)); reflexivity.
Qed.

Lemma getHealth_reads (h : StreamHealth) (page : Page) :
  exists report,
    getHealth (Probe.reads h) page = Normal report
    /\ rep_errors report = errors h
    /\ healthy report
       = isPlaying h && JS.gt (currentTime h) (lastTime h)
         && (List.length (errors h) =? 0)%nat.
Proof.
  eexists. split; [apply (@getHealth_readable (Probe.reads h) page h eq_refl)|].
  now split.
Qed.

(** X4. The error list of the probe only grows: after any signals it is
    the list before followed by the messages of the error events, in
    order. So a session that has recorded an error is reported unhealthy by
    every later [getHealth] and counted as an error by every later sweep,
    whatever else happens in the page. *)
Theorem probe_errors_sticky (signals : list Probe.Signal)
    (h : StreamHealth) (page : Page) :
  errors (Probe.run signals h) = errors h ++ Probe.recorded signals
  /\ (errors h <> [] ->
      (exists report,
         getHealth (Probe.reads (Probe.run signals h)) page = Normal report
         /\ healthy report = false)
      /\ pollPages (Probe.reads (Probe.run signals h)) [page] 0 0 0 = (0, 0, 1)).
Proof.
  split; [apply errors_run|]. intros Hne.
  assert (E : exists e es, errors (Probe.run signals h) = e :: es).
  { rewrite errors_run. destruct (errors h) as [|e es]; [now elim Hne|].
    now exists e, (es ++ Probe.recorded signals). }
  destruct E as (e & es & E). split.
  - destruct (getHealth_reads (Probe.run signals h) page)
      as (report & Hr & _ & Hh).
    exists report. split; [exact Hr|]. rewrite Hh, E. simpl.
    now rewrite andb_false_r.
  - rewrite pollPages_reads, E. reflexivity.
Qed.

(** X5. On a page without a video element the script records "No video
    element found" and registers nothing: whatever happens afterwards, the
    snapshot stays as it is, [getHealth] reports that single error with
    [healthy = false], and every sweep counts the session as an error. *)
Theorem probe_without_video (now : Z) (signals : list Probe.Signal)
    (page : Page) :
  Probe.snapshot now false signals = Probe.snapshot now false []
  /\ (exists report,
        getHealth (Probe.reads (Probe.snapshot now false signals)) page
        = Normal report
        /\ rep_errors report = ["No video element found"%string]
        /\ healthy report = false)
  /\ pollPages (Probe.reads (Probe.snapshot now false signals)) [page] 0 0 0
     = (0, 0, 1).
Proof.
  split; [reflexivity|]. split.
  - eexists. split; [reflexivity|]. now split.
  - reflexivity.
Qed.

(** X6. A session is never healthy before the interval callback of the
    probe has run once: until then both playback samples are 0, whatever
    events have fired (also a [playing] event), so [getHealth] reports
    [healthy = false] and a sweep never counts the session as healthy. *)
Theorem probe_unhealthy_before_first_sample (now : Z) (hasVideo : bool)
    (signals : list Probe.Signal) (page : Page) :
  Probe.unsampled signals = true ->
  (exists report,
     getHealth (Probe.reads (Probe.snapshot now hasVideo signals)) page
     = Normal report
     /\ healthy report = false)
  /\ fst (fst (pollPages (Probe.reads (Probe.snapshot now hasVideo signals))
                 [page] 0 0 0)) = 0.
Proof.
  intros H.
  assert (T : currentTime (Probe.snapshot now hasVideo signals) = of_Z 0
              /\ lastTime (Probe.snapshot now hasVideo signals) = of_Z 0).
  { unfold Probe.snapshot, Probe.install. destruct hasVideo.
    - destruct (times_run_unsampled signals (Probe.initial now) H) as [-> ->].
      now split.
    - now split. }
  destruct T as [Tc Tl]. split.
  - destruct (getHealth_reads (Probe.snapshot now hasVideo signals) page)
      as (report & Hr & _ & Hh).
    exists report. split; [exact Hr|]. rewrite Hh, Tc, Tl.
    change (JS.gt (of_Z 0) (of_Z 0)) with false.
    now rewrite andb_false_r.
  - rewrite pollPages_reads, Tc, Tl.
    change (JS.gt (of_Z 0) (of_Z 0)) with false. rewrite andb_false_r.
    destruct (errors (Probe.snapshot now hasVideo signals)); reflexivity.
Qed.

(** X7. Right after a run of the interval callback the session is healthy
    exactly when the video is neither paused nor ended, its ready state is
    above 2, its time is strictly above the sample taken before and no
    error is recorded; a healthy session then satisfies the condition
    [waitForPlayback] waits for. When two consecutive runs of the callback
    read the same time, the session is unhealthy after the second one,
    whatever events fired in between. *)
Theorem probe_sample_health (h : StreamHealth) (video other : Probe.Video)
    (between : list Probe.Signal) (page : Page) :
  (exists report,
     getHealth (Probe.reads (Probe.handle (Probe.OnInterval video) h)) page
     = Normal report
     /\ healthy report
        = negb (Probe.paused video) && negb (Probe.ended video)
          && (2 <? Probe.video_readyState video)%nat
          && JS.gt (Probe.video_currentTime video) (currentTime h)
          && (List.length (errors h) =? 0)%nat
     /\ (healthy report = true ->
         Probe.playbackStarted (Some video) = true))
  /\ (Probe.unsampled between = true ->
      JS.eq (Probe.video_currentTime other) (Probe.video_currentTime video)
      = true ->
      exists report,
        getHealth
          (Probe.reads (Probe.run (Probe.OnInterval video :: between
                             ++ [Probe.OnInterval other]) h)) page
        = Normal report
        /\ healthy report = false).
Proof.
  split.
  - destruct (getHealth_reads (Probe.handle (Probe.OnInterval video) h) page)
      as (report & Hr & _ & Hh).
    exists report. split; [exact Hr|]. simpl in Hh. split; [exact Hh|].
    rewrite Hh. intros E. unfold Probe.playbackStarted.
    destruct (Probe.paused video); [discriminate|].
    destruct (Probe.ended video); [discriminate|].
    destruct (2 <? Probe.video_readyState video)%nat eqn:R;
      [|discriminate].
    apply Nat.ltb_lt in R. cbn [negb andb]. apply Nat.leb_le. lia.
  - intros Hu Heq.
    set (h1 := Probe.run between (Probe.handle (Probe.OnInterval video) h)).
    assert (E : Probe.run (Probe.OnInterval video :: between
                           ++ [Probe.OnInterval other]) h
                = Probe.handle (Probe.OnInterval other) h1).
    { rewrite run_cons, run_app. reflexivity. }
    rewrite E.
    destruct (getHealth_reads (Probe.handle (Probe.OnInterval other) h1) page)
      as (report & Hr & _ & Hh).
    exists report. split; [exact Hr|]. rewrite Hh. simpl.
    destruct (times_run_unsampled between
                (Probe.handle (Probe.OnInterval video) h) Hu) as [Hc _].
    fold h1 in Hc. rewrite Hc. simpl.
    rewrite (eq_not_gt _ _ Heq). now rewrite !andb_false_r.
Qed.

(** X8. The probe counts the [waiting] and [stalled] events, but neither
    count takes part in the classification: after any number of such
    events the two counters have grown by the numbers of events, and both
    [getHealth] and the sweep of a tick treat the session exactly as
    before them. *)
Theorem probe_counts_do_not_classify (signals : list Probe.Signal)
    (h : StreamHealth) (page : Page) :
  bufferingCount (Probe.run signals h)
  = bufferingCount h + Probe.waitings signals
  /\ stalledCount (Probe.run signals h) = stalledCount h + Probe.stalls signals
  /\ (Forall (fun s => s = Probe.OnWaiting \/ s = Probe.OnStalled) signals ->
      pollPages (Probe.reads (Probe.run signals h)) [page] 0 0 0
      = pollPages (Probe.reads h) [page] 0 0 0
      /\ exists report report',
           getHealth (Probe.reads (Probe.run signals h)) page = Normal report
           /\ getHealth (Probe.reads h) page = Normal report'
           /\ healthy report = healthy report').
Proof.
  destruct (counts_run signals h) as [Hb Hs].
  split; [exact Hb|]. split; [exact Hs|]. intros Hall.
  assert (E : isPlaying (Probe.run signals h) = isPlaying h
              /\ currentTime (Probe.run signals h) = currentTime h
              /\ lastTime (Probe.run signals h) = lastTime h
              /\ errors (Probe.run signals h) = errors h).
  { clear Hb Hs. revert h.
    induction Hall as [|signal rest Hsig _ IH]; intros h; [now repeat split|].
    rewrite run_cons. destruct (IH (Probe.handle signal h)) as (-> & -> & -> & ->).
    destruct Hsig as [-> | ->]; now repeat split. }
  destruct E as (Ep & Ec & El & Ee). split.
  - now rewrite !pollPages_reads, Ep, Ec, El, Ee.
  - destruct (getHealth_reads (Probe.run signals h) page)
      as (report & Hr & _ & Hh).
    destruct (getHealth_reads h page) as (report' & Hr' & _ & Hh').
    exists report, report'. split; [exact Hr|]. split; [exact Hr'|].
    now rewrite Hh, Hh', Ep, Ec, El, Ee.
Qed.

End ProbeFacts.

(* ================================================================== *)
(** * Beyond the claims: runs of a manager *)
(* ================================================================== *)

Section RunFacts.

Import Run.

Lemma consistent_constructor : consistent constructor.
Proof. unfold consistent. simpl. repeat split; lia. Qed.

Lemma launchBrowser_consistent (w : LaunchWorld) (index : nat)
    (streamUrl : string) (this : Manager) :
  consistent this -> consistent (fst (launchBrowser w index streamUrl this)).
Proof.
  unfold consistent, launchBrowser. intros (Hl & Hle & Heq & Hhb).
  destruct (launchSteps w) as [[[b p] []]|message]; simpl;
    rewrite ?length_app; simpl; repeat split; try lia;
    intros Hf; specialize (Heq Hf); lia.
Qed.


(** A staggered launch of a run, with the shutdown that is still suspended
    when the loop returns left to end. *)
Lemma perform_staggered (sched : Schedule) (count : nat) (streamUrl : string)
    (delayMs : nat) (onProgress : bool) (this : Manager) :
  let run :=
    startStaggeredLaunch sched count streamUrl delayMs onProgress this in
  let ended :=
    teardownEnds (browser_close sched) (fst (fst run)) (snd (fst run)) in
  perform (CallStartStaggeredLaunch sched count streamUrl delayMs onProgress)
          this
  = (fst (fst ended), snd run ++ snd ended).
Proof.
  intros run ended. unfold ended, run. cbn [perform].
  destruct (startStaggeredLaunch sched count streamUrl delayMs onProgress
              this) as [[this1 pending] tr1].
  cbn [fst snd].
  destruct (teardownEnds (browser_close sched) this1 pending)
    as [[this2 pending2] tr2].
  reflexivity.
Qed.

Lemma teardownEnds_meanwhile (close : Browser -> Completion unit)
    (this : Manager) (pending : option Teardown) :
  teardownEnds close this pending
  = meanwhile close false (S (List.length (browsers this))) this pending.
Proof.
  unfold teardownEnds, meanwhile.
  destruct (closesSettled close (S (List.length (browsers this))) this
              pending) as [[this2 pending2] tr2].
  reflexivity.
Qed.

Lemma launchLoop_consistent (sched : Schedule) (count : nat)
    (streamUrl : string) (delayMs : nat) (onProgress : bool)
    (remaining : nat) :
  forall i this pending,
    (isShuttingDown this = false -> pending = None) ->
    consistent this ->
    let run :=
      launchLoop sched count streamUrl delayMs onProgress remaining i this
                 pending in
    consistent (fst (fst run))
    /\ (isShuttingDown (fst (fst run)) = false -> snd (fst run) = None).
Proof.
  induction remaining as [|remaining IH]; intros i this pending Hinv H;
    [now split|].
  destruct (isShuttingDown this) eqn:Hflag.
  - rewrite launchLoop_flagged by exact Hflag. cbn [fst snd].
    split; [exact H|]. rewrite Hflag. discriminate.
  - assert (Hnone : isShuttingDown this = false -> pending = None)
      by (intros _; now apply Hinv).
    clear Hinv.
    rewrite launchLoop_turn by exact Hflag.
    set (before := meanwhile _ _ _ this pending).
    set (launch := launchBrowser _ _ _ (fst (fst before))).
    set (asleep := meanwhile _ _ _ (fst launch) _).
    pose proof (@meanwhile_consistent (browser_close sched)
                  (shutdownDuringLaunch sched (i + 1))
                  (closesDuringLaunch sched (i + 1)) this pending Hnone H)
      as Hbefore.
    pose proof (@meanwhile_suspended (browser_close sched)
                  (shutdownDuringLaunch sched (i + 1))
                  (closesDuringLaunch sched (i + 1)) this pending Hnone)
      as Hsusp.
    fold before in Hbefore, Hsusp. cbn zeta in Hsusp.
    pose proof (launchBrowser_consistent (worldAt sched (i + 1)) (i + 1)
                  streamUrl Hbefore) as Hlaunch.
    fold launch in Hlaunch.
    assert (Hflag1 : isShuttingDown (fst launch)
                     = isShuttingDown (fst (fst before)))
      by (unfold launch; now rewrite launchBrowser_isShuttingDown).
    assert (Hinv1 : isShuttingDown (fst launch) = false ->
                    snd (fst before) = None).
    { intros Hdown. apply Hsusp. now rewrite <- Hflag1. }
    destruct ((i <? count - 1) && negb (isShuttingDown (fst launch)));
      cbn [fst snd].
    + apply IH.
      * intros Hdown.
        now apply (@meanwhile_suspended (browser_close sched)
                     (shutdownDuringSleep sched (i + 1))
                     (closesDuringSleep sched (i + 1)) (fst launch)
                     (snd (fst before)) Hinv1).
      * now apply meanwhile_consistent.
    + now apply IH.
Qed.

Lemma startStaggeredLaunch_consistent (sched : Schedule) (count : nat)
    (streamUrl : string) (delayMs : nat) (onProgress : bool)
    (this : Manager) :
  consistent this ->
  consistent
    (fst (perform (CallStartStaggeredLaunch sched count streamUrl delayMs
                     onProgress) this)).
Proof.
  intros H. rewrite perform_staggered. cbn [fst].
  destruct (@launchLoop_consistent sched count streamUrl delayMs onProgress
              count 0 this None ltac:(reflexivity) H) as [Hc Hinv].
  rewrite teardownEnds_meanwhile. now apply meanwhile_consistent.
Qed.

(** A staggered launch during which [shutdown()] is not called. *)
Lemma startStaggeredLaunch_quiet (sched : Schedule) (count : nat)
    (streamUrl : string) (delayMs : nat) (onProgress : bool)
    (this : Manager) :
  (forall index, quietAt sched index) ->
  isShuttingDown this = false ->
  isShuttingDown
    (fst (perform (CallStartStaggeredLaunch sched count streamUrl delayMs
                     onProgress) this)) = false.
Proof.
  intros Hquiet Hflag. rewrite perform_staggered. cbn [fst].
  destruct (@launchLoop_quiet_flag sched count streamUrl delayMs onProgress
              count 0 this Hflag) as (Hdown & Hnone & _).
  { intros index _. apply Hquiet. }
  unfold startStaggeredLaunch. rewrite Hnone.
  unfold teardownEnds. rewrite closesSettled_idle. exact Hdown.
Qed.

Lemma healthCheckTick_consistent (evaluate : StreamMonitor.Evaluate)
    (onUpdate : bool) (this : Manager) :
  consistent this ->
  consistent (fst (healthCheckTick evaluate onUpdate this)).
Proof.
  intros H. destruct (isShuttingDown this) eqn:Hflag.
  - unfold healthCheckTick. now rewrite Hflag.
  - rewrite healthCheckTick_polls by exact Hflag.
    destruct H as (Hl & Hle & Heq & Hhb).
    pose proof (countIn_total evaluate (pages this)) as Ht.
    unfold consistent. simpl. repeat split; trivial. lia.
Qed.

Lemma shutdown_consistent (close : Browser -> Completion unit)
    (this : Manager) :
  consistent this -> consistent (fst (shutdown close this)).
Proof.
  intros H. destruct (isShuttingDown this) eqn:Hflag.
  - unfold shutdown. now rewrite Hflag.
  - rewrite shutdown_first by exact Hflag.
    destruct H as (Hl & Hle & Heq & Hhb).
    unfold consistent. simpl. repeat split; trivial; try lia; discriminate.
Qed.

Lemma perform_consistent (call : Call) (this : Manager) :
  consistent this -> consistent (fst (perform call this)).
Proof.
  intros H. destruct call; cbn [perform fst].
  - now apply launchBrowser_consistent.
  - now apply startStaggeredLaunch_consistent.
  - exact H.
  - now apply healthCheckTick_consistent.
  - unfold stopHealthChecks. destruct (healthCheckInterval this); exact H.
  - now apply shutdown_consistent.
Qed.

Lemma performAll_cons (call : Call) (rest : list Call) (this : Manager) :
  performAll (call :: rest) this
  = (fst (performAll rest (fst (perform call this))),
     snd (perform call this) ++ snd (performAll rest (fst (perform call this)))).
Proof.
  simpl. destruct (perform call this) as [this1 tr1]. cbn [fst snd].
  destruct (performAll rest this1) as [this2 tr2]. reflexivity.
Qed.

Lemma performAll_consistent (calls : list Call) :
  forall this, consistent this -> consistent (fst (performAll calls this)).
Proof.
  induction calls as [|call rest IH]; intros this H; [exact H|].
  rewrite performAll_cons. cbn [fst]. apply IH, perform_consistent, H.
Qed.

Lemma perform_undisturbed (call : Call) (this : Manager) :
  undisturbed call -> isShuttingDown this = false ->
  isShuttingDown (fst (perform call this)) = false.
Proof.
  intros Hu Hflag.
  destruct call;
    try (cbn [undisturbed] in Hu; now apply startStaggeredLaunch_quiet);
    simpl in *.
  - now rewrite launchBrowser_isShuttingDown.
  - exact Hflag.
  - unfold healthCheckTick. rewrite Hflag.
    destruct (pollPages evaluate (pages this) 0 0 0) as [[h b] e]. exact Hflag.
  - unfold stopHealthChecks. destruct (healthCheckInterval this); exact Hflag.
  - contradiction.
Qed.

Lemma performAll_undisturbed (calls : list Call) :
  Forall undisturbed calls ->
  forall this,
    isShuttingDown this = false ->
    isShuttingDown (fst (performAll calls this)) = false.
Proof.
  induction 1 as [|call rest Hu _ IH]; intros this Hflag; [exact Hflag|].
  rewrite performAll_cons. cbn [fst]. apply IH, perform_undisturbed; trivial.
Qed.

Lemma manager_consistent_aux (calls : list Call) :
  consistent (fst (performAll calls constructor)).
Proof. apply performAll_consistent, consistent_constructor. Qed.

(** C5, as amended. Take any run of a new manager. A tick that fires
    after it while no shutdown is in progress leaves the four counters at
    the values that a count over the tracked sessions and their current
    snapshots gives: [launched] is the number of tracked sessions, and
    [healthy], [buffering] and [errors] are the numbers of tracked sessions
    in each category, whatever these three counters were before the tick.
    The tracked lists are left as they are; a session whose snapshot read
    throws is counted as an error and stays tracked; after the tick the
    three counters add up to the number of tracked sessions. A tick that
    fires while a shutdown is in progress changes nothing. *)
Theorem healthCheckTick_recomputes (calls : list Call)
    (evaluate : StreamMonitor.Evaluate) (onUpdate : bool) :
  let this := fst (performAll calls constructor) in
  let recomputed :=
    mkStats (List.length (pages this))
            (countIn evaluate Healthy (pages this))
            (countIn evaluate Buffering (pages this))
            (countIn evaluate Errored (pages this)) in
  (isShuttingDown this = false ->
   stats (fst (healthCheckTick evaluate onUpdate this)) = recomputed
   /\ (forall h b e,
         stats (fst (healthCheckTick evaluate onUpdate
                       (set_stats (mkStats (launched (stats this)) h b e)
                                  this)))
         = recomputed)
   /\ pages (fst (healthCheckTick evaluate onUpdate this)) = pages this
   /\ browsers (fst (healthCheckTick evaluate onUpdate this)) = browsers this
   /\ healthy recomputed + buffering recomputed + errors recomputed
      = List.length (pages this))
  /\ (forall page message,
        evaluate page = Throw message ->
        pollPages evaluate [page] 0 0 0 = (0, 0, 1))
  /\ (isShuttingDown this = true ->
      healthCheckTick evaluate onUpdate this = (this, [])).
Proof.
  intros this recomputed. split; [|split].
  - intros Hflag.
    destruct (manager_consistent_aux calls) as (_ & _ & Heq & _).
    fold this in Heq. specialize (Heq Hflag).
    unfold recomputed. rewrite <- Heq.
    split; [|split; [|split; [|split]]].
    + now rewrite healthCheckTick_polls.
    + intros h b e. now rewrite healthCheckTick_polls.
    + now rewrite healthCheckTick_polls.
    + now rewrite healthCheckTick_polls.
    + cbn [healthy buffering errors]. rewrite Heq. apply countIn_total.
  - intros page message H. simpl. unfold StreamMonitor.getHealth.
    rewrite H. reflexivity.
  - intros H. unfold healthCheckTick. now rewrite H.
Qed.

(** X9. Whatever sequence of launches, staggered launches, health checks,
    ticks and shutdowns a new manager goes through, it tracks as many
    browsers as pages, never more than [launched], and exactly [launched]
    as long as no shutdown has begun; [healthy + buffering] never exceeds
    [launched]. *)
Theorem manager_stays_consistent (calls : list Call) :
  consistent (fst (performAll calls constructor)).
Proof. apply manager_consistent_aux. Qed.

(** X10. After every tick of a run in which no shutdown was requested, the
    status line adds up: [healthy + buffering + errors] equals [launched],
    which is the number of tracked sessions; the errors that failed
    launches had added are gone. *)
Theorem tick_adds_up (calls : list Call)
    (evaluate : StreamMonitor.Evaluate) (onUpdate : bool) :
  Forall undisturbed calls ->
  let this := fst (performAll calls constructor) in
  let st := stats (fst (healthCheckTick evaluate onUpdate this)) in
  healthy st + buffering st + errors st = launched st
  /\ launched st = List.length (pages this).
Proof.
  intros Hu this st.
  assert (Hflag : isShuttingDown this = false)
    by (apply performAll_undisturbed; trivial).
  destruct (manager_consistent_aux calls) as (_ & _ & Heq & _).
  unfold st. rewrite healthCheckTick_polls by exact Hflag. simpl.
  fold this in Heq. rewrite (Heq Hflag). split; [|reflexivity].
  apply countIn_total.
Qed.

End RunFacts.

Section ShutdownFacts.

Import Run.

Lemma reportedTotal_closes (close : Browser -> Completion unit)
    (bs : list Browser) (rest : list Event) :
  reportedTotal (map (fun b => EvClose b (closesOn close b)) bs ++ rest)
  = reportedTotal rest.
Proof. induction bs as [|b bs IH]; [reflexivity|]. simpl. exact IH. Qed.

Lemma shutdown_attempts (close : Browser -> Completion unit)
    (this : Manager) :
  closeAttempts (snd (shutdown close this))
  = if isShuttingDown this then [] else browsers this.
Proof.
  destruct (isShuttingDown this) eqn:Hflag.
  - unfold shutdown. now rewrite Hflag.
  - rewrite shutdown_first by exact Hflag. cbn [snd].
    rewrite !closeAttempts_app, closeAttempts_closes.
    unfold intervalStop. destruct (healthCheckInterval this); simpl;
      now rewrite app_nil_r.
Qed.

(** X11. In a run in which no shutdown was requested before, [shutdown]
    tries to close exactly [launched] browsers, the tracked ones in the
    order they were launched, and its final report gives [launched] as the
    total. *)
Theorem shutdown_closes_launched (calls : list Call)
    (close : Browser -> Completion unit) :
  Forall undisturbed calls ->
  let this := fst (performAll calls constructor) in
  closeAttempts (snd (shutdown close this)) = browsers this
  /\ List.length (browsers this) = launched (stats this)
  /\ reportedTotal (snd (shutdown close this))
     = Some (launched (stats this)).
Proof.
  intros Hu this.
  assert (Hflag : isShuttingDown this = false)
    by (apply performAll_undisturbed; trivial).
  destruct (manager_consistent_aux calls) as (Hl & _ & Heq & _).
  fold this in Hl, Heq.
  assert (Hlen : List.length (browsers this) = launched (stats this))
    by (rewrite (Heq Hflag); exact Hl).
  split; [|split; [exact Hlen|]].
  - now rewrite shutdown_attempts, Hflag.
  - rewrite shutdown_first by exact Hflag. cbn [snd].
    unfold intervalStop. destruct (healthCheckInterval this); simpl;
      rewrite reportedTotal_closes; simpl; now rewrite Hlen.
Qed.

(** X12. A browser that [chromium.launch] returned is lost when a later
    step of the same launch throws: it is not added to the tracked
    browsers, and a shutdown that follows does not try to close it. *)
Theorem failed_launch_leaks_browser (w : LaunchWorld) (index : nat)
    (streamUrl : string) (this : Manager)
    (close : Browser -> Completion unit) (b : Browser) (message : string) :
  chromium_launch w = Normal b ->
  firstThrow w = Some message ->
  ~ In b (browsers this) ->
  ~ In b (browsers (fst (launchBrowser w index streamUrl this)))
  /\ ~ In b (closeAttempts
               (snd (shutdown close
                       (fst (launchBrowser w index streamUrl this))))).
Proof.
  intros _ F Hfresh.
  assert (E : browsers (fst (launchBrowser w index streamUrl this))
              = browsers this).
  { unfold launchBrowser. now rewrite (launchSteps_throw w F). }
  split; [now rewrite E|].
  rewrite shutdown_attempts.
  destruct (isShuttingDown _); [intros []|now rewrite E].
Qed.

Lemma stopHealthChecks_quiet (this : Manager) :
  isShuttingDown (fst (stopHealthChecks this)) = isShuttingDown this
  /\ closeAttempts (snd (stopHealthChecks this)) = []
  /\ launchIndices (snd (stopHealthChecks this)) = [].
Proof.
  unfold stopHealthChecks. destruct (healthCheckInterval this); now repeat split.
Qed.

Lemma perform_flagged (call : Call) (this : Manager) :
  isShuttingDown this = true ->
  isShuttingDown (fst (perform call this)) = true
  /\ closeAttempts (snd (perform call this)) = []
  /\ launchIndices (snd (perform call this)) = [].
Proof.
  intros Hflag.
  destruct call;
    try (rewrite perform_staggered; unfold startStaggeredLaunch;
         rewrite launchLoop_flagged by exact Hflag; cbn [fst snd];
         unfold teardownEnds; rewrite closesSettled_idle;
         now repeat split);
    simpl.
  - now rewrite launchBrowser_isShuttingDown.
  - now repeat split.
  - unfold healthCheckTick. now rewrite Hflag.
  - destruct (stopHealthChecks_quiet this) as (-> & -> & ->). now repeat split.
  - unfold shutdown. now rewrite Hflag.
Qed.

Lemma performAll_flagged (calls : list Call) :
  forall this,
    isShuttingDown this = true ->
    isShuttingDown (fst (performAll calls this)) = true
    /\ closeAttempts (snd (performAll calls this)) = []
    /\ launchIndices (snd (performAll calls this)) = [].
Proof.
  induction calls as [|call rest IH]; intros this H; [now repeat split|].
  rewrite performAll_cons. cbn [fst snd].
  destruct (perform_flagged call this H) as (Hf & Hc & Hi).
  destruct (IH _ Hf) as (Hf' & Hc' & Hi').
  rewrite closeAttempts_app, launchIndices_app, Hc, Hi, Hc', Hi'.
  now repeat split.
Qed.

(** A launch none of whose awaited steps throws tracks the browser that
    [chromium.launch] returned. *)
Lemma launchBrowser_tracks_browser (w : LaunchWorld) (index : nat)
    (streamUrl : string) (this : Manager) :
  firstThrow w = None ->
  exists b,
    chromium_launch w = Normal b
    /\ browsers (fst (launchBrowser w index streamUrl this))
       = browsers this ++ [b].
Proof.
  intros F.
  assert (Hb : exists b p playing,
             chromium_launch w = Normal b
             /\ launchSteps w = Normal (b, p, playing)).
  { clear - F. destruct_world w; unfold firstThrow, launchSteps in *;
      simpl in *; try discriminate; eexists _, _, _; split; reflexivity. }
  destruct Hb as (b & p & playing & Hb & Hsteps).
  exists b. split; [exact Hb|].
  unfold launchBrowser. rewrite Hsteps. now destruct playing.
Qed.

(** X13. The shutdown flag is never reset: once [shutdown()] has been
    called, no later call of a method closes a browser and no staggered
    launch issues a launch. [launchBrowser] itself does not look at the
    flag. A launch that settles after the shutdown has returned adds its
    browser to the emptied list, and no later call closes it. A launch
    that settles while the shutdown is still waiting for a browser to
    close adds its browser to the array that the shutdown iterates over,
    and the shutdown goes on to close it with the others. *)
Theorem shutdown_is_final (calls : list Call) (w : LaunchWorld)
    (index : nat) (streamUrl : string) (close : Browser -> Completion unit) :
  (forall this,
     isShuttingDown this = true ->
     isShuttingDown (fst (performAll calls this)) = true
     /\ closeAttempts (snd (performAll calls this)) = []
     /\ launchIndices (snd (performAll calls this)) = [])
  /\ (firstThrow w = None ->
      exists b,
        chromium_launch w = Normal b
        /\ (forall this,
              isShuttingDown this = false ->
              let returned := fst (shutdown close this) in
              let late := fst (launchBrowser w index streamUrl returned) in
              browsers late = [b]
              /\ closeAttempts (snd (performAll calls late)) = [])
        /\ (forall this t,
              position t < List.length (browsers this) ->
              let meanwhile := fst (launchBrowser w index streamUrl this) in
              browsers meanwhile = browsers this ++ [b]
              /\ closeAttempts (snd (teardownEnds close meanwhile (Some t)))
                 = skipn (position t) (browsers this) ++ [b])).
Proof.
  split; [intros this; apply performAll_flagged|].
  intros F.
  destruct (launchBrowser_tracks_browser w index streamUrl constructor F)
    as (b & Hb & _).
  exists b. split; [exact Hb|].
  assert (Htracks : forall this,
             browsers (fst (launchBrowser w index streamUrl this))
             = browsers this ++ [b]).
  { intros this.
    destruct (launchBrowser_tracks_browser w index streamUrl this F)
      as (b' & Hb' & Hl).
    rewrite Hb in Hb'. injection Hb' as <-. exact Hl. }
  split.
  - intros this Hflag returned late. unfold late, returned.
    rewrite shutdown_first by exact Hflag. cbn [fst]. split.
    + now rewrite Htracks.
    + apply performAll_flagged. now rewrite launchBrowser_isShuttingDown.
  - intros this t Hpos meanwhile. unfold meanwhile. split; [apply Htracks|].
    rewrite teardownEnds_ends. cbn [snd].
    rewrite closeAttempts_app, closeAttempts_closes, Htracks.
    cbn [closeAttempts]. rewrite app_nil_r, skipn_app.
    replace (position t - List.length (browsers this)) with 0 by lia.
    reflexivity.
Qed.

Lemma shutdown_is_final_witness :
  let w :=
    mkLaunchWorld (Normal 12) (Normal 1) (Normal 2) (Normal tt) (Normal tt)
                  (Normal tt) (Normal tt) in
  let close : Browser -> Completion unit := fun _ => Normal tt in
  let tracking := mkManager [10; 11] [0; 1] (mkStats 2 2 0 0) false None in
  let closing := fst (shutdownBegin tracking) in
  closeAttempts
    (snd (teardownEnds close
            (fst (launchBrowser w 3 "https://stream"%string closing))
            (Some (mkTeardown 1 1))))
  = [11; 12]
  /\ browsers (fst (launchBrowser w 3 "https://stream"%string
                      (fst (shutdown close tracking))))
     = [12]
  /\ closeAttempts
       (snd (performAll [CallShutdown close; CallStopHealthChecks]
               (fst (launchBrowser w 3 "https://stream"%string
                       (fst (shutdown close tracking))))))
     = [].
Proof.
  intros w close tracking closing.
  destruct (proj2 (shutdown_is_final
                     [CallShutdown close; CallStopHealthChecks] w 3
                     "https://stream"%string close) eq_refl)
    as (b & Hb & Hlate & Hmeanwhile).
  injection Hb as <-.
  split; [|exact (Hlate tracking eq_refl)].
  refine (proj2 (Hmeanwhile closing (mkTeardown 1 1) _)).
  simpl. lia.
Defined.

End ShutdownFacts.

Section AccountingFacts.

Import Run.

Variable sched : Schedule.
Variable count : nat.
Variable streamUrl : string.
Variable delayMs : nat.
Variable onProgress : bool.




End AccountingFacts.


Section TickFacts.

Import Run.

Lemma clearedIntervals_closes (close : Browser -> Completion unit)
    (bs : list Browser) (closed total : nat) :
  clearedIntervals
    (map (fun b => EvClose b (closesOn close b)) bs
     ++ [EvLogClosed closed total])
  = [].
Proof. induction bs as [|b bs IH]; [reflexivity|exact IH]. Qed.

(** X15. Ticks do not accumulate: after two ticks in a row the manager is
    as after the second one alone, whatever the first one had read. *)
Theorem healthCheckTick_last_wins (first second : StreamMonitor.Evaluate)
    (u1 u2 : bool) (this : Manager) :
  fst (healthCheckTick second u2 (fst (healthCheckTick first u1 this)))
  = fst (healthCheckTick second u2 this).
Proof.
  destruct (isShuttingDown this) eqn:Hflag.
  - unfold healthCheckTick. rewrite Hflag. cbn [fst]. now rewrite Hflag.
  - rewrite (healthCheckTick_polls first u1 this Hflag).
    rewrite !healthCheckTick_polls by exact Hflag. reflexivity.
Qed.

(** X16. [startHealthChecks] never clears an interval that is already
    running: when it is called twice, a later [stopHealthChecks] or
    [shutdown] clears the second interval only, and the first one is lost;
    a second [stopHealthChecks] clears nothing. *)
Theorem startHealthChecks_twice_leaks (t1 t2 : Timer)
    (close : Browser -> Completion unit) (this : Manager) :
  clearedIntervals
    (snd (stopHealthChecks
            (startHealthChecks t2 (startHealthChecks t1 this))))
  = [t2]
  /\ snd (stopHealthChecks
            (fst (stopHealthChecks
                    (startHealthChecks t2 (startHealthChecks t1 this)))))
     = []
  /\ (isShuttingDown this = false ->
      clearedIntervals
        (snd (shutdown close
                (startHealthChecks t2 (startHealthChecks t1 this))))
      = [t2]).
Proof.
  split; [reflexivity|]. split; [reflexivity|]. intros Hflag.
  rewrite shutdown_first by exact Hflag. cbn [snd].
  unfold intervalStop. simpl. f_equal. apply clearedIntervals_closes.
Qed.

End TickFacts.

(* ================================================================== *)
(** * Beyond the claims: index.js *)
(* ================================================================== *)

Section IndexFacts.

Import JSValue.

Lemma split_nonempty (sep : ascii) (text : string) :
  exists first others, Index.split sep text = first :: others.
Proof.
  induction text as [|c rest (first & others & IH)]; simpl.
  - now exists ""%string, [].
  - destruct (Ascii.eqb c sep).
    + now exists ""%string, (Index.split sep rest).
    + rewrite IH. now exists (String c first), others.
Qed.

Lemma split_free (sep : ascii) (text : string) :
  Index.free sep text = true -> Index.split sep text = [text].
Proof.
  induction text as [|c rest IH]; simpl; intros H; [reflexivity|].
  apply andb_prop in H. destruct H as [Hc Hr].
  apply negb_true_iff in Hc. rewrite Hc, (IH Hr). reflexivity.
Qed.

Lemma split_at_first (sep : ascii) (before after : string) :
  Index.free sep before = true ->
  Index.split sep (before ++ String sep after)%string
  = before :: Index.split sep after.
Proof.
  induction before as [|c rest IH]; simpl; intros H.
  - now rewrite Ascii.eqb_refl.
  - apply andb_prop in H. destruct H as [Hc Hr].
    apply negb_true_iff in Hc. rewrite Hc, (IH Hr). reflexivity.
Qed.

Lemma find_skips (A : Type) (p : A -> bool) (before : list A) (a : A)
    (rest : list A) :
  Forall (fun x => p x = false) before -> p a = true ->
  find p (before ++ a :: rest) = Some a.
Proof.
  induction 1 as [|x xs Hx _ IH]; intros Ha; simpl.
  - now rewrite Ha.
  - rewrite Hx. now apply IH.
Qed.

(** The value of a flag is what stands between the first and the second
    [=] of the first argument that starts with its name. *)
Lemma flagValue_first_segment (before rest : list string)
    (value : string) :
  Forall (fun a => String.prefix "--url=" a = false) before ->
  Index.flagValue "--url=" (before ++ ("--url=" ++ value)%string :: rest)
  = nth_error (Index.split "="%char value) 0.
Proof.
  intros H. unfold Index.flagValue.
  rewrite (@find_skips _ (fun a => String.prefix "--url=" a) before
             ("--url=" ++ value)%string rest H).
  - change ("--url=" ++ value)%string
      with ("--url" ++ String "="%char value)%string.
    now rewrite split_at_first.
  - simpl. repeat (destruct (ascii_dec _ _); [|congruence]).
    destruct value; reflexivity.
Qed.

(** X17. The value of [--url=] is cut at the next [=]: for the first
    argument that starts with [--url=], the flag is the text up to the
    first [=] of what follows, so a URL with a query string loses
    everything from its first [=] on. When that text is empty the
    configured URL is used. *)
Theorem url_flag_cut_at_equals (before rest : list string)
    (kept dropped : string) (config : Config.Settings) :
  Forall (fun a => String.prefix "--url=" a = false) before ->
  Index.free "="%char kept = true ->
  Index.url
    (Index.parseFlags (before ++ ("--url=" ++ kept)%string :: rest))
  = Some kept
  /\ Index.url
       (Index.parseFlags
          (before ++ ("--url=" ++ kept ++ "=" ++ dropped)%string :: rest))
     = Some kept
  /\ (kept = ""%string ->
      Index.streamUrl
        (Index.parseFlags
           (before ++ ("--url=" ++ kept ++ "=" ++ dropped)%string :: rest))
        config
      = Config.streamUrl config).
Proof.
  intros Hbefore Hfree.
  assert (E1 : Index.flagValue "--url="
                 (before ++ ("--url=" ++ kept)%string :: rest)
               = Some kept).
  { rewrite flagValue_first_segment by exact Hbefore.
    now rewrite split_free. }
  assert (E2 : Index.flagValue "--url="
                 (before ++ ("--url=" ++ kept ++ "=" ++ dropped)%string
                  :: rest)
               = Some kept).
  { rewrite flagValue_first_segment by exact Hbefore.
    change (kept ++ "=" ++ dropped)%string
      with (kept ++ String "="%char dropped)%string.
    now rewrite split_at_first. }
  split; [exact E1|]. split; [exact E2|].
  intros ->. unfold Index.streamUrl, Index.parseFlags. cbn [Index.url].
  rewrite E2. reflexivity.
Qed.

(** X18. The progress line of [main] says "Playing" for every launch that
    returns [success: true], also when playback was not confirmed: the
    advisory "Video not playing yet" is never shown. For a launch that
    throws it shows the message of the error, or "Failed" when that
    message is empty. *)
Theorem progress_status_of_launch (w : LaunchWorld) (index count : nat)
    (streamUrl : string) (this : Manager) :
  let launch := launchBrowser w index streamUrl this in
  let progress :=
    mkProgress index count (success (snd launch)) (error (snd launch))
               (stats (fst launch)) in
  (firstThrow w = None -> Index.status progress = "✓ Playing"%string)
  /\ (forall message,
        firstThrow w = Some message ->
        Index.status progress
        = ("✗ " ++ orString (Some message) "Failed")%string).
Proof.
  intros launch progress. unfold progress, launch, launchBrowser. split.
  - intros F. destruct (launchSteps_normal w F) as (b & p & ->).
    destruct (throws (page_waitForFunction w)); reflexivity.
  - intros message F. rewrite (launchSteps_throw w F). reflexivity.
Qed.

Lemma isDigit_isWord (c : ascii) :
  Index.isDigit c = true -> Index.isWord c = true.
Proof. unfold Index.isWord. now intros ->. Qed.

Lemma withoutCommas_insertSeparators (text : string) :
  forall prev,
    Index.withoutCommas (Index.insertSeparators prev text)
    = Index.withoutCommas text.
Proof.
  induction text as [|c rest IH]; intros prev; [reflexivity|].
  cbn [Index.insertSeparators].
  destruct (Index.separatorAt prev (String c rest)).
  - change (Index.withoutCommas
              (String ","%char
                 (String c (Index.insertSeparators (Some c) rest))))
      with (Index.withoutCommas
              (String c (Index.insertSeparators (Some c) rest))).
    simpl. now rewrite IH.
  - simpl. now rewrite IH.
Qed.

Lemma digitRun_digits (text rest : string) :
  Index.allDigits text = true ->
  Index.digitRun (text ++ rest)%string
  = String.length text + Index.digitRun rest.
Proof.
  induction text as [|c more IH]; simpl; intros H; [reflexivity|].
  apply andb_prop in H. destruct H as [Hc Hm]. now rewrite Hc, (IH Hm).
Qed.

Lemma digitRun_allDigits (text : string) :
  Index.allDigits text = true -> Index.digitRun text = String.length text.
Proof.
  induction text as [|c more IH]; simpl; intros H; [reflexivity|].
  apply andb_prop in H. destruct H as [Hc Hm]. now rewrite Hc, (IH Hm).
Qed.

(** Fewer than three digits get no comma, whatever stands before them. *)
Lemma insertSeparators_below_three (text : string) :
  forall prev,
    Index.allDigits text = true -> String.length text < 3 ->
    Index.insertSeparators prev text = text.
Proof.
  induction text as [|c more IH]; intros prev Hd Hl; [reflexivity|].
  cbn [Index.insertSeparators].
  assert (Hs : Index.separatorAt prev (String c more) = false).
  { unfold Index.separatorAt. destruct prev as [q|]; [|reflexivity].
    rewrite (digitRun_allDigits _ Hd). simpl in Hl.
    assert (E : String.length (String c more) = 1
                \/ String.length (String c more) = 2) by (simpl; lia).
    destruct E as [-> | ->]; simpl; now rewrite !andb_false_r. }
  rewrite Hs. f_equal. simpl in Hd, Hl.
  apply andb_prop in Hd. destruct Hd as [_ Hd]. apply IH; [exact Hd|lia].
Qed.

(** Three digits after a digit get a comma in front and none inside. *)
Lemma insertSeparators_three (c : ascii) (last : string) :
  Index.isDigit c = true ->
  Index.allDigits last = true -> String.length last = 3 ->
  Index.insertSeparators (Some c) last = String ","%char last.
Proof.
  intros Hc Hd Hl.
  destruct last as [|d1 rest]; [discriminate|].
  cbn [Index.insertSeparators].
  assert (Hs : Index.separatorAt (Some c) (String d1 rest) = true).
  { unfold Index.separatorAt.
    rewrite (digitRun_allDigits _ Hd), Hl, (isDigit_isWord _ Hc).
    reflexivity. }
  rewrite Hs. f_equal. f_equal. simpl in Hd, Hl.
  apply andb_prop in Hd. destruct Hd as [_ Hd].
  apply insertSeparators_below_three; [exact Hd|lia].
Qed.

Lemma insertSeparators_before_three (head last : string) :
  Index.allDigits head = true -> head <> ""%string ->
  Index.allDigits last = true -> String.length last = 3 ->
  forall prev,
    Index.insertSeparators prev (head ++ last)%string
    = (Index.insertSeparators prev head ++ String ","%char last)%string.
Proof.
  intros Hh Hne Hl Hlen.
  induction head as [|c more IH]; [now elim Hne|]. intros prev.
  simpl in Hh. apply andb_prop in Hh. destruct Hh as [Hc Hm].
  assert (Hsep : Index.separatorAt prev (String c (more ++ last))
                 = Index.separatorAt prev (String c more)).
  { unfold Index.separatorAt. destruct prev as [p|]; [|reflexivity].
    cbn [Index.digitRun]. rewrite Hc.
    rewrite (digitRun_digits more last Hm), (digitRun_allDigits last Hl),
      (digitRun_allDigits more Hm), Hlen.
    f_equal.
    replace (S (String.length more + 3))
      with (S (String.length more) + 1 * 3) by lia.
    now rewrite Nat.Div0.mod_add. }
  change (String c more ++ last)%string with (String c (more ++ last)).
  cbn [Index.insertSeparators]. rewrite Hsep.
  assert (Hrest : Index.insertSeparators (Some c) (more ++ last)%string
                  = (Index.insertSeparators (Some c) more
                     ++ String ","%char last)%string).
  { destruct more as [|c' more'].
    - simpl. now apply insertSeparators_three.
    - apply IH; [exact Hm|discriminate]. }
  rewrite Hrest.
  destruct (Index.separatorAt prev (String c more)); reflexivity.
Qed.

(** X19. [formatNumber] only inserts commas: without them its result is
    the text of the number. On a text of digits it groups by three from
    the right: up to three digits are left as they are, and a longer text
    is the formatted text of all but its last three digits, a comma, and
    those three digits. *)
Theorem formatNumber_groups (toString : number -> string)
    (num rest : number) (head last : string) :
  Index.withoutCommas (Index.formatNumber toString num)
  = Index.withoutCommas (toString num)
  /\ (Index.allDigits (toString num) = true ->
      String.length (toString num) <= 3 ->
      Index.formatNumber toString num = toString num)
  /\ (toString num = (head ++ last)%string ->
      toString rest = head ->
      Index.allDigits head = true -> head <> ""%string ->
      Index.allDigits last = true -> String.length last = 3 ->
      Index.formatNumber toString num
      = (Index.formatNumber toString rest ++ String ","%char last)%string).
Proof.
  unfold Index.formatNumber. split; [|split].
  - apply withoutCommas_insertSeparators.
  - intros Hd Hl. destruct (toString num) as [|c more]; [reflexivity|].
    cbn [Index.insertSeparators Index.separatorAt]. f_equal.
    simpl in Hd, Hl. apply andb_prop in Hd. destruct Hd as [_ Hd].
    apply insertSeparators_below_three; [exact Hd|lia].
  - intros -> -> Hh Hne Hl Hlen.
    now apply insertSeparators_before_three.
Qed.

End IndexFacts.

(* ================================================================== *)
(** * Beyond the claims: instances *)
(* ================================================================== *)

Lemma probe_errors_sticky_witness :
  let h :=
    StreamMonitor.mkStreamHealth true (of_Z 9) (of_Z 8) 0 0
      ["Unknown error"%string] 4 0%Z in
  pollPages
    (Probe.reads
       (Probe.run [Probe.OnPlaying;
                   Probe.OnInterval (Probe.mkVideo false false 4 (of_Z 10))]
                  h))
    [0] 0 0 0
  = (0, 0, 1).
Proof.
  intros h.
  apply (proj2 (@probe_errors_sticky
                  [Probe.OnPlaying;
                   Probe.OnInterval (Probe.mkVideo false false 4 (of_Z 10))]
                  h 0)).
  discriminate.
Defined.

Lemma probe_unhealthy_before_first_sample_witness :
  fst (fst (pollPages
              (Probe.reads
                 (Probe.snapshot 0%Z true [Probe.OnPlaying; Probe.OnWaiting]))
              [0] 0 0 0))
  = 0.
Proof.
  apply (proj2 (@probe_unhealthy_before_first_sample 0%Z true
                  [Probe.OnPlaying; Probe.OnWaiting] 0 eq_refl)).
Defined.

Lemma probe_sample_health_witness :
  exists report,
    StreamMonitor.getHealth
      (Probe.reads
         (Probe.run
            (Probe.OnInterval (Probe.mkVideo false false 4 (of_Z 5))
             :: [Probe.OnPlaying]
             ++ [Probe.OnInterval (Probe.mkVideo false false 4 (of_Z 5))])
            (Probe.initial 0%Z)))
      0
    = Normal report
    /\ StreamMonitor.healthy report = false.
Proof.
  apply (proj2 (@probe_sample_health (Probe.initial 0%Z)
                  (Probe.mkVideo false false 4 (of_Z 5))
                  (Probe.mkVideo false false 4 (of_Z 5))
                  [Probe.OnPlaying] 0));
    reflexivity.
Defined.

Lemma probe_counts_do_not_classify_witness :
  let h :=
    StreamMonitor.mkStreamHealth true (of_Z 9) (of_Z 8) 0 0 [] 4 0%Z in
  pollPages
    (Probe.reads (Probe.run [Probe.OnWaiting; Probe.OnStalled;
                             Probe.OnWaiting] h))
    [0] 0 0 0
  = pollPages (Probe.reads h) [0] 0 0 0.
Proof.
  intros h.
  refine (proj1 (proj2 (proj2 (@probe_counts_do_not_classify
                                 [Probe.OnWaiting; Probe.OnStalled;
                                  Probe.OnWaiting]
                                 h 0)) _)).
  constructor; [now left|]. constructor; [now right|].
  constructor; [now left|]. constructor.
Defined.

Lemma healthCheckTick_recomputes_witness :
  let playing := fun index =>
    mkLaunchWorld (Normal (10 + index)) (Normal 1) (Normal index)
                  (Normal tt) (Normal tt) (Normal tt) (Normal tt) in
  let failing :=
    mkLaunchWorld (Throw "browserType.launch: Executable doesn't exist"%string)
                  (Normal 1) (Normal 0) (Normal tt) (Normal tt) (Normal tt)
                  (Normal tt) in
  let gone : StreamMonitor.Evaluate :=
    fun _ => Throw "Target closed"%string in
  let launches :=
    [Run.CallLaunchBrowser (playing 1) 1 "https://stream"%string;
     Run.CallLaunchBrowser failing 2 "https://stream"%string;
     Run.CallLaunchBrowser (playing 3) 3 "https://stream"%string] in
  (stats (fst (Run.performAll launches constructor)) = mkStats 2 2 0 1
   /\ stats (fst (healthCheckTick gone true
                    (fst (Run.performAll launches constructor))))
      = mkStats 2 0 0 2)
  /\ healthCheckTick gone true
       (fst (Run.performAll
               (launches ++ [Run.CallShutdown (fun _ => Normal tt)])
               constructor))
     = (fst (Run.performAll
               (launches ++ [Run.CallShutdown (fun _ => Normal tt)])
               constructor), []).
Proof.
  intros playing failing gone launches. split; [split; [reflexivity|]|].
  - exact (proj1 (proj1 (healthCheckTick_recomputes launches gone true)
                    eq_refl)).
  - exact (proj2 (proj2 (healthCheckTick_recomputes
                           (launches
                            ++ [Run.CallShutdown (fun _ => Normal tt)])
                           gone true)) eq_refl).
Defined.

Lemma tick_adds_up_witness :
  let failing :=
    mkLaunchWorld (Normal 10) (Normal 1) (Normal 0)
                  (Throw "net::ERR_CONNECTION_REFUSED"%string)
                  (Normal tt) (Normal tt) (Normal tt) in
  let playing :=
    mkLaunchWorld (Normal 11) (Normal 1) (Normal 1) (Normal tt) (Normal tt)
                  (Normal tt) (Normal tt) in
  let calls :=
    [Run.CallLaunchBrowser failing 1 "https://stream"%string;
     Run.CallLaunchBrowser playing 2 "https://stream"%string] in
  let st :=
    stats (fst (healthCheckTick (fun _ => Normal None) true
                  (fst (Run.performAll calls constructor)))) in
  healthy st + buffering st + errors st = launched st.
Proof.
  intros failing playing calls st.
  refine (proj1 (@tick_adds_up calls (fun _ => Normal None) true _)).
  repeat constructor.
Defined.

Lemma shutdown_closes_launched_witness :
  let playing :=
    mkLaunchWorld (Normal 11) (Normal 1) (Normal 1) (Normal tt) (Normal tt)
                  (Normal tt) (Normal tt) in
  let calls :=
    [Run.CallLaunchBrowser playing 1 "https://stream"%string;
     Run.CallStartHealthChecks 7;
     Run.CallTick (fun _ => Normal None) true] in
  Run.reportedTotal
    (snd (shutdown (fun _ => Throw "Target closed"%string)
            (fst (Run.performAll calls constructor))))
  = Some 1.
Proof.
  intros playing calls.
  refine (proj2 (proj2 (@shutdown_closes_launched calls
                          (fun _ => Throw "Target closed"%string) _))).
  repeat constructor.
Defined.

Lemma failed_launch_leaks_browser_witness :
  let failing :=
    mkLaunchWorld (Normal 10) (Normal 1) (Normal 0)
                  (Throw "net::ERR_CONNECTION_REFUSED"%string)
                  (Normal tt) (Normal tt) (Normal tt) in
  ~ In 10 (closeAttempts
             (snd (shutdown (fun _ => Normal tt)
                     (fst (launchBrowser failing 1 "https://stream"%string
                             constructor))))).
Proof.
  intros failing.
  apply (proj2 (@failed_launch_leaks_browser failing 1
                  "https://stream"%string constructor (fun _ => Normal tt)
                  10 "net::ERR_CONNECTION_REFUSED"%string
                  eq_refl eq_refl (fun H => H))).
Defined.

Lemma startHealthChecks_twice_leaks_witness :
  Run.clearedIntervals
    (snd (shutdown (fun _ => Normal tt)
            (startHealthChecks 2 (startHealthChecks 1 constructor))))
  = [2].
Proof.
  apply (proj2 (proj2 (@startHealthChecks_twice_leaks 1 2
                         (fun _ => Normal tt) constructor)) eq_refl).
Defined.

Lemma url_flag_cut_at_equals_witness :
  Index.url
    (Index.parseFlags
       ["--yes"%string;
        ("--url=" ++ "https://stream.example/watch?v" ++ "=" ++ "42")%string])
  = Some "https://stream.example/watch?v"%string.
Proof.
  apply (proj1 (proj2 (@url_flag_cut_at_equals ["--yes"%string] []
                         "https://stream.example/watch?v"%string
                         "42"%string
                         (Config.load (fun _ => None) (fun _ => NaN)
                                      (fun _ => NaN))
                         ltac:(repeat constructor) eq_refl))).
Defined.

Lemma progress_status_of_launch_witness :
  let silent :=
    mkLaunchWorld (Normal 11) (Normal 1) (Normal 1) (Normal tt) (Normal tt)
                  (Normal tt) (Throw "Timeout 15000ms exceeded"%string) in
  let launch := launchBrowser silent 1 "https://stream"%string constructor in
  error (snd launch) = Some "Video not playing yet"%string
  /\ Index.status
       (mkProgress 1 3 (success (snd launch)) (error (snd launch))
                   (stats (fst launch)))
     = "✓ Playing"%string.
Proof.
  intros silent launch. split; [reflexivity|].
  apply (proj1 (@progress_status_of_launch silent 1 3
                  "https://stream"%string constructor) eq_refl).
Defined.

Lemma formatNumber_groups_witness :
  let toString := fun x : number =>
    if JS.eq x (of_Z 1234567) then "1234567"%string
    else if JS.eq x (of_Z 1234) then "1234"%string
    else "1"%string in
  Index.formatNumber toString (of_Z 1234567)
  = (Index.formatNumber toString (of_Z 1234) ++ ",567")%string
  /\ Index.formatNumber toString (of_Z 1234567) = "1,234,567"%string.
Proof.
  intros toString. split; [|vm_compute; reflexivity].
  apply (proj2 (proj2 (@formatNumber_groups toString (of_Z 1234567)
                         (of_Z 1234) "1234"%string "567"%string)));
    try reflexivity.
  discriminate.
Defined.

(* ================================================================== *)
(** * Beyond the claims: the confirmation prompt *)
(* ================================================================== *)

Section ConfirmFacts.

Variables trim toLowerCase : string -> string.
Variable parseInt : string -> number.

Lemma le_one_lt_zero (x : number) :
  le (of_Z 1) x = true -> lt (of_Z 0) x = true.
Proof.
  rewrite of_Z_1. destruct x as [s|s| |s m e]; try discriminate.
  - destruct s; [discriminate|reflexivity].
  - destruct s; [discriminate|reflexivity].
Qed.

(** X21. What the confirmation prompt resolves to, for the answer with
    its blanks trimmed and in lower case: "y" and "yes" proceed with the
    suggested count; "n", "no" and the empty answer cancel; any other
    answer gives a custom count when it parses to a number above zero, and
    cancels when it parses to 0, to a negative number or to NaN. A
    cancelled prompt starts no launch. So when the suggested count is at
    least 1, the count [main] starts the launch with is above zero, with
    or without [--yes]; without a prompt ([--yes]) it is the suggested
    count itself. *)
Theorem confirmation_count_positive (flags : Index.Flags)
    (maxBrowsers : number) (answer : string) :
  let trimmed := toLowerCase (trim answer) in
  let result := Index.confirmWithCustom trim toLowerCase parseInt answer in
  let confirmed :=
    Index.confirmedMaxBrowsers trim toLowerCase parseInt flags maxBrowsers
      answer in
  (trimmed = "y"%string \/ trimmed = "yes"%string -> result = Index.Proceed)
  /\ (trimmed = "n"%string \/ trimmed = "no"%string \/ trimmed = ""%string ->
      result = Index.Cancelled)
  /\ (trimmed <> "y"%string -> trimmed <> "yes"%string ->
      trimmed <> "n"%string -> trimmed <> "no"%string ->
      trimmed <> ""%string ->
      (isNaN (parseInt trimmed) = true
       \/ gt (parseInt trimmed) (of_Z 0) = false ->
       result = Index.Cancelled)
      /\ (isNaN (parseInt trimmed) = false ->
          gt (parseInt trimmed) (of_Z 0) = true ->
          result = Index.Custom (parseInt trimmed)))
  /\ (forall count,
        result = Index.Custom count ->
        count = parseInt trimmed /\ lt (of_Z 0) count = true)
  /\ (Index.yes flags = false ->
      (result = Index.Cancelled -> confirmed = None)
      /\ (result = Index.Proceed -> confirmed = Some maxBrowsers)
      /\ (forall count, result = Index.Custom count ->
           confirmed = Some count))
  /\ (le (of_Z 1) maxBrowsers = true ->
      forall count, confirmed = Some count -> lt (of_Z 0) count = true)
  /\ (Index.yes flags = true -> confirmed = Some maxBrowsers).
Proof.
  intros trimmed result confirmed.
  assert (Hcustom : forall count,
             result = Index.Custom count ->
             count = parseInt trimmed /\ lt (of_Z 0) count = true).
  { intros count. unfold result, Index.confirmWithCustom. fold trimmed.
    destruct (_ || _); [discriminate|].
    destruct (_ || _); [discriminate|].
    destruct (negb _ && _) eqn:E; [|discriminate].
    intros [= <-]. split; [reflexivity|].
    apply andb_prop in E. exact (proj2 E). }
  split; [|split; [|split; [|split; [exact Hcustom|split; [|split]]]]].
  - unfold result, Index.confirmWithCustom. fold trimmed.
    intros [->| ->]; reflexivity.
  - unfold result, Index.confirmWithCustom. fold trimmed.
    intros [->|[->| ->]]; reflexivity.
  - intros Hy Hyes Hn Hno Hempty.
    unfold result, Index.confirmWithCustom. fold trimmed.
    apply String.eqb_neq in Hy, Hyes, Hn, Hno, Hempty.
    rewrite Hy, Hyes, Hn, Hno, Hempty. cbn [orb].
    split.
    + intros [H|H]; rewrite H; [reflexivity|].
      now rewrite andb_false_r.
    + intros H1 H2. now rewrite H1, H2.
  - intros Hyes. unfold confirmed, Index.confirmedMaxBrowsers.
    rewrite Hyes. fold result.
    split; [|split]; [intros ->|intros ->|intros count ->]; reflexivity.
  - intros Hge count. unfold confirmed, Index.confirmedMaxBrowsers.
    destruct (Index.yes flags).
    + intros [= <-]. now apply le_one_lt_zero.
    + fold result. destruct result as [| |custom] eqn:E; try discriminate.
      * intros [= <-]. now apply le_one_lt_zero.
      * intros [= <-]. exact (proj2 (Hcustom custom eq_refl)).
  - intros H. unfold confirmed, Index.confirmedMaxBrowsers. now rewrite H.
Qed.

End ConfirmFacts.

Lemma confirmation_count_positive_witness :
  let parseInt := fun text : string =>
    if String.eqb text "12" then of_Z 12
    else if String.eqb text "0" then of_Z 0
    else if String.eqb text "-3" then of_Z (-3) else NaN in
  let id := fun text : string => text in
  let flags := Index.mkFlags false None None false false in
  Index.confirmedMaxBrowsers id id parseInt flags (of_Z 28) "0" = None
  /\ Index.confirmedMaxBrowsers id id parseInt flags (of_Z 28) "-3" = None
  /\ Index.confirmedMaxBrowsers id id parseInt flags (of_Z 28) "many" = None
  /\ Index.confirmedMaxBrowsers id id parseInt flags (of_Z 28) "12"
     = Some (of_Z 12)
  /\ lt (of_Z 0) (of_Z 12) = true.
Proof.
  intros parseInt id flags.
  assert (Hcancel : forall answer,
             answer <> "y"%string -> answer <> "yes"%string ->
             answer <> "n"%string -> answer <> "no"%string ->
             answer <> ""%string ->
             isNaN (parseInt answer) = true
             \/ gt (parseInt answer) (of_Z 0) = false ->
             Index.confirmedMaxBrowsers id id parseInt flags (of_Z 28) answer
             = None).
  { intros answer H1 H2 H3 H4 H5 H.
    pose proof (@confirmation_count_positive id id parseInt flags (of_Z 28)
                  answer) as (_ & _ & Hother & _ & Hprompt & _).
    apply (proj1 (Hprompt eq_refl)).
    exact (proj1 (Hother H1 H2 H3 H4 H5) H). }
  split; [|split; [|split; [|split]]].
  - apply Hcancel; try discriminate. right. reflexivity.
  - apply Hcancel; try discriminate. right. reflexivity.
  - apply Hcancel; try discriminate. left. reflexivity.
  - pose proof (@confirmation_count_positive id id parseInt flags (of_Z 28)
                  "12"%string) as (_ & _ & Hother & _ & Hprompt & _).
    apply (proj2 (proj2 (Hprompt eq_refl))).
    apply (proj2 (Hother ltac:(discriminate) ltac:(discriminate)
                    ltac:(discriminate) ltac:(discriminate)
                    ltac:(discriminate)));
      reflexivity.
  - apply (proj1 (proj2 (proj2 (proj2 (proj2 (proj2
             (@confirmation_count_positive id id parseInt flags (of_Z 28)
                "12"%string))))))
                 eq_refl (of_Z 12) eq_refl).
Defined.

Lemma runSpeedTest_budget_witness :
  let parseInt := fun _ : string => NaN in
  let parseFloat := fun _ : string => NaN in
  let download :=
    Normal (Measure.finished (of_Z 10000000) (of_Z 800)) in
  let pingTest := Normal (Measure.finished (of_Z 1000) (of_Z 40)) in
  le (of_Z 1)
     (calculateMaxBrowsers
        (downloadKbps
           (Measure.runSpeedTest parseFloat pingTest (of_Z 40) download
                                 "ignored"))
        (Config.streamBitrateKbps
           (Config.load (fun _ => None) parseInt parseFloat))
        (Config.bandwidthSafetyMargin
           (Config.load (fun _ => None) parseInt parseFloat)))
  = true
  /\ downloadKbps
       (Measure.runSpeedTest parseFloat pingTest (of_Z 40) download
                             "ignored")
     = of_Z 100000.
Proof.
  intros parseInt parseFloat download pingTest.
  split; [|vm_compute; reflexivity].
  exact (proj2 (proj2 (proj2 (proj2 (@runSpeedTest_budget (fun _ => None)
           parseInt parseFloat pingTest download (of_Z 40)
           (of_Z 10000000) (of_Z 800) "ignored"%string))
           eq_refl eq_refl eq_refl eq_refl eq_refl))
           eq_refl eq_refl).
Defined.
